(** * edulog-pdf: the data-normalisation and threshold-scoring pipeline

    A shallow embedding of the browser-side adapters
    ([aMerkfaehigkeit], [mZeichnen], [figurGrundS], [ArbeitsBlaetter]) and of
    the shared [EdulogApiService], with the properties of the specification
    stated and settled against it, followed by further properties of the
    code.

    Modelling conventions.
    - JSON payloads are untyped, as the code receives them: a [value] is
      [undefined], [null], a boolean, a number, a string, an array or an
      object.  Objects are finite maps from property names to values.
    - Strings are UTF-8 byte strings (the source files are UTF-8); string
      equality is not affected by the encoding.
    - Numbers are [NaN] and the integers.
    - The built-ins whose result depends on the host or on Unicode tables
      are the fields of the class [Host]: the conversions between strings
      and numbers, [trim], [parseInt], the date parser and formatter,
      [encodeURIComponent] and the clock.  The general statements hold for
      every host; the evaluations at concrete inputs use [ExampleHost].
    - A thrown exception is the [Throw] outcome of a [result].
    - [await] is sequential: a call runs to its end before the next one
      starts, and the requests it sends are logged in order. *)

From stdpp Require Import base option list strings gmap sorting pretty.
From Stdlib Require Import ZArith Lia Ascii.

Set Warnings "-register-all,-clear-no-such-hyp".
Local Open Scope Z_scope.

(** ** JavaScript values *)

Inductive number :=
  | NaN
  | Num (z : Z).

Inductive value :=
  | JUndefined
  | JNull
  | JBool (b : bool)
  | JNumber (n : number)
  | JString (s : string)
  | JArray (elems : list value)
  | JObject (props : gmap string value).

Inductive result (A : Type) :=
  | Ok (a : A)
  | Throw (e : string).
Arguments Ok {A} a.
Arguments Throw {A} e.

#[global] Instance result_ret : MRet result := @Ok.
#[global] Instance result_bind : MBind result := λ A B f m,
  match m with
  | Ok a => f a
  | Throw e => Throw e
  end.

(** [ToBoolean]. *)
Definition truthy (v : value) : bool :=
  match v with
  | JUndefined | JNull => false
  | JBool b => b
  | JNumber NaN => false
  | JNumber (Num z) => negb (z =? 0)
  | JString s => negb (String.eqb s "")
  | JArray _ | JObject _ => true
  end.

(** [a || b] and [a && b] on values. *)
Definition or_else (a b : value) : value := if truthy a then a else b.
Definition and_then (a b : value) : value := if truthy a then b else a.

Definition nullish (v : value) : bool :=
  match v with
  | JUndefined | JNull => true
  | _ => false
  end.

(** [typeof v === 'object']. *)
Definition typeof_object (v : value) : bool :=
  match v with
  | JNull | JArray _ | JObject _ => true
  | _ => false
  end.

(** Strict equality [a === b].  Arrays and objects are compared by reference
    in JavaScript; the code only ever compares against a primitive literal,
    where a composite operand gives [false]. *)
Definition strict_eq (a b : value) : bool :=
  match a, b with
  | JUndefined, JUndefined => true
  | JNull, JNull => true
  | JBool x, JBool y => Bool.eqb x y
  | JNumber (Num x), JNumber (Num y) => x =? y
  | JString x, JString y => String.eqb x y
  | _, _ => false
  end.

(** Arithmetic and comparisons on numbers; every comparison with [NaN] is
    false. *)
Definition num_sub (a b : number) : number :=
  match a, b with
  | Num x, Num y => Num (x - y)
  | _, _ => NaN
  end.

Definition num_add (a b : number) : number :=
  match a, b with
  | Num x, Num y => Num (x + y)
  | _, _ => NaN
  end.

Definition num_le (a b : number) : bool :=
  match a, b with
  | Num x, Num y => x <=? y
  | _, _ => false
  end.

Definition num_lt (a b : number) : bool :=
  match a, b with
  | Num x, Num y => x <? y
  | _, _ => false
  end.

Definition num_ge (a b : number) : bool := num_le b a.
Definition num_gt (a b : number) : bool := num_lt b a.

Definition num_eq (a b : number) : bool :=
  match a, b with
  | Num x, Num y => x =? y
  | _, _ => false
  end.

(** [n || d] for a number [n] and a numeric literal [d]. *)
Definition num_or (n : number) (d : Z) : number :=
  if truthy (JNumber n) then n else Num d.

(** ** Dates: the local calendar fields the code reads *)

Inductive Date :=
  | InvalidDate
  | LocalDate (year month day : Z).   (* month is 0-based, as [getMonth] *)

Definition getFullYear (d : Date) : number :=
  match d with InvalidDate => NaN | LocalDate y _ _ => Num y end.
Definition getMonth (d : Date) : number :=
  match d with InvalidDate => NaN | LocalDate _ m _ => Num m end.
Definition getDate (d : Date) : number :=
  match d with InvalidDate => NaN | LocalDate _ _ x => Num x end.

(** Day number of a proleptic Gregorian date (month 1..12) and back. *)
Definition days_from_civil (y m d : Z) : Z :=
  let y := if m <=? 2 then y - 1 else y in
  let era := y / 400 in
  let yoe := y - era * 400 in
  let doy := (153 * (if 2 <? m then m - 3 else m + 9) + 2) / 5 + d - 1 in
  let doe := yoe * 365 + yoe / 4 - yoe / 100 + doy in
  era * 146097 + doe - 719468.

Definition civil_from_days (z : Z) : Z * Z * Z :=
  let z := z + 719468 in
  let era := z / 146097 in
  let doe := z - era * 146097 in
  let yoe := (doe - doe / 1460 + doe / 36524 - doe / 146096) / 365 in
  let doy := doe - (365 * yoe + yoe / 4 - yoe / 100) in
  let mp := (5 * doy + 2) / 153 in
  let d := doy - (153 * mp + 2) / 5 + 1 in
  let m := if mp <? 10 then mp + 3 else mp - 9 in
  ((if m <=? 2 then yoe + era * 400 + 1 else yoe + era * 400), m, d).

(** [new Date(year, month, day)]: a [NaN] component gives an invalid date;
    years 0..99 mean 1900..1999; months and days out of range carry over;
    a date more than 100,000,000 days from the epoch is invalid. *)
Definition newDate (year month day : number) : Date :=
  match year, month, day with
  | Num y, Num m, Num d =>
      let y := if (0 <=? y) && (y <=? 99) then 1900 + y else y in
      let ym := y + m / 12 in
      let mn := m mod 12 in
      let t := days_from_civil ym (mn + 1) 1 + d - 1 in
      if (-100000000 <=? t) && (t <=? 100000000) then
        let '(cy, cm, cd) := civil_from_days t in LocalDate cy (cm - 1) cd
      else InvalidDate
  | _, _, _ => InvalidDate
  end.

(** ** The host: built-ins that are taken as parameters *)

Class Host := {
  (** [Number(s)] on a string *)
  StringToNumber : string → number;
  (** [String(n)] on a number, as in a template literal *)
  NumberToString : number → string;
  (** [String.prototype.trim] *)
  trim : string → string;
  (** [parseInt(s, 10)] *)
  parseInt : string → number;
  (** [new Date(s)] on a string, read in local time *)
  DateParse : string → Date;
  (** [d.toLocaleDateString('de-DE')] *)
  toLocaleDateString : Date → string;
  encodeURIComponent : string → string;
  (** the clock: the local date of [new Date()] *)
  nowYear : Z;
  nowMonth : Z;
  nowDate : Z;
}.

(** ** Strings *)

(** [s.split(c)] for a one-character separator. *)
Fixpoint split_on (sep : ascii) (s : string) : list string :=
  match s with
  | EmptyString => [""]
  | String c s' =>
      if Ascii.eqb c sep then "" :: split_on sep s'
      else match split_on sep s' with
           | h :: t => String c h :: t
           | [] => [String c ""]
           end
  end.

(** [s.includes(c)] for a one-character needle. *)
Fixpoint contains_char (c : ascii) (s : string) : bool :=
  match s with
  | EmptyString => false
  | String c' s' => Ascii.eqb c' c || contains_char c s'
  end.

(** JavaScript indexes a string by UTF-16 code units, where a string is
    here the sequence of its UTF-8 bytes.  A code point below U+10000 (one
    to three bytes) is one unit; a code point from U+10000 on (four bytes)
    is two units, a high and a low surrogate.  [code_units] lists the units
    of a string, each as a string of its own: the bytes of its code point,
    and for a surrogate the three bytes that write its code.  A byte that
    starts no complete sequence counts as a unit. *)
Definition three_bytes (u : N) : string :=
  String (ascii_of_N (224 + u / 4096))
    (String (ascii_of_N (128 + (u / 64) mod 64))
       (String (ascii_of_N (128 + u mod 64)) EmptyString)).

Fixpoint code_units (s : string) : list string :=
  match s with
  | EmptyString => []
  | String b0 s1 =>
      let n := N_of_ascii b0 in
      if (n <? 192)%N then String b0 "" :: code_units s1
      else if (n <? 224)%N then
        match s1 with
        | String b1 s2 => String b0 (String b1 "") :: code_units s2
        | EmptyString => [String b0 ""]
        end
      else if (n <? 240)%N then
        match s1 with
        | String b1 (String b2 s3) =>
            String b0 (String b1 (String b2 "")) :: code_units s3
        | _ => String b0 "" :: code_units s1
        end
      else
        match s1 with
        | String b1 (String b2 (String b3 s4)) =>
            let cp := ((n mod 8) * 262144 + (N_of_ascii b1 mod 64) * 4096
                       + (N_of_ascii b2 mod 64) * 64 + N_of_ascii b3 mod 64)%N in
            let c := (cp - 65536)%N in
            three_bytes (55296 + c / 1024) :: three_bytes (56320 + c mod 1024)
            :: code_units s4
        | _ => String b0 "" :: code_units s1
        end
  end.

(** ** Objects and arrays *)

(** An object literal [{ k1: v1, ..., kn: vn }]; a later property of the same
    name replaces an earlier one. *)
Definition object_map (l : list (string * value)) : gmap string value :=
  foldl (λ m kv, <[kv.1:=kv.2]> m) ∅ l.

Definition object (l : list (string * value)) : value :=
  JObject (object_map l).

(** The value an object literal gives to [k]: that of its last property
    named [k]. *)
Fixpoint assoc (k : string) (l : list (string * value)) (acc : option value)
  : option value :=
  match l with
  | [] => acc
  | kv :: l' => assoc k l' (if String.eqb kv.1 k then Some kv.2 else acc)
  end.

(** [{ ...a, ...b }]: the properties of [b] win. *)
Definition spread (a b : gmap string value) : gmap string value := b ∪ a.

(** [Object.keys]: the set of own property names of an object. *)
Definition keys (v : value) : gset string :=
  match v with
  | JObject m => dom m
  | _ => ∅
  end.

(** The array index denoted by a property name. *)
Definition index_of_key (k : string) (n : nat) : option nat :=
  List.find (λ i, String.eqb (pretty i) k) (seq 0 n).

(** [v.k] (or [v[k]]) on a receiver that is neither [null] nor [undefined],
    for the property names the code reads: own properties of objects,
    indices and [length] of arrays and strings.  None of these names is a
    method of a prototype. *)
Definition prop (v : value) (k : string) : value :=
  match v with
  | JObject m => default JUndefined (m !! k)
  | JArray l =>
      if String.eqb k "length" then JNumber (Num (Z.of_nat (length l)))
      else default JUndefined (i ← index_of_key k (length l); l !! i)
  | JString s =>
      let units := code_units s in
      if String.eqb k "length" then JNumber (Num (Z.of_nat (length units)))
      else default JUndefined
             (i ← index_of_key k (length units); u ← units !! i; Some (JString u))
  | _ => JUndefined
  end.

(** [v.k] in general: reading a property of [null] or [undefined] throws. *)
Definition get (v : value) (k : string) : result value :=
  if nullish v then Throw "TypeError" else Ok (prop v k).

(** [a && a.k], which never throws. *)
Definition and_prop (a : value) (k : string) : value :=
  if truthy a then prop a k else a.

Fixpoint mapM {A B} (f : A → result B) (l : list A) : result (list B) :=
  match l with
  | [] => Ok []
  | x :: l' => y ← f x; ys ← mapM f l'; Ok (y :: ys)
  end.

Fixpoint filterM {A} (p : A → result bool) (l : list A) : result (list A) :=
  match l with
  | [] => Ok []
  | x :: l' =>
      b ← p x; ys ← filterM p l'; Ok (if b : bool then x :: ys else ys)
  end.

(** [Array.prototype.sort] with a comparator: a stable sort, here by
    insertion; a comparator result that is [NaN] counts as 0.  When the
    comparator is a consistent order (here: when every level is a number)
    the result of a stable sort is determined, and this is it.  When it is
    not, the standard leaves the order to the implementation, and only the
    elements of the result are known: every statement below that depends on
    the order assumes numeric levels. *)
Fixpoint sort_insert {A} (cmp : A → A → number) (x : A) (l : list A) : list A :=
  match l with
  | [] => [x]
  | y :: l' =>
      if num_gt (cmp x y) (Num 0) then y :: sort_insert cmp x l'
      else x :: y :: l'
  end.

Definition sort {A} (cmp : A → A → number) (l : list A) : list A :=
  foldr (sort_insert cmp) [] l.

(** [Array.prototype.find]; [None] is the [undefined] it returns when no
    element satisfies the callback. *)
Definition find {A} (p : A → bool) (l : list A) : option A := List.find p l.

Definition found (o : option value) : value := default JUndefined o.

Section Coercions.
Context `{Host}.

(** [String(v)], as in a template literal. *)
Fixpoint ToString (v : value) : string :=
  match v with
  | JUndefined => "undefined"
  | JNull => "null"
  | JBool true => "true"
  | JBool false => "false"
  | JNumber n => NumberToString n
  | JString s => s
  | JArray l =>
      String.concat ","
        (map (λ e, if nullish e then "" else ToString e) l)
  | JObject _ => "[object Object]"
  end.

(** [Number(v)]. *)
Definition ToNumber (v : value) : number :=
  match v with
  | JUndefined => NaN
  | JNull => Num 0
  | JBool b => Num (if b then 1 else 0)
  | JNumber n => n
  | JString s => StringToNumber s
  | JArray _ | JObject _ => StringToNumber (ToString v)
  end.

(** [Number(v) || d]. *)
Definition NumberOr (v : value) (d : Z) : number := num_or (ToNumber v) d.

End Coercions.

(** ** The shared service: pure helpers of [EdulogApiService] *)

(** A parameter declared [p = null]: [undefined] becomes [null]. *)
Definition default_null (v : value) : value :=
  if v is JUndefined then JNull else v.

Module EdulogApiService.
Section Service.
Context `{Host}.

(** [new Date()]. *)
Definition today : Date := LocalDate nowYear nowMonth nowDate.

(** The [try] block of [calculateAge] up to the value of [birth].
    [includes] and [split] exist on strings; an array has [includes] but
    no [split]; on any other value [birthdate.includes] is not a function. *)
Definition birthOf (birthdate : value) : result Date :=
  match birthdate with
  | JString s =>
      if contains_char "/" s then
        let parts := split_on "/" s in
        if (length parts =? 3)%nat then
          let day := parseInt (default "" (parts !! 0%nat)) in
          let month := num_sub (parseInt (default "" (parts !! 1%nat))) (Num 1) in
          let year := parseInt (default "" (parts !! 2%nat)) in
          Ok (newDate year month day)
        else Ok (DateParse s)
      else Ok (DateParse s)
  | JArray l =>
      if existsb (λ e, strict_eq e (JString "/")) l then Throw "TypeError"
      else Ok (DateParse (ToString birthdate))
  | _ => Throw "TypeError"
  end.

Definition calculateAge (birthdate : value) : value :=
  if negb (truthy birthdate) then JNull
  else
    match birthOf birthdate with
    | Throw _ => JString "0,0"
    | Ok birth =>
        let age := num_sub (getFullYear today) (getFullYear birth) in
        let monthDiff := num_sub (getMonth today) (getMonth birth) in
        let age :=
          if num_lt monthDiff (Num 0)
             || (num_eq monthDiff (Num 0)
                 && num_lt (getDate today) (getDate birth))
          then num_sub age (Num 1) else age in
        let monthsSinceBirthday := num_sub (getMonth today) (getMonth birth) in
        let monthsSinceBirthday :=
          if num_lt monthsSinceBirthday (Num 0)
          then num_add monthsSinceBirthday (Num 12)
          else monthsSinceBirthday in
        let monthsSinceBirthday :=
          if num_lt (getDate today) (getDate birth) then
            let m := num_sub monthsSinceBirthday (Num 1) in
            if num_lt m (Num 0) then Num 11 else m
          else monthsSinceBirthday in
        JString (NumberToString age +:+ "," +:+ NumberToString monthsSinceBirthday)
    end.

(** [parseColors]: [split] exists on strings only; the [catch] turns the
    [TypeError] on any other truthy value into [null]. *)
Definition parseColors (colorsString : value) : value :=
  if negb (truthy colorsString) then JNull
  else
    match colorsString with
    | JString s => JArray (map (λ color, JString (trim color)) (split_on "," s))
    | _ => JNull
    end.

Definition parseRanges (rangesString : value) : value :=
  if negb (truthy rangesString) then JNull
  else
    match rangesString with
    | JString s =>
        JArray
          (map (λ range,
             if contains_char "-" range then
               let nums := map (λ p, JNumber (StringToNumber p)) (split_on "-" range) in
               object [("start", default JUndefined (nums !! 0%nat));
                       ("end", default JUndefined (nums !! 1%nat))]
             else
               let val := JNumber (StringToNumber range) in
               object [("start", val); ("end", val)])
             (split_on "," s))
    | _ => JNull
    end.

Definition defaultColors : value :=
  JArray (map JString ["#ed1b06"; "#ff7801"; "#fcc709"; "#fff15e"; "#c1ef4a"; "#79e607"]).

Definition range (s e : Z) : value :=
  object [("start", JNumber (Num s)); ("end", JNumber (Num e))].

Definition defaultRanges : value :=
  JArray [range 0 3; range 4 5; range 6 6; range 7 8; range 9 10; range 11 11].

(** [`${a || ''} ${b || ''}`.trim() || ''] *)
Definition fullName (vorname nachname : value) : value :=
  or_else
    (JString (trim (ToString (or_else vorname (JString "")) +:+ " "
                    +:+ ToString (or_else nachname (JString "")))))
    (JString "").

Definition todayString : value := JString (toLocaleDateString today).

(** The properties that [processApiData] computes, before the raw record
    is spread over them. *)
Definition normalized (apiData authData : value) : list (string * value) :=
  let '(companyName, stadt) :=
    if truthy authData then
      if truthy (and_prop (prop authData "einrichtung") "name") then
        (prop (prop authData "einrichtung") "name",
         or_else (prop (prop authData "einrichtung") "stadt") (JString ""))
      else if truthy (and_prop (prop authData "privat_kunde") "name") then
        (prop (prop authData "privat_kunde") "name",
         or_else (prop (prop authData "privat_kunde") "stadt") (JString ""))
      else (JString "", JString "")
    else (JString "", JString "") in
  [ ("name", fullName (prop apiData "Vorname") (prop apiData "Nachname"));
    ("birthdate", or_else (prop apiData "GeburtsDatum") (JString ""));
    ("age", or_else (calculateAge (prop apiData "GeburtsDatum")) (JString ""));
    ("language", or_else (prop apiData "Familiensprache") (JString ""));
    ("since", or_else (prop apiData "InDEseit") (JString ""));
    ("date", todayString);
    ("teacher", or_else (prop apiData "authuser_name") (JString ""));
    ("company", companyName);
    ("stadt", stadt);
    ("assessment", or_else (prop apiData "Beurteilung") (JString ""));
    ("min", JNumber (NumberOr (prop apiData "min") 0));
    ("max", JNumber (NumberOr (prop apiData "max") 13));
    ("score", JNumber (NumberOr (prop apiData "score") 0));
    ("colors", or_else (parseColors (prop apiData "colors")) defaultColors);
    ("ranges", or_else (parseRanges (prop apiData "ranges")) defaultRanges);
    ("label1", or_else (prop apiData "label1") (JString "stark auffällig"));
    ("label2", or_else (prop apiData "label2") (JString "auffällig"));
    ("label3", or_else (prop apiData "label3") (JString "unauffällig"));
    ("label4", or_else (prop apiData "label4") (JString "besonders unauffällig"));
    ("subsplit", JNumber (NumberOr (prop apiData "subsplit") 50));
    ("submin", JNumber (NumberOr (prop apiData "submin") 0));
    ("submax", JNumber (NumberOr (prop apiData "submax") 13));
    ("subgray", or_else (prop apiData "subgray")
                  (JString "Weiterführende Fachdiagnostik empfohlen"));
    ("subgreen", or_else (prop apiData "subgreen") (JString "Normbereich")) ].

(** The own enumerable properties that [...v] copies. *)
Definition own_props (v : value) : gmap string value :=
  match v with
  | JObject m => m
  | JArray l => list_to_map (imap (λ i e, (pretty i, e)) l)
  | JString s => list_to_map (imap (λ i u, (pretty i, JString u)) (code_units s))
  | _ => ∅
  end.

(** [processApiData(apiData, authData = null)]: the first property read
    throws when [apiData] is [null] or [undefined]. *)
Definition processApiData (apiData authData : value) : result value :=
  let authData := default_null authData in
  _ ← get apiData "Vorname";
  Ok (JObject (spread (object_map (normalized apiData authData)) (own_props apiData))).

Definition getFallbackData : value :=
  object
    [ ("name", JString ""); ("birthdate", JString ""); ("age", JString "");
      ("language", JString ""); ("since", JString ""); ("date", todayString);
      ("teacher", JString ""); ("company", JString "");
      ("assessment", JString "");
      ("min", JNumber (Num 0)); ("max", JNumber (Num 13)); ("score", JNumber (Num 0));
      ("colors", defaultColors); ("ranges", defaultRanges);
      ("label1", JString "stark auffällig"); ("label2", JString "auffällig");
      ("label3", JString "unauffällig"); ("label4", JString "besonders unauffällig");
      ("subsplit", JNumber (Num 50)); ("submin", JNumber (Num 0));
      ("submax", JNumber (Num 13));
      ("subgray", JString "Weiterführende Fachdiagnostik empfohlen");
      ("subgreen", JString "Normbereich") ].

End Service.
End EdulogApiService.

(** ** The blocks that the three assessment adapters share

    [processData] of [aMerkfaehigkeit], [mZeichnen] and [figurGrundS] is the
    same text up to the category string and the name of the score field;
    the shared blocks take these two as arguments. *)

Section Blocks.
Context `{Host}.
Variable category : string.
Variable scoreField : string.

(** [companyName] *)
Definition companyNameOf (authData : value) : value :=
  if truthy authData then
    if truthy (and_prop (prop authData "einrichtung") "name") then
      prop (prop authData "einrichtung") "name"
    else if truthy (and_prop (prop authData "privat_kunde") "name") then
      prop (prop authData "privat_kunde") "name"
    else JString ""
  else JString "".

(** The value of [colors] after the block guarded by
    [authData.parameters.colors].  [typeof null] is ['object'], so a
    [null] entry of the array makes [colorObj.color] throw. *)
Definition colorsOf (colors : value) : result value :=
  match colors with
  | JArray l =>
      l' ← mapM (λ colorObj,
        if typeof_object colorObj then
          c ← get colorObj "color";
          Ok (if truthy c then c else colorObj)
        else Ok colorObj) l;
      Ok (JArray l')
  | JString s => Ok (JArray (map (λ c, JString (trim c)) (split_on "," s)))
  | _ => Ok (JArray [])
  end.

(** [thresholds.filter(threshold => threshold.category === category)];
    only an array has [filter]. *)
Definition isCategory (threshold : value) : result bool :=
  c ← get threshold "category"; Ok (strict_eq c (JString category)).

Definition matchingThresholds (thresholds : value) : result (list value) :=
  match thresholds with
  | JArray l => filterM isCategory l
  | _ => Throw "TypeError"
  end.

(** [(a, b) => a.level - b.level] *)
Definition byLevel (a b : value) : number :=
  num_sub (ToNumber (prop a "level")) (ToNumber (prop b "level")).

(** The inclusive band test of the [find] callback. *)
Definition inBand (score : number) (threshold : value) : bool :=
  let thresholdMin := NumberOr (prop threshold "min") 0 in
  let thresholdMax := NumberOr (prop threshold "max") 0 in
  num_ge score thresholdMin && num_le score thresholdMax.

(** [testResults && testResults.score ? Number(testResults.score) : 0] *)
Definition scoreOf (testResults : value) : number :=
  if truthy (and_prop testResults scoreField)
  then ToNumber (prop testResults scoreField) else Num 0.

Definition rangeOf (threshold : value) : value :=
  object [("start", JNumber (NumberOr (prop threshold "min") 0));
          ("end", JNumber (NumberOr (prop threshold "max") 0))].

(** The assessment text taken from the threshold that [find] returned. *)
Definition assessmentOf (matchingThreshold : value) : value :=
  if truthy (and_prop matchingThreshold "description2")
  then prop matchingThreshold "description2" else JString "".

Record Scoring := {
  s_min : value;
  s_max : value;
  s_colors : value;
  s_ranges : value;
  s_assessment : value;
}.

(** The body of [if (filtered.length >= 6)], from the already filtered
    array.  Its elements passed [threshold.category === category], hence
    are objects, and reading their properties does not throw. *)
Definition resolved (colors : value) (filtered : list value) (testResults : value) : Scoring :=
  let sortedThresholds := sort byLevel filtered in
  let level1 := found (find (λ t, strict_eq (prop t "level") (JNumber (Num 1))) sortedThresholds) in
  let level6 := found (find (λ t, strict_eq (prop t "level") (JNumber (Num 6))) sortedThresholds) in
  let min :=
    if truthy level1 && negb (strict_eq (prop level1 "min") JUndefined)
    then JNumber (ToNumber (prop level1 "min")) else JNumber (Num 0) in
  let max :=
    if truthy level6 && negb (strict_eq (prop level6 "max") JUndefined)
    then JNumber (ToNumber (prop level6 "max")) else JNumber (Num 13) in
  let ranges := JArray (map rangeOf sortedThresholds) in
  let score := scoreOf testResults in
  let matchingThreshold := found (find (inBand score) sortedThresholds) in
  {| s_min := min; s_max := max; s_colors := colors; s_ranges := ranges;
     s_assessment := assessmentOf matchingThreshold |}.

Definition defaults (colors : value) : Scoring :=
  {| s_min := JNumber (Num 0); s_max := JNumber (Num 13); s_colors := colors;
     s_ranges := JArray []; s_assessment := JString "" |}.

(** [min], [max], [colors], [ranges] and [assessment] after the block
    guarded by [authData && authData.parameters]. *)
Definition scoring (authData testResults : value) : result Scoring :=
  if truthy (and_prop authData "parameters") then
    let parameters := prop authData "parameters" in
    colors ← (if truthy (prop parameters "colors")
              then colorsOf (prop parameters "colors") else Ok (JArray []));
    if truthy (prop parameters "edulog_thresholds") then
      filtered ← matchingThresholds (prop parameters "edulog_thresholds");
      if (6 <=? length filtered)%nat
      then Ok (resolved colors filtered testResults)
      else Ok (defaults colors)
    else Ok (defaults colors)
  else Ok (defaults (JArray [])).

(** [testResults && testResults.items && testResults.items.length > 0] *)
Definition hasItems (testResults : value) : bool :=
  truthy (and_prop testResults "items")
  && num_gt (ToNumber (prop (prop testResults "items") "length")) (Num 0).

(** [testResults && testResults.score ? testResults.score : 0] *)
Definition rawScore (testResults : value) : value :=
  if truthy (and_prop testResults scoreField)
  then prop testResults scoreField else JNumber (Num 0).

End Blocks.

Definition greenColor : value := JString "#d5f5d5".
Definition redColor : value := JString "#ffcccc".

(** ** aMerkfaehigkeit *)

Module AMerkfaehigkeitApi.
Section Adapter.
Context `{Host}.

Definition category : string := "Auditive MerkfÃ¤higkeit".
Definition scoreField : string := "spseq_score".

(** The flags behind the cells c1..c12; c9 is the literal [null]. *)
Definition cellFields : list (option string) :=
  [ Some "identifikationOK"; Some "items2ok"; Some "items2_v1"; Some "items2_v2";
    Some "vor"; Some "items3ok"; Some "items3_v1"; Some "items3_v2";
    None; Some "items4ok"; Some "items4_v1"; Some "items4_v2" ].

(** The callback of [cellMappings.map]. *)
Definition cellColor (v : value) : value :=
  if strict_eq v (JBool true) then greenColor
  else if strict_eq v (JBool false) then redColor
  else JString "".

Definition cellColorsOf (testResults : value) : result value :=
  if hasItems testResults then
    let firstItem := prop (prop testResults "items") "0" in
    cellMappings ←
      mapM (λ f, match f with
                 | Some k => get firstItem k
                 | None => Ok JNull
                 end) cellFields;
    Ok (JArray (map cellColor cellMappings))
  else Ok (JArray []).

Definition processData (apiData authData testResults : value) : result value :=
  let authData := default_null authData in
  let testResults := default_null testResults in
  let companyName := companyNameOf authData in
  sc ← scoring category scoreField authData testResults;
  cellColors ← cellColorsOf testResults;
  vorname ← get apiData "Vorname";
  nachname ← get apiData "Nachname";
  lang ← get apiData "Familiensprache";
  birthdate ← get apiData "GeburtsDatum";
  since ← get apiData "InDEseit";
  teacher ← get apiData "authuser_name";
  Ok (object
    [ ("name", EdulogApiService.fullName vorname nachname);
      ("lang", or_else lang (JString ""));
      ("birthdate", or_else birthdate (JString ""));
      ("age", or_else (EdulogApiService.calculateAge birthdate) (JString ""));
      ("since", since);
      ("date", EdulogApiService.todayString);
      ("teacher", or_else teacher (JString ""));
      ("company", companyName);
      ("testResults", testResults);
      ("min", s_min sc);
      ("max", s_max sc);
      ("score", rawScore scoreField testResults);
      ("colors", s_colors sc);
      ("ranges", s_ranges sc);
      ("assessment", s_assessment sc);
      ("label1", JString "UNKNOWN");
      ("label2", JString "UNKNOWN");
      ("label3", JString "UNKNOWN");
      ("label4", JString "UNKNOWN");
      ("subgray", JString "UNKNOWN");
      ("subgreen", JString "UNKNOWN");
      ("subsplit", JString "UNKNOWN");
      ("submin", s_min sc);
      ("submax", s_max sc);
      ("cellColors", cellColors) ]).

Definition getFallbackData : value :=
  object
    [ ("name", JString ""); ("lang", JString ""); ("birthdate", JString "");
      ("age", JString ""); ("since", JString "");
      ("date", EdulogApiService.todayString);
      ("teacher", JString ""); ("company", JString "");
      ("testResults", JNull);
      ("min", JNumber (Num 0)); ("max", JNumber (Num 13)); ("score", JNumber (Num 0));
      ("colors", JArray []); ("ranges", JArray []); ("assessment", JString "");
      ("label1", JString ""); ("label2", JString ""); ("label3", JString "");
      ("label4", JString "");
      ("subgray", JString ""); ("subgreen", JString "");
      ("subsplit", JNumber (Num 50));
      ("submin", JNumber (Num 0)); ("submax", JNumber (Num 13));
      ("cellColors", JArray []) ].

End Adapter.
End AMerkfaehigkeitApi.

(** ** mZeichnen *)

Module MZeichnenApi.
Section Adapter.
Context `{Host}.

Definition category : string := "Mensch Zeichnen".
Definition scoreField : string := "mz_score".

Definition processData (apiData authData testResults : value) : result value :=
  let authData := default_null authData in
  let testResults := default_null testResults in
  let companyName := companyNameOf authData in
  sc ← scoring category scoreField authData testResults;
  vorname ← get apiData "Vorname";
  nachname ← get apiData "Nachname";
  lang ← get apiData "Familiensprache";
  birthdate ← get apiData "GeburtsDatum";
  since ← get apiData "InDEseit";
  Ok (object
    [ ("name", EdulogApiService.fullName vorname nachname);
      ("lang", or_else lang (JString ""));
      ("birthdate", or_else birthdate (JString ""));
      ("age", or_else (EdulogApiService.calculateAge birthdate) (JString ""));
      ("since", since);
      ("date", EdulogApiService.todayString);
      ("company", companyName);
      ("testResults", testResults);
      ("min", s_min sc);
      ("max", s_max sc);
      ("score", rawScore scoreField testResults);
      ("colors", s_colors sc);
      ("ranges", s_ranges sc);
      ("assessment", s_assessment sc);
      ("label1", JString "UNKNOWN");
      ("label2", JString "UNKNOWN");
      ("label3", JString "UNKNOWN");
      ("label4", JString "UNKNOWN");
      ("subsplit", JString "UNKNOWN");
      ("submin", s_min sc);
      ("submax", s_max sc) ]).

Definition getFallbackData : value :=
  object
    [ ("name", JString ""); ("lang", JString ""); ("birthdate", JString "");
      ("age", JString ""); ("since", JString "");
      ("date", EdulogApiService.todayString);
      ("company", JString "");
      ("testResults", JNull);
      ("min", JNumber (Num 0)); ("max", JNumber (Num 13)); ("score", JNumber (Num 0));
      ("colors", JArray []); ("ranges", JArray []); ("assessment", JString "");
      ("label1", JString ""); ("label2", JString ""); ("label3", JString "");
      ("label4", JString "");
      ("subsplit", JNumber (Num 50));
      ("submin", JNumber (Num 0)); ("submax", JNumber (Num 13)) ].

End Adapter.
End MZeichnenApi.

(** ** figurGrundS *)

Module FigurGrundSApi.
Section Adapter.
Context `{Host}.

Definition category : string := "Figur Grund Sehen".
Definition scoreField : string := "fgs_score".

(** Output key and the flag of the first item it is coloured from. *)
Definition itemFields : list (string * string) :=
  [ ("kuh", "richtigKuh"); ("ente", "richtigEnte"); ("kreis", "richtigKreis");
    ("dreieck", "richtigDreieck"); ("auto", "richtigAuto"); ("haus", "richtigHaus");
    ("baum", "richtigBaum"); ("lampe", "richtigLampe") ].

(** [flag ? greenColor : (flag === false ? redColor : '')] *)
Definition itemColor (flag : value) : value :=
  if truthy flag then greenColor
  else if strict_eq flag (JBool false) then redColor
  else JString "".

Definition itemColorsOf (testResults : value) : result (gmap string value) :=
  if hasItems testResults then
    let firstItem := prop (prop testResults "items") "0" in
    entries ← mapM (λ kf, flag ← get firstItem kf.2; Ok (kf.1, itemColor flag)) itemFields;
    Ok (object_map entries)
  else Ok ∅.

Definition processData (apiData authData testResults : value) : result value :=
  let authData := default_null authData in
  let testResults := default_null testResults in
  let companyName := companyNameOf authData in
  sc ← scoring category scoreField authData testResults;
  itemColors ← itemColorsOf testResults;
  vorname ← get apiData "Vorname";
  nachname ← get apiData "Nachname";
  lang ← get apiData "Familiensprache";
  birthdate ← get apiData "GeburtsDatum";
  since ← get apiData "InDEseit";
  Ok (JObject (spread (object_map
    [ ("name", EdulogApiService.fullName vorname nachname);
      ("lang", or_else lang (JString ""));
      ("birthdate", or_else birthdate (JString ""));
      ("age", or_else (EdulogApiService.calculateAge birthdate) (JString ""));
      ("since", since);
      ("date", EdulogApiService.todayString);
      ("company", companyName);
      ("testResults", testResults);
      ("min", s_min sc);
      ("max", s_max sc);
      ("score", rawScore scoreField testResults);
      ("colors", s_colors sc);
      ("ranges", s_ranges sc);
      ("assessment", s_assessment sc);
      ("label1", JString "UNKNOWN");
      ("label2", JString "UNKNOWN");
      ("label3", JString "UNKNOWN");
      ("label4", JString "UNKNOWN");
      ("subsplit", JString "UNKNOWN");
      ("submin", s_min sc);
      ("submax", s_max sc) ]) itemColors)).

Definition getFallbackData : value :=
  object
    [ ("name", JString ""); ("lang", JString ""); ("birthdate", JString "");
      ("age", JString ""); ("since", JString "");
      ("date", EdulogApiService.todayString);
      ("company", JString "");
      ("testResults", JNull);
      ("min", JNumber (Num 0)); ("max", JNumber (Num 13)); ("score", JNumber (Num 0));
      ("colors", JArray []); ("ranges", JArray []); ("assessment", JString "");
      ("label1", JString ""); ("label2", JString ""); ("label3", JString "");
      ("label4", JString "");
      ("subsplit", JNumber (Num 50));
      ("submin", JNumber (Num 0)); ("submax", JNumber (Num 13));
      ("kuh", JString ""); ("ente", JString ""); ("kreis", JString "");
      ("dreieck", JString ""); ("auto", JString ""); ("haus", JString "");
      ("baum", JString ""); ("lampe", JString "") ].

End Adapter.
End FigurGrundSApi.

(** ** ArbeitsBlaetter *)

Module ArbeitsBlaetterApi.
Section Adapter.
Context `{Host}.

Definition processData (apiData authData : value) : result value :=
  let authData := default_null authData in
  let '(companyName, stadt) :=
    if truthy authData then
      if truthy (and_prop (prop authData "einrichtung") "name") then
        (prop (prop authData "einrichtung") "name",
         or_else (prop (prop authData "einrichtung") "stadt") (JString ""))
      else if truthy (and_prop (prop authData "privat_kunde") "name") then
        (prop (prop authData "privat_kunde") "name",
         or_else (prop (prop authData "privat_kunde") "stadt") (JString ""))
      else (JString "", JString "")
    else (JString "", JString "") in
  vorname ← get apiData "Vorname";
  nachname ← get apiData "Nachname";
  birthdate ← get apiData "GeburtsDatum";
  since ← get apiData "InDEseit";
  Ok (object
    [ ("name", EdulogApiService.fullName vorname nachname);
      ("birthdate", or_else birthdate (JString ""));
      ("age", or_else (EdulogApiService.calculateAge birthdate) (JString ""));
      ("since", or_else since (JString ""));
      ("date", EdulogApiService.todayString);
      ("company", companyName);
      ("stadt", stadt) ]).

Definition getFallbackData : value :=
  object
    [ ("name", JString ""); ("birthdate", JString ""); ("age", JString "");
      ("since", JString ""); ("date", EdulogApiService.todayString);
      ("company", JString ""); ("stadt", JString "") ].

End Adapter.
End ArbeitsBlaetterApi.

(** ** The fetch pipeline

    The page supplies the URL parameters and the network; the service object
    holds the cache and the authentication data, which calls mutate.  Every
    [fetch] is recorded in [calls]. *)

Inductive Request :=
  | Post (url : string) (bearer : string) (p_id : string)
  | Get (url : string) (token : string).

Record Response := {
  ok : bool;
  status : Z;
  json : result value;     (* [response.json()] throws on a malformed body *)
}.

Record Page := {
  token : option string;   (* [params.get('token')], [None] for [null] *)
  p_id : option string;
  authUrl : string;
  baseUrl : string;
  network : Request → option Response;   (* [None]: [fetch] rejects *)
}.

Record Service := {
  cache : gmap string value;
  authData : value;
  calls : list Request;
}.

Definition M (A : Type) : Type := Service → result A * Service.

#[global] Instance M_ret : MRet M := λ A a st, (Ok a, st).
#[global] Instance M_bind : MBind M := λ A B f m st,
  match m st with
  | (Ok a, st') => f a st'
  | (Throw e, st') => (Throw e, st')
  end.

Definition throw {A} (e : string) : M A := λ st, (Throw e, st).

(** A [result] computed without touching the service. *)
Definition lift {A} (r : result A) : M A := λ st, (r, st).

(** [try { body } catch (error) { handler }] *)
Definition try_catch {A} (body handler : M A) : M A := λ st,
  match body st with
  | (Ok a, st') => (Ok a, st')
  | (Throw _, st') => handler st'
  end.

(** What differs between the adapters' copies of [fetchData] and
    [processData]. *)
Record Adapter := {
  cachePrefix : string;
  resultKey : string;      (* the key of the result blob in the view-data reply *)
  category : string;       (* the category string its thresholds are filtered by *)
  scoreField : string;
  processData : value → value → value → result value;
  getFallbackData : value;
}.

Section Fetch.
Context `{Host}.
Variable page : Page.

Definition param (o : option string) : value :=
  match o with
  | Some s => JString s
  | None => JNull
  end.

(** [getUrlParams] *)
Definition getUrlParams : value :=
  object [("token", param (token page)); ("p_id", param (p_id page))].

(** [hasApiParams]: [!!(params.token && params.p_id)] *)
Definition hasApiParams : bool :=
  let params := getUrlParams in
  truthy (and_then (prop params "token") (prop params "p_id")).

(** The service after the requests [reqs] have been sent. *)
Definition logged (st : Service) (reqs : list Request) : Service :=
  {| cache := cache st; authData := authData st; calls := calls st ++ reqs |}.

Definition fetch (req : Request) : M Response := λ st,
  let st' := logged st [req] in
  match network page req with
  | Some r => (Ok r, st')
  | None => (Throw "TypeError", st')
  end.

Definition setAuthData (v : value) : M () := λ st,
  (Ok (), {| cache := cache st; authData := v; calls := calls st |}).

Definition cacheSet (k : string) (v : value) : M () := λ st,
  (Ok (), {| cache := <[k:=v]> (cache st); authData := authData st;
             calls := calls st |}).

(** [authenticate]; its [catch] logs and rethrows. *)
Definition authenticate : M value := λ st,
  if truthy (authData st) then (Ok (authData st), st)
  else
    let params := getUrlParams in
    if negb hasApiParams then (Throw "Error", st)
    else
      (response ← fetch (Post (authUrl page) (ToString (prop params "token"))
                            (ToString (prop params "p_id")));
       if negb (ok response) then throw "Error"
       else
         authResponse ← lift (json response);
         data ← lift (get authResponse "data");
         user ← lift (get data "user");
         einrichtung ← lift (get data "einrichtung");
         privat_kunde ← lift (get data "privat_kunde");
         parameters ← lift (get data "parameters");
         let authData :=
           object [ ("user", user); ("einrichtung", einrichtung);
                    ("privat_kunde", privat_kunde); ("parameters", parameters);
                    ("token", prop params "token"); ("p_id", prop params "p_id") ] in
         _ ← setAuthData authData;
         mret authData) st.

Variable adapter : Adapter.

(** The view-all-data URL; the [throw] when the authentication data names
    neither an institution nor a private customer. *)
Definition apiUrlOf (params authData : value) : result string :=
  let apiUrl := baseUrl page +:+ "/view-all-data?p_id="
                +:+ encodeURIComponent (ToString (prop params "p_id")) in
  if truthy (and_prop (prop authData "einrichtung") "id") then
    Ok (apiUrl +:+ "&Einrichtung_id="
        +:+ ToString (prop (prop authData "einrichtung") "id"))
  else if truthy (and_prop (prop authData "privat_kunde") "id") then
    Ok (apiUrl +:+ "&privat_kunde_id="
        +:+ ToString (prop (prop authData "privat_kunde") "id"))
  else Throw "Error".

Definition testResultsUrlOf (params : value) : string :=
  baseUrl page +:+ "/view-data/"
  +:+ encodeURIComponent (ToString (prop params "p_id")).

(** The body of the [try] in [fetchData]. *)
Definition fetchAndProcess (params : value) (cacheKey : string) : M value :=
  authData ← authenticate;
  apiUrl ← lift (apiUrlOf params authData);
  response ← fetch (Get apiUrl (ToString (prop params "token")));
  if negb (ok response) then throw "Error"
  else
    data ← lift (json response);
    let testResultsUrl := testResultsUrlOf params in
    testResponse ← fetch (Get testResultsUrl (ToString (prop params "token")));
    testResults ←
      (if ok testResponse then
         testData ← lift (json testResponse);
         r ← lift (get testData (resultKey adapter));
         mret (or_else r JNull)
       else mret JNull);
    first ← lift (get data "0");
    processedData ← lift (processData adapter (or_else first data) authData testResults);
    _ ← cacheSet cacheKey processedData;
    mret processedData.

(** [`${prefix}_${params.p_id}_${params.token}`] *)
Definition cacheKeyOf (params : value) : string :=
  cachePrefix adapter +:+ "_" +:+ ToString (prop params "p_id")
  +:+ "_" +:+ ToString (prop params "token").

Definition fetchData : M value := λ st,
  let params := getUrlParams in
  if negb hasApiParams then (Ok (getFallbackData adapter), st)
  else
    let cacheKey := cacheKeyOf params in
    match cache st !! cacheKey with
    | Some v => (Ok v, st)
    | None =>
        try_catch (fetchAndProcess params cacheKey)
                  (mret (getFallbackData adapter)) st
    end.

(** [shouldShowContent] of the service *)
Definition shouldShowContent : M bool := λ st,
  if negb hasApiParams then (Ok false, st)
  else try_catch (_ ← authenticate; mret true) (mret false) st.

(** The body of the [try] in the [fetchData] of the service itself and of
    ArbeitsBlaetter: as [fetchAndProcess], without the view-data request. *)
Definition fetchBasicAndProcess (process : value → value → result value)
    (params : value) (cacheKey : string) : M value :=
  authData ← authenticate;
  apiUrl ← lift (apiUrlOf params authData);
  response ← fetch (Get apiUrl (ToString (prop params "token")));
  if negb (ok response) then throw "Error"
  else
    data ← lift (json response);
    first ← lift (get data "0");
    processedData ← lift (process (or_else first data) authData);
    _ ← cacheSet cacheKey processedData;
    mret processedData.

(** [`${params.p_id}_${params.token}`] *)
Definition serviceCacheKeyOf (params : value) : string :=
  ToString (prop params "p_id") +:+ "_" +:+ ToString (prop params "token").

(** [EdulogApiService.fetchData] *)
Definition serviceFetchData : M value := λ st,
  let params := getUrlParams in
  if negb hasApiParams then (Ok EdulogApiService.getFallbackData, st)
  else
    let cacheKey := serviceCacheKeyOf params in
    match cache st !! cacheKey with
    | Some v => (Ok v, st)
    | None =>
        try_catch (fetchBasicAndProcess EdulogApiService.processApiData
                     params cacheKey)
                  (mret EdulogApiService.getFallbackData) st
    end.

(** [`arbeitsblaetter_${params.p_id}_${params.token}`] *)
Definition arbeitsBlaetterCacheKeyOf (params : value) : string :=
  "arbeitsblaetter_" +:+ ToString (prop params "p_id")
  +:+ "_" +:+ ToString (prop params "token").

(** [ArbeitsBlaetterApi.fetchData] *)
Definition arbeitsBlaetterFetchData : M value := λ st,
  let params := getUrlParams in
  if negb hasApiParams then (Ok ArbeitsBlaetterApi.getFallbackData, st)
  else
    let cacheKey := arbeitsBlaetterCacheKeyOf params in
    match cache st !! cacheKey with
    | Some v => (Ok v, st)
    | None =>
        try_catch (fetchBasicAndProcess ArbeitsBlaetterApi.processData
                     params cacheKey)
                  (mret ArbeitsBlaetterApi.getFallbackData) st
    end.

End Fetch.

Section Adapters.
Context `{Host}.

Definition aMerkfaehigkeit : Adapter :=
  {| cachePrefix := "amerkfaehigkeit"; resultKey := "spseq_TotalResult";
     category := AMerkfaehigkeitApi.category;
     scoreField := AMerkfaehigkeitApi.scoreField;
     processData := AMerkfaehigkeitApi.processData;
     getFallbackData := AMerkfaehigkeitApi.getFallbackData |}.

Definition mZeichnen : Adapter :=
  {| cachePrefix := "mzeichnen"; resultKey := "mz_TotalResult";
     category := MZeichnenApi.category;
     scoreField := MZeichnenApi.scoreField;
     processData := MZeichnenApi.processData;
     getFallbackData := MZeichnenApi.getFallbackData |}.

Definition figurGrundS : Adapter :=
  {| cachePrefix := "figurgrunds"; resultKey := "fgs_TotalResult";
     category := FigurGrundSApi.category;
     scoreField := FigurGrundSApi.scoreField;
     processData := FigurGrundSApi.processData;
     getFallbackData := FigurGrundSApi.getFallbackData |}.

(** The assessment adapters, which score against thresholds. *)
Definition adapters : list Adapter := [aMerkfaehigkeit; mZeichnen; figurGrundS].

End Adapters.

(** ** The constructor of the service *)

(** [s.includes(needle)] *)
Fixpoint includes (needle s : string) : bool :=
  String.prefix needle s
  || match s with
     | String _ s' => includes needle s'
     | EmptyString => false
     end.

(** [isDev] of the constructor, from [window.location.hostname] *)
Definition isDev (currentHost : string) : bool :=
  includes "dev-" currentHost || includes ".test" currentHost.

(** [this.authUrl] and [this.baseUrl] *)
Definition authUrlOf (currentHost : string) : string :=
  if isDev currentHost then "https://dev.bildung.software/api/v1/authenticate"
  else "https://login.bildung.software/api/v1/authenticate".

Definition baseUrlOf (currentHost : string) : string :=
  if isDev currentHost then "https://dev-edulog-api.bildung.software/api"
  else "https://edulog-api.bildung.software/api".

(** [getEnvironmentInfo] *)
Definition getEnvironmentInfo (hostname : string) : value :=
  object [ ("hostname", JString hostname);
           ("isDev", JBool (includes "dev-" hostname));
           ("authUrl", JString (authUrlOf hostname));
           ("baseUrl", JString (baseUrlOf hostname)) ].

(** ** A concrete host for the examples

    Decimal integers for the string/number conversions, ASCII white space
    for [trim], ISO [YYYY-MM-DD] for the date parser, and the fixed clock
    2024-06-01. *)

Module ExampleHost.

Definition is_space (c : ascii) : bool :=
  let n := nat_of_ascii c in
  ((9 <=? n) && (n <=? 13) || (n =? 32))%nat.

Definition is_digit (c : ascii) : bool :=
  let n := nat_of_ascii c in ((48 <=? n) && (n <=? 57))%nat.

Fixpoint trimStart (s : string) : string :=
  match s with
  | String c s' => if is_space c then trimStart s' else s
  | EmptyString => EmptyString
  end.

Definition rev_string (s : string) : string :=
  String.string_of_list_ascii (rev (String.list_ascii_of_string s)).

Definition trim (s : string) : string :=
  rev_string (trimStart (rev_string (trimStart s))).

(** The longest prefix of digits, read as a number, and the rest. *)
Fixpoint digits (acc : option Z) (s : string) : option Z * string :=
  match s with
  | String c s' =>
      if is_digit c
      then digits (Some (10 * default 0 acc + (Z.of_nat (nat_of_ascii c) - 48))) s'
      else (acc, s)
  | EmptyString => (acc, s)
  end.

Definition signed (s : string) : Z * string :=
  match s with
  | String "-" s' => (-1, s')
  | String "+" s' => (1, s')
  | _ => (1, s)
  end.

Definition parseInt (s : string) : number :=
  let '(sign, s) := signed (trimStart s) in
  match digits None s with
  | (Some z, _) => Num (sign * z)
  | (None, _) => NaN
  end.

Definition StringToNumber (s : string) : number :=
  let t := trim s in
  if String.eqb t "" then Num 0
  else
    let '(sign, t) := signed t in
    match digits None t with
    | (Some z, EmptyString) => Num (sign * z)
    | _ => NaN
    end.

Definition NumberToString (n : number) : string :=
  match n with
  | NaN => "NaN"
  | Num z => pretty z
  end.

Definition DateParse (s : string) : Date :=
  match split_on "-" s with
  | [y; m; d] =>
      match digits None y, digits None m, digits None d with
      | (Some y, EmptyString), (Some m, EmptyString), (Some d, EmptyString) =>
          if (1 <=? m) && (m <=? 12) && (1 <=? d) && (d <=? 31)
          then LocalDate y (m - 1) d else InvalidDate
      | _, _, _ => InvalidDate
      end
  | _ => InvalidDate
  end.

Definition toLocaleDateString (d : Date) : string :=
  match d with
  | InvalidDate => "Invalid Date"
  | LocalDate y m d => pretty d +:+ "." +:+ pretty (m + 1) +:+ "." +:+ pretty y
  end.

(** [encodeURIComponent] is the identity on letters and digits, which is
    all the examples pass to it. *)
Definition host : Host :=
  Build_Host StringToNumber NumberToString trim parseInt DateParse
             toLocaleDateString (λ s, s) 2024 5 1.

End ExampleHost.

(** ** Notions used in the statements *)

(** The test of the [filter] callback, on an entry that is not [null]. *)
Definition hasCategory (category : string) (threshold : value) : bool :=
  strict_eq (prop threshold "category") (JString category).

(** [authData.parameters.edulog_thresholds] *)
Definition thresholdsOf (authData : value) : value :=
  prop (prop authData "parameters") "edulog_thresholds".

(** [authData.parameters.colors] *)
Definition colorSpecOf (authData : value) : value :=
  prop (prop authData "parameters") "colors".

(** The values that have an [includes] method: strings and arrays. *)
Definition is_text (v : value) : bool :=
  match v with
  | JString _ | JArray _ => true
  | _ => false
  end.

(** Calendar dates: leap years and the length of a month (1..12). *)
Definition is_leap (y : Z) : bool :=
  ((y mod 4 =? 0) && negb (y mod 100 =? 0)) || (y mod 400 =? 0).

Definition days_in_month (y m : Z) : Z :=
  if m =? 2 then (if is_leap y then 29 else 28)
  else if (m =? 4) || (m =? 6) || (m =? 9) || (m =? 11) then 30
  else 31.

(** [d.m.y] (month 1..12) is a date of the calendar. *)
Definition valid_date (y m d : Z) : Prop :=
  1 ≤ m ≤ 12 ∧ 1 ≤ d ≤ days_in_month y m.

(** The year that [new Date(year, ...)] takes a year number for. *)
Definition fullYear (y : Z) : Z :=
  if (0 <=? y) && (y <=? 99) then 1900 + y else y.

(** The day of the 400-year era for year-of-era, month and day, and back:
    the parts of [days_from_civil] and [civil_from_days] within one era. *)
Definition doe_of (yoe m d : Z) : Z :=
  let doy := (153 * (if 2 <? m then m - 3 else m + 9) + 2) / 5 + d - 1 in
  yoe * 365 + yoe / 4 - yoe / 100 + doy.

Definition civil_of_doe (doe : Z) : Z * Z * Z :=
  let yoe := (doe - doe / 1460 + doe / 36524 - doe / 146096) / 365 in
  let doy := doe - (365 * yoe + yoe / 4 - yoe / 100) in
  let mp := (5 * doy + 2) / 153 in
  let d := doy - (153 * mp + 2) / 5 + 1 in
  let m := if mp <? 10 then mp + 3 else mp - 9 in
  (yoe, m, d).

(** A date of an era is found again from its day number. *)
Definition found_again (yoe m d : Z) : bool :=
  implb (d <=? days_in_month (if m <=? 2 then (yoe + 1) mod 400 else yoe) m)
    (let doe := doe_of yoe m d in
     (0 <=? doe) && (doe <? 146097)
     && match civil_of_doe doe with
        | (yoe', m', d') => (yoe' =? yoe) && (m' =? m) && (d' =? d)
        end).


Section Notions.
Context `{Host}.

(** The level a threshold is sorted by. *)
Definition levelOf (threshold : value) : number :=
  ToNumber (prop threshold "level").

(** [threshold] has the numeric level [l] and the inclusive band from [lo]
    to [hi]: its [level], [min] and [max] convert to these integers. *)
Definition levelBand (threshold : value) (l lo hi : Z) : Prop :=
  ToNumber (prop threshold "level") = Num l
  ∧ ToNumber (prop threshold "min") = Num lo
  ∧ ToNumber (prop threshold "max") = Num hi.

(** [x] and [y] have numeric levels, and that of [x] is not the greater. *)
Definition level_le (x y : value) : Prop :=
  ∃ lx ly, levelOf x = Num lx ∧ levelOf y = Num ly ∧ lx ≤ ly.

(** Full months from the day [bday] of the month [bmonth] (0-based) of the
    year [byear] to the date of the clock. *)
Definition fullMonthsSince (byear bmonth bday : Z) : Z :=
  12 * (nowYear - byear) + (nowMonth - bmonth)
  - (if nowDate <? bday then 1 else 0).


End Notions.

Section FetchNotions.
Context `{Host}.

(** [fetchData] of [a] gets as far as the view-all-data request: the URL
    parameters are present, the cache has no entry, authentication
    returns [authData] and leaves the service as [st1], the data names an
    institution or a private customer, and the request to [apiUrl] is
    answered by [response]. *)
Definition basicDataCall (page : Page) (a : Adapter) (st st1 : Service)
    (authData : value) (apiUrl : string) (response : Response) : Prop :=
  hasApiParams page = true
  ∧ cache st !! cacheKeyOf a (getUrlParams page) = None
  ∧ authenticate page st = (Ok authData, st1)
  ∧ apiUrlOf page (getUrlParams page) authData = Ok apiUrl
  ∧ network page (Get apiUrl (ToString (prop (getUrlParams page) "token")))
    = Some response.

(** The view-data request, which follows it. *)
Definition testResultCall (page : Page) : Request :=
  Get (testResultsUrlOf page (getUrlParams page))
      (ToString (prop (getUrlParams page) "token")).

(** The request that [authenticate] sends. *)
Definition authRequest (page : Page) : Request :=
  Post (authUrl page) (ToString (prop (getUrlParams page) "token"))
       (ToString (prop (getUrlParams page) "p_id")).

End FetchNotions.

(** A data request, as opposed to the authentication request. *)
Definition is_get (r : Request) : Prop :=
  match r with
  | Get _ _ => True
  | Post _ _ _ => False
  end.

(** The colour of a flag as the specification words it: [true] gives the
    pass colour, [false] the fail colour, anything else no colour. *)
Definition flagColor (flag : value) : value :=
  match flag with
  | JBool true => greenColor
  | JBool false => redColor
  | _ => JString ""
  end.

(** The values a flag takes according to the colorizer's contract: a
    boolean, [null], or [undefined] (an absent flag reads as [undefined]). *)
Definition is_flag (v : value) : Prop :=
  match v with
  | JBool _ | JNull | JUndefined => True
  | _ => False
  end.

(** ** Example payloads *)

#[local] Existing Instance ExampleHost.host.

Module Examples.

Definition threshold (category : string) (level min max : Z) (description2 : string)
  : value :=
  object [ ("category", JString category); ("level", JNumber (Num level));
           ("min", JNumber (Num min)); ("max", JNumber (Num max));
           ("description2", JString description2) ].

(** Six levels that partition the scores 0..13. *)
Definition sixLevels (category : string) : list value :=
  [ threshold category 1 0 3 "stark auffaellig";
    threshold category 2 4 5 "auffaellig";
    threshold category 3 6 6 "leicht auffaellig";
    threshold category 4 7 8 "unauffaellig";
    threshold category 5 9 10 "gut";
    threshold category 6 11 13 "sehr gut" ].

(** The same six, out of order, with a second band that also contains 5
    at a higher level. *)
Definition overlapping (category : string) : list value :=
  [ threshold category 4 5 8 "unauffaellig";
    threshold category 6 11 13 "sehr gut";
    threshold category 2 4 5 "auffaellig";
    threshold category 1 0 3 "stark auffaellig";
    threshold category 5 9 10 "gut";
    threshold category 3 6 6 "leicht auffaellig" ].

(** The entry of [overlapping] that classifies the score 5, the level 2,
    with the entries before and after it. *)
Definition overlapBefore (category : string) : list value :=
  [ threshold category 4 5 8 "unauffaellig";
    threshold category 6 11 13 "sehr gut" ].
Definition overlapFirst (category : string) : value :=
  threshold category 2 4 5 "auffaellig".
Definition overlapAfter (category : string) : list value :=
  [ threshold category 1 0 3 "stark auffaellig";
    threshold category 5 9 10 "gut";
    threshold category 3 6 6 "leicht auffaellig" ].

(** Seven matching entries, two of them at level 6. *)
Definition sevenEntries (category : string) : list value :=
  sixLevels category ++ [threshold category 6 12 13 "sehr gut"].

Definition twoColors : value := JArray [JString "#ed1b06"; JString "#79e607"].

(** The authentication data of an institution. *)
Definition session (colors : value) (thresholds : list value) : value :=
  object [ ("user", object [("id", JNumber (Num 7))]);
           ("einrichtung", object [("id", JNumber (Num 15));
                                   ("name", JString "Kita Sonnenschein")]);
           ("privat_kunde", JNull);
           ("parameters", object [("colors", colors);
                                  ("edulog_thresholds", JArray thresholds)]) ].

Definition child : value :=
  object [ ("Vorname", JString "Mia"); ("Nachname", JString "Muster");
           ("GeburtsDatum", JString "15/03/2018") ].

(** A first item with a passed, a failed and an unanswered flag for each
    of the two adapters that colour a grid. *)
Definition gridResult : value :=
  object [ ("items", JArray [ object
    [ ("identifikationOK", JBool true); ("items2ok", JBool false);
      ("items2_v1", JNull);
      ("richtigKuh", JBool true); ("richtigEnte", JBool false);
      ("richtigKreis", JNull) ] ]) ].

(** A page whose view-data request fails with status 500 while the
    authentication and the view-all-data request succeed. *)
Definition testResultDown (thresholds : list value) : Page :=
  {| token := Some "tok"; p_id := Some "42";
     authUrl := "https://login.bildung.software/api/v1/authenticate";
     baseUrl := "https://edulog-api.bildung.software/api";
     network := λ req,
       match req with
       | Post _ _ _ =>
           Some {| ok := true; status := 200;
                   json := Ok (object [("data", session twoColors thresholds)]) |}
       | Get url _ =>
           if String.eqb url
                "https://edulog-api.bildung.software/api/view-all-data?p_id=42&Einrichtung_id=15"
           then Some {| ok := true; status := 200; json := Ok (JArray [child]) |}
           else Some {| ok := false; status := 500; json := Throw "SyntaxError" |}
       end |}.

(** A page opened without the [token] parameter. *)
Definition noToken : Page :=
  {| token := None; p_id := Some "42";
     authUrl := "https://login.bildung.software/api/v1/authenticate";
     baseUrl := "https://edulog-api.bildung.software/api";
     network := λ _, None |}.

Definition fresh : Service := {| cache := ∅; authData := JNull; calls := [] |}.

(** The view-model a call returned ([undefined] if it threw). *)
Definition returned (r : result value) : value :=
  match r with
  | Ok v => v
  | Throw _ => JUndefined
  end.


(** mZeichnen with score 5 on the overlapping bands. *)
Definition overlappingSession : value :=
  session twoColors (overlapping MZeichnenApi.category).
Definition score5 : value := object [("mz_score", JNumber (Num 5))].
Definition vmOverlapping : value :=
  returned (processData mZeichnen child overlappingSession score5).

(** aMerkfaehigkeit on its six levels, with a score that is not a number
    and with the score 0. *)
Definition merkSession : value :=
  session twoColors (sixLevels AMerkfaehigkeitApi.category).
Definition nonNumericScore : value := object [("spseq_score", JString "abc")].
Definition zeroScore : value := object [("spseq_score", JNumber (Num 0))].
Definition vmNonNumeric : value :=
  returned (processData aMerkfaehigkeit child merkSession nonNumericScore).
Definition vmZero : value :=
  returned (processData aMerkfaehigkeit child merkSession zeroScore).

Definition gridItemColors : gmap string value :=
  match FigurGrundSApi.itemColorsOf gridResult with
  | Ok m => m
  | Throw _ => ∅
  end.

(** A raw record that carries fields the normalisation also computes. *)
Definition rawRecord : gmap string value :=
  object_map [ ("Vorname", JString "Mia"); ("name", JString "raw name");
               ("min", JString "5"); ("extra", JBool true) ].

(** mZeichnen behind a failing view-data request. *)
Definition downPage : Page := testResultDown (sixLevels MZeichnenApi.category).
Definition downAuth : result value * Service := authenticate downPage fresh.
Definition downRun : result value * Service := fetchData downPage mZeichnen fresh.
Definition downUrl : string :=
  "https://edulog-api.bildung.software/api/view-all-data?p_id=42&Einrichtung_id=15".
Definition downResponse : Response :=
  {| ok := true; status := 200; json := Ok (JArray [child]) |}.
Definition downFailure : Response :=
  {| ok := false; status := 500; json := Throw "SyntaxError" |}.

(** mZeichnen on its six levels with the score 7. *)
Definition score7 : value := object [("mz_score", JNumber (Num 7))].
Definition vmScore7 : value :=
  returned (processData mZeichnen child
              (session twoColors (sixLevels MZeichnenApi.category)) score7).

(** mZeichnen on seven matching entries. *)
Definition sevenSession : value :=
  session twoColors (sevenEntries MZeichnenApi.category).
Definition vmSeven : value :=
  returned (processData mZeichnen child sevenSession JNull).

(** The record that [fetchData] returned and the service it left. *)
Definition downRecord : value := returned downRun.1.
Definition downSession : value := returned downAuth.1.


Definition vmRaw : value :=
  returned (EdulogApiService.processApiData (JObject rawRecord) JNull).

(** A session whose colour list has a [null] entry. *)
Definition nullColour : value :=
  session (JArray [JString "#ed1b06"; JNull]) [].

(** Six levels given as strings, with bands from 1 to 12. *)
Definition stringLevel (category level : string) (min max : Z) : value :=
  object [ ("category", JString category); ("level", JString level);
           ("min", JNumber (Num min)); ("max", JNumber (Num max)) ].

Definition stringLevels (category : string) : list value :=
  [ stringLevel category "1" 1 3; stringLevel category "2" 4 5;
    stringLevel category "3" 6 6; stringLevel category "4" 7 8;
    stringLevel category "5" 9 10; stringLevel category "6" 11 12 ].

Definition stringSession : value :=
  session twoColors (stringLevels MZeichnenApi.category).
Definition vmStringLevels : value :=
  returned (processData mZeichnen child stringSession JNull).

(** The view-models of the grid example. *)
Definition vmGrid : value :=
  returned (processData aMerkfaehigkeit child merkSession gridResult).
Definition vmItems : value :=
  returned (processData figurGrundS child merkSession gridResult).
Definition vmNoResult : value :=
  returned (processData mZeichnen child overlappingSession JNull).
Definition vmSheet : value :=
  returned (ArbeitsBlaetterApi.processData child merkSession).

(** A first item whose flags are truthy without being [true]. *)
Definition truthyFlags : value :=
  object [ ("items", JArray [ object
    [ ("identifikationOK", JNumber (Num 1)); ("items2ok", JString "yes");
      ("richtigKuh", JNumber (Num 1)); ("richtigEnte", JString "yes") ] ]) ].
Definition vmTruthyItems : value :=
  returned (processData figurGrundS child merkSession truthyFlags).
Definition vmTruthyCells : value :=
  returned (processData aMerkfaehigkeit child merkSession truthyFlags).

(** A page whose view-all-data request fails with status 500 after a
    successful authentication. *)
Definition basicDown : Page :=
  {| token := Some "tok"; p_id := Some "42";
     authUrl := "https://login.bildung.software/api/v1/authenticate";
     baseUrl := "https://edulog-api.bildung.software/api";
     network := λ req,
       match req with
       | Post _ _ _ =>
           Some {| ok := true; status := 200;
                   json := Ok (object [("data", session twoColors
                                                  (sixLevels MZeichnenApi.category))]) |}
       | Get _ _ => Some downFailure
       end |}.
Definition basicDownAuth : result value * Service := authenticate basicDown fresh.

(** The view-model of mZeichnen behind the failing view-data request. *)
Definition vmDown : value :=
  returned (processData mZeichnen child (returned downAuth.1) JNull).

End Examples.

(** * Properties *)

(** ** Arrays: [sort] and [find] *)

Section SortFacts.
Context {A : Type} (cmp : A → A → number).

Lemma sort_cons x l : sort cmp (x :: l) = sort_insert cmp x (sort cmp l).
Proof. reflexivity. Qed.

Lemma sort_insert_perm x l : sort_insert cmp x l ≡ₚ x :: l.
Proof.
  induction l as [|y l IH]; cbn [sort_insert]; [reflexivity|].
  destruct (num_gt (cmp x y) (Num 0)); [|reflexivity].
  rewrite IH. apply Permutation_swap.
Qed.

Lemma sort_perm l : sort cmp l ≡ₚ l.
Proof.
  induction l as [|x l IH]; [reflexivity|].
  rewrite sort_cons, sort_insert_perm. by f_equiv.
Qed.

Lemma sort_length l : length (sort cmp l) = length l.
Proof. by rewrite sort_perm. Qed.

Lemma sort_elem_of x l : x ∈ sort cmp l ↔ x ∈ l.
Proof. by rewrite sort_perm. Qed.

(** When the comparator is the difference of an integer key, the result is
    ordered by that key. *)
Section Keyed.
Variable key : A → Z.
Variable dom : A → Prop.
Hypothesis cmp_key : ∀ a b, dom a → dom b → cmp a b = Num (key a - key b).

Let le (a b : A) : Prop := key a ≤ key b.

Lemma sort_insert_sorted x l :
  dom x → Forall dom l →
  StronglySorted le l → StronglySorted le (sort_insert cmp x l).
Proof.
  intros Hx Hl Hs. induction Hs as [|y l Hs IH Hy]; cbn [sort_insert].
  - repeat constructor.
  - apply Forall_cons in Hl as [Hdy Hl].
    rewrite (cmp_key x y Hx Hdy). unfold num_gt, num_lt.
    destruct (Z.ltb_spec 0 (key x - key y)) as [Hlt|Hge].
    + constructor; [by apply IH|].
      rewrite sort_insert_perm. constructor; [unfold le; lia|done].
    + constructor; [by constructor|].
      constructor; [unfold le; lia|].
      eapply Forall_impl; [exact Hy|]. unfold le. intros; simpl in *; lia.
Qed.

Lemma sort_sorted l : Forall dom l → StronglySorted le (sort cmp l).
Proof.
  induction 1 as [|x l Hx Hl IH]; [constructor|].
  rewrite sort_cons. apply sort_insert_sorted; [done| |done].
  by rewrite sort_perm.
Qed.
End Keyed.
End SortFacts.

Lemma find_split {A} (p : A → bool) l t :
  find p l = Some t ↔
  ∃ pre post, l = pre ++ t :: post ∧ p t = true ∧ Forall (λ u, p u = false) pre.
Proof.
  unfold find. split.
  - induction l as [|x l IH]; simpl; [done|].
    destruct (p x) eqn:Hp.
    + intros [= ->]. by exists [], l.
    + intros (pre & post & -> & Ht & Hpre)%IH.
      exists (x :: pre), post. split_and!; [done|done|by constructor].
  - intros (pre & post & -> & Ht & Hpre).
    induction Hpre as [|x pre Hx _ IH]; simpl; [by rewrite Ht|by rewrite Hx].
Qed.

Lemma find_none {A} (p : A → bool) l :
  find p l = None ↔ Forall (λ u, p u = false) l.
Proof.
  unfold find. induction l as [|x l IH]; simpl.
  - split; [constructor|done].
  - destruct (p x) eqn:Hp.
    + split; [done|]. intros [? _]%Forall_cons. congruence.
    + rewrite IH. split; [by constructor|by intros [_ ?]%Forall_cons].
Qed.

Section SortFirst.
Context {A : Type} (cmp : A → A → number).
Variable key : A → Z.
Variable dom : A → Prop.
Hypothesis cmp_key : ∀ a b, dom a → dom b → cmp a b = Num (key a - key b).

(** What [find] sees after an insertion into a list ordered by the key. *)
Lemma find_sort_insert (p : A → bool) x l :
  dom x → Forall dom l → StronglySorted (λ a b, key a ≤ key b) l →
  find p (sort_insert cmp x l)
  = if p x then
      match find p l with
      | Some y => if key x <=? key y then Some x else Some y
      | None => Some x
      end
    else find p l.
Proof.
  intros Hx Hl Hs. unfold find.
  induction Hs as [|y l Hs IH Hy]; cbn [sort_insert List.find].
  - by destruct (p x).
  - apply Forall_cons in Hl as [Hdy Hl].
    rewrite (cmp_key x y Hx Hdy). unfold num_gt, num_lt.
    destruct (Z.ltb_spec 0 (key x - key y)) as [Hlt|Hge]; cbn [List.find].
    + destruct (p y) eqn:Hpy.
      * destruct (p x); [|done]. by destruct (Z.leb_spec (key x) (key y)); [lia|].
      * by apply IH.
    + destruct (p x) eqn:Hpx; [|done].
      destruct (p y) eqn:Hpy.
      * by destruct (Z.leb_spec (key x) (key y)); [|lia].
      * destruct (List.find p l) as [z|] eqn:Hz; [|done].
        apply find_some in Hz as [Hin _]. apply list_elem_of_In in Hin.
        rewrite Forall_forall in Hy. specialize (Hy z Hin). simpl in Hy.
        by destruct (Z.leb_spec (key x) (key z)); [|lia].
Qed.

(** In a list whose elements have keys, the element that [find] meets first
    after the sort is the one with the least key among those that satisfy
    the test, and of several with the least key the one that came first. *)
Lemma find_sort_first (p : A → bool) pre t post :
  Forall dom (pre ++ t :: post) → p t = true →
  (∀ u, u ∈ pre → p u = true → key t < key u) →
  (∀ u, u ∈ post → p u = true → key t ≤ key u) →
  find p (sort cmp (pre ++ t :: post)) = Some t.
Proof.
  intros Hdom Ht Hpre Hpost.
  induction pre as [|u pre IH]; cbn [app] in *.
  - apply Forall_cons in Hdom as [Hdt Hdom].
    rewrite sort_cons, (find_sort_insert p t (sort cmp post) Hdt).
    + rewrite Ht. destruct (find p (sort cmp post)) as [y|] eqn:Hy; [|done].
      apply find_split in Hy as (l1 & l2 & Hl & Hpy & _).
      assert (y ∈ post) as Hin.
      { apply (sort_elem_of cmp). rewrite Hl. set_solver. }
      specialize (Hpost y Hin Hpy).
      by destruct (Z.leb_spec (key t) (key y)); [|lia].
    + by rewrite sort_perm.
    + by apply (sort_sorted cmp key dom).
  - apply Forall_cons in Hdom as [Hdu Hdom].
    rewrite sort_cons, (find_sort_insert p u _ Hdu).
    + rewrite IH; [|done|]. 
      * destruct (p u) eqn:Hpu; [|done].
        assert (key t < key u) by (apply Hpre; [apply list_elem_of_here|done]).
        by destruct (Z.leb_spec (key u) (key t)); [lia|].
      * intros v Hv. apply Hpre. by apply list_elem_of_further.
    + by rewrite sort_perm.
    + by apply (sort_sorted cmp key dom).
Qed.

End SortFirst.

(** ** Values *)

Lemma get_Ok v k r : get v k = Ok r → nullish v = false ∧ r = prop v k.
Proof. unfold get. destruct (nullish v); [done|]. by intros [= <-]. Qed.

Lemma get_not_nullish v k : nullish v = false → get v k = Ok (prop v k).
Proof. unfold get. by intros ->. Qed.

Lemma get_nullish v k : nullish v = true → get v k = Throw "TypeError".
Proof. unfold get. by intros ->. Qed.

Lemma prop_default_null v k : prop (default_null v) k = prop v k.
Proof. by destruct v. Qed.

Lemma and_prop_default_null v k :
  truthy (and_prop (default_null v) k) = truthy (and_prop v k).
Proof. by destruct v. Qed.

Lemma foldl_insert_lookup (l : list (string * value)) (m : gmap string value) k :
  foldl (λ m kv, <[kv.1:=kv.2]> m) m l !! k = assoc k l (m !! k).
Proof.
  revert m. induction l as [|[k' v] l IH]; intros m; simpl; [done|].
  rewrite IH, lookup_insert. simpl.
  destruct (String.eqb_spec k' k); by case_decide.
Qed.

Lemma object_map_lookup l k : object_map l !! k = assoc k l None.
Proof. unfold object_map. by rewrite foldl_insert_lookup, lookup_empty. Qed.

Lemma prop_object l k : prop (object l) k = default JUndefined (assoc k l None).
Proof. unfold object, prop. by rewrite object_map_lookup. Qed.

Lemma foldl_insert_dom (l : list (string * value)) (m : gmap string value) :
  dom (foldl (λ m kv, <[kv.1:=kv.2]> m) m l) = list_to_set (map fst l) ∪ dom m.
Proof.
  revert m. induction l as [|[k v] l IH]; intros m; simpl; [set_solver|].
  rewrite IH, dom_insert_L. set_solver.
Qed.

Lemma keys_object l : keys (object l) = list_to_set (map fst l).
Proof. unfold keys, object, object_map. rewrite foldl_insert_dom. set_solver. Qed.

Lemma prop_falsy v k : truthy v = false → k ≠ "length" → prop v k = JUndefined.
Proof.
  intros Hv Hk. destruct v as [| | |[]| s | |]; try done.
  simpl in Hv. destruct s; [|done]. simpl.
  by destruct (String.eqb_spec k "length").
Qed.

(** ** The scoring block *)

Section ScoringFacts.
Context `{Host}.

Lemma Ok_bind {A B} (a : A) (f : A → result B) : Ok a ≫= f = f a.
Proof. reflexivity. Qed.

Lemma Throw_bind {A B} e (f : A → result B) : Throw e ≫= f = Throw e.
Proof. reflexivity. Qed.

Lemma bind_Ok {A B} (m : result A) (f : A → result B) b :
  m ≫= f = Ok b → ∃ a, m = Ok a ∧ f a = Ok b.
Proof. destruct m as [a|]; [|done]. intros Hf. by exists a. Qed.

Lemma isCategory_Ok cat t b :
  isCategory cat t = Ok b → nullish t = false ∧ b = hasCategory cat t.
Proof.
  unfold isCategory. intros (c & [Hn ->]%get_Ok & [= <-])%bind_Ok. done.
Qed.

Lemma filterM_category cat l filtered :
  filterM (isCategory cat) l = Ok filtered →
  filtered = List.filter (hasCategory cat) l.
Proof.
  revert filtered. induction l as [|t l IH]; intros filtered; simpl.
  - by intros [= <-].
  - intros (b & [_ ->]%isCategory_Ok & (ys & ->%IH & [= <-])%bind_Ok)%bind_Ok.
    done.
Qed.

Lemma matchingThresholds_Ok cat thresholds filtered :
  matchingThresholds cat thresholds = Ok filtered →
  ∃ ths, thresholds = JArray ths ∧ filtered = List.filter (hasCategory cat) ths.
Proof.
  destruct thresholds; try done. simpl. intros Hf%filterM_category. eauto.
Qed.

Lemma thresholdsOf_array authData ths :
  thresholdsOf authData = JArray ths →
  truthy (and_prop authData "parameters") = true.
Proof.
  unfold thresholdsOf, and_prop. intros Hths.
  destruct (truthy authData) eqn:Ha.
  - destruct (truthy (prop authData "parameters")) eqn:Hp; [done|].
    by rewrite (prop_falsy _ "edulog_thresholds" Hp) in Hths.
  - rewrite (prop_falsy _ "parameters" Ha) in Hths; done.
Qed.

Lemma scoreOf_default_null sf t : scoreOf sf (default_null t) = scoreOf sf t.
Proof. by destruct t. Qed.

Lemma rawScore_default_null sf t : rawScore sf (default_null t) = rawScore sf t.
Proof. by destruct t. Qed.

Lemma scoring_default_null cat sf a t :
  scoring cat sf (default_null a) (default_null t) = scoring cat sf a t.
Proof.
  unfold scoring, resolved.
  by rewrite and_prop_default_null, !prop_default_null, scoreOf_default_null.
Qed.

(** What [scoring] returns: the colours come from the colour parameter
    alone; the rest is resolved from six or more matching thresholds, or
    else stays at the defaults. *)
Lemma scoring_inv cat sf authData testResults sc :
  scoring cat sf authData testResults = Ok sc →
  (s_colors sc = JArray [] ∨ colorsOf (colorSpecOf authData) = Ok (s_colors sc))
  ∧ ((∃ ths, thresholdsOf authData = JArray ths
             ∧ (6 ≤ length (List.filter (hasCategory cat) ths))%nat
             ∧ sc = resolved sf (s_colors sc)
                      (List.filter (hasCategory cat) ths) testResults)
     ∨ (sc = defaults (s_colors sc)
        ∧ ∀ ths, thresholdsOf authData = JArray ths →
                 (length (List.filter (hasCategory cat) ths) < 6)%nat)).
Proof.
  unfold scoring. destruct (truthy (and_prop authData "parameters")) eqn:Hp.
  - fold (colorSpecOf authData) (thresholdsOf authData).
    set (cs := if truthy (colorSpecOf authData) then _ else _).
    assert (∀ c, cs = Ok c →
              c = JArray [] ∨ colorsOf (colorSpecOf authData) = Ok c) as Hcs.
    { subst cs. intros c. destruct (truthy (colorSpecOf authData)); [by right|].
      intros [= <-]. by left. }
    destruct cs as [colors|]; [|done]. rewrite Ok_bind.
    specialize (Hcs _ eq_refl).
    destruct (truthy (thresholdsOf authData)) eqn:Ht.
    + destruct (matchingThresholds cat (thresholdsOf authData)) as [f|] eqn:Hm;
        [|done]. rewrite Ok_bind.
      apply matchingThresholds_Ok in Hm as (ths & Hths & ->).
      destruct (Nat.leb_spec 6 (length (List.filter (hasCategory cat) ths))).
      * intros [= <-]. split; [done|]. left. by exists ths.
      * intros [= <-]. split; [done|]. right. split; [done|].
        intros ths'. rewrite Hths. by intros [= <-].
    + intros [= <-]. split; [done|]. right. split; [done|].
      intros ths Hths. by rewrite Hths in Ht.
  - intros [= <-]. split; [by left|]. right. split; [done|].
    intros ths Hths%thresholdsOf_array. congruence.
Qed.

End ScoringFacts.

(** ** The assemblers *)

Ltac inv_bind H :=
  repeat (let x := fresh "x" in let Hx := fresh "Hx" in
          apply bind_Ok in H as (x & Hx & H)).

Section AssemblerFacts.
Context `{Host}.

Lemma aMerkfaehigkeit_adapter : aMerkfaehigkeit ∈ adapters.
Proof. apply list_elem_of_here. Qed.

Lemma mZeichnen_adapter : mZeichnen ∈ adapters.
Proof. apply list_elem_of_further, list_elem_of_here. Qed.

Lemma figurGrundS_adapter : figurGrundS ∈ adapters.
Proof. do 2 apply list_elem_of_further. apply list_elem_of_here. Qed.

Lemma elem_of_adapters a :
  a ∈ adapters → a = aMerkfaehigkeit ∨ a = mZeichnen ∨ a = figurGrundS.
Proof. unfold adapters. rewrite !elem_of_cons, elem_of_nil. tauto. Qed.

Lemma itemColorsOf_keys testResults itemColors k :
  FigurGrundSApi.itemColorsOf testResults = Ok itemColors →
  k ∉ map fst FigurGrundSApi.itemFields → itemColors !! k = None.
Proof.
  unfold FigurGrundSApi.itemColorsOf. destruct (hasItems testResults).
  - unfold FigurGrundSApi.itemFields. cbn [mapM fst snd].
    destruct (nullish (prop (prop testResults "items") "0")) eqn:Hn.
    + by rewrite !(get_nullish _ _ Hn), !Throw_bind.
    + rewrite !(get_not_nullish _ _ Hn), !Ok_bind.
      intros [= <-] Hk. rewrite object_map_lookup. cbn [assoc fst snd].
      cbn [map fst] in Hk. rewrite !elem_of_cons, elem_of_nil in Hk.
      repeat match goal with
             | |- context [String.eqb ?a k] =>
                 destruct (String.eqb_spec a k) as [<-|_]; [tauto|]
             end.
      done.
  - by intros [= <-].
Qed.

(** The scoring properties of an assembled view-model are those of the
    scoring block. *)
Lemma processData_scoring a apiData authData testResults vm :
  a ∈ adapters →
  processData a apiData authData testResults = Ok vm →
  ∃ sc, scoring (category a) (scoreField a) authData testResults = Ok sc
        ∧ prop vm "min" = s_min sc ∧ prop vm "max" = s_max sc
        ∧ prop vm "colors" = s_colors sc ∧ prop vm "ranges" = s_ranges sc
        ∧ prop vm "assessment" = s_assessment sc
        ∧ prop vm "submin" = s_min sc ∧ prop vm "submax" = s_max sc
        ∧ prop vm "score" = rawScore (scoreField a) testResults
        ∧ prop vm "testResults" = default_null testResults.
Proof.
  intros [->| [->| ->]]%elem_of_adapters; cbn [processData category scoreField
    aMerkfaehigkeit mZeichnen figurGrundS];
    unfold AMerkfaehigkeitApi.processData, MZeichnenApi.processData,
      FigurGrundSApi.processData;
    rewrite scoring_default_null, rawScore_default_null;
    intros Hvm; inv_bind Hvm; injection Hvm as <-.
  - exists x. split; [done|]. by rewrite !prop_object.
  - exists x. split; [done|]. by rewrite !prop_object.
  - exists x. split; [done|].
    unfold prop, spread.
    rewrite !lookup_union_r by (eapply itemColorsOf_keys; [done|];
      apply (bool_decide_unpack _); vm_compute; reflexivity).
    by rewrite !object_map_lookup.
Qed.

End AssemblerFacts.

(** ** Threshold resolution and score classification *)

Section Thresholds.
Context `{Host}.

Lemma inBand_NaN t : inBand NaN t = false.
Proof. unfold inBand, num_ge, num_le. by destruct (NumberOr _ _). Qed.

(** The view-model of six or more matching thresholds. *)
Lemma processData_resolved a apiData authData testResults vm ths :
  a ∈ adapters →
  processData a apiData authData testResults = Ok vm →
  thresholdsOf authData = JArray ths →
  (6 ≤ length (List.filter (hasCategory (category a)) ths))%nat →
  let sorted := sort byLevel (List.filter (hasCategory (category a)) ths) in
  prop vm "ranges" = JArray (map rangeOf sorted)
  ∧ prop vm "assessment"
    = assessmentOf (found (find (inBand (scoreOf (scoreField a) testResults)) sorted)).
Proof.
  intros Ha Hvm Hths Hlen.
  destruct (processData_scoring _ _ _ _ _ Ha Hvm)
    as (sc & Hsc & _ & _ & _ & -> & -> & _).
  apply scoring_inv in Hsc as [_ [(ths' & Hths' & _ & ->)|[_ Hlt]]].
  - rewrite Hths in Hths'. by injection Hths' as <-.
  - specialize (Hlt _ Hths). lia.
Qed.



(** The band test on a threshold with numeric bounds. *)
Lemma inBand_levelBand s u l lo hi :
  levelBand u l lo hi → inBand (Num s) u = true ↔ lo ≤ s ≤ hi.
Proof.
  intros (_ & Hlo & Hhi). unfold inBand, NumberOr, num_or. rewrite Hlo, Hhi.
  cbn [truthy].
  assert ((if negb (lo =? 0) then Num lo else Num 0) = Num lo) as ->.
  { destruct (Z.eqb_spec lo 0) as [->|]; done. }
  assert ((if negb (hi =? 0) then Num hi else Num 0) = Num hi) as ->.
  { destruct (Z.eqb_spec hi 0) as [->|]; done. }
  unfold num_ge, num_le. rewrite andb_true_iff, !Z.leb_le. done.
Qed.

Lemma levelBand_truthy u l lo hi : levelBand u l lo hi → truthy u = true.
Proof.
  intros (Hl & _). destruct (truthy u) eqn:Hu; [done|].
  by rewrite (prop_falsy _ "level" Hu) in Hl.
Qed.

(** The text taken from a threshold whose description is a string. *)
Lemma assessmentOf_description t l lo hi d :
  levelBand t l lo hi → prop t "description2" = JString d →
  assessmentOf t = JString d.
Proof.
  intros Ht%levelBand_truthy Hd. unfold assessmentOf, and_prop.
  rewrite Ht, Hd. cbn [truthy].
  by destruct (String.eqb_spec d "") as [->|].
Qed.

Lemma scoreOf_number sf testResults s :
  sf ≠ "length" → prop testResults sf = JNumber (Num s) →
  scoreOf sf testResults = Num s.
Proof.
  intros Hsf Hs. unfold scoreOf, and_prop.
  destruct (truthy testResults) eqn:Ht.
  - rewrite Hs. cbn [truthy ToNumber].
    by destruct (Z.eqb_spec s 0) as [->|].
  - by rewrite (prop_falsy _ sf Ht Hsf) in Hs.
Qed.

Lemma scoreField_not_length a : a ∈ adapters → scoreField a ≠ "length".
Proof. by intros [->|[->| ->]]%elem_of_adapters. Qed.

(** The assessment of a view-model resolved from six or more thresholds
    with numeric levels and bounds, for an integer score: the description of
    the threshold of least level whose band contains the score, the earlier
    one of two with the same level. *)
Lemma assessment_first_band a apiData authData testResults vm ths s pre t post l lo hi d :
  a ∈ adapters →
  processData a apiData authData testResults = Ok vm →
  thresholdsOf authData = JArray ths →
  (6 ≤ length (List.filter (hasCategory (category a)) ths))%nat →
  (∀ u, u ∈ List.filter (hasCategory (category a)) ths →
        ∃ l' lo' hi', levelBand u l' lo' hi') →
  scoreOf (scoreField a) testResults = Num s →
  List.filter (hasCategory (category a)) ths = pre ++ t :: post →
  levelBand t l lo hi → lo ≤ s ≤ hi →
  (∀ u l' lo' hi', u ∈ pre → levelBand u l' lo' hi' → lo' ≤ s ≤ hi' → l < l') →
  (∀ u l' lo' hi', u ∈ post → levelBand u l' lo' hi' → lo' ≤ s ≤ hi' → l ≤ l') →
  prop t "description2" = JString d →
  prop vm "assessment" = JString d.
Proof.
  intros Ha Hvm Hths Hlen Hnum Hscore Hsplit Ht Hin Hpre Hpost Hd.
  destruct (processData_resolved _ _ _ _ _ _ Ha Hvm Hths Hlen) as [_ ->].
  rewrite Hscore, Hsplit. rewrite Hsplit in Hnum.
  set (key := λ v, match levelOf v with Num z => z | NaN => 0 end).
  assert (∀ u l' lo' hi', levelBand u l' lo' hi' → key u = l') as Hkey.
  { intros u l' lo' hi' (Hl & _). unfold key, levelOf. by rewrite Hl. }
  rewrite (find_sort_first byLevel key (λ v, ∃ z, levelOf v = Num z)).
  - cbn [found default]. by apply (assessmentOf_description t l lo hi).
  - intros x y [zx Hx] [zy Hy]. unfold byLevel, key.
    fold (levelOf x) (levelOf y). by rewrite Hx, Hy.
  - apply Forall_forall. intros u Hu.
    destruct (Hnum u Hu) as (l' & lo' & hi' & Hl & _). by exists l'.
  - by apply (inBand_levelBand s t l lo hi).
  - intros u Hu Hband.
    destruct (Hnum u) as (l' & lo' & hi' & Hlb); [set_solver|].
    rewrite (Hkey _ _ _ _ Ht), (Hkey _ _ _ _ Hlb).
    apply (Hpre u l' lo' hi' Hu Hlb). by apply (inBand_levelBand s u l').
  - intros u Hu Hband.
    destruct (Hnum u) as (l' & lo' & hi' & Hlb); [set_solver|].
    rewrite (Hkey _ _ _ _ Ht), (Hkey _ _ _ _ Hlb).
    apply (Hpost u l' lo' hi' Hu Hlb). by apply (inBand_levelBand s u l').
Qed.

(** No band contains the score: the assessment is empty. *)
Lemma assessment_outside_bands a apiData authData testResults vm ths s :
  a ∈ adapters →
  processData a apiData authData testResults = Ok vm →
  thresholdsOf authData = JArray ths →
  (6 ≤ length (List.filter (hasCategory (category a)) ths))%nat →
  scoreOf (scoreField a) testResults = Num s →
  (∀ u, u ∈ List.filter (hasCategory (category a)) ths →
        ∃ l lo hi, levelBand u l lo hi ∧ ¬ (lo ≤ s ≤ hi)) →
  prop vm "assessment" = JString "".
Proof.
  intros Ha Hvm Hths Hlen Hscore Hout.
  destruct (processData_resolved _ _ _ _ _ _ Ha Hvm Hths Hlen) as [_ ->].
  rewrite Hscore.
  assert (find (inBand (Num s))
            (sort byLevel (List.filter (hasCategory (category a)) ths)) = None) as ->;
    [|done].
  apply find_none, Forall_forall. intros u Hu%sort_elem_of.
  destruct (Hout u Hu) as (l & lo & hi & Hlb & Hnot).
  destruct (inBand (Num s) u) eqn:Hb; [|done].
  by apply (inBand_levelBand s u l lo hi Hlb) in Hb.
Qed.

(** The ranges of a threshold with numeric bounds. *)
Lemma rangeOf_numeric u lo hi :
  ToNumber (prop u "min") = Num lo → ToNumber (prop u "max") = Num hi →
  rangeOf u = object [("start", JNumber (Num lo)); ("end", JNumber (Num hi))].
Proof.
  intros Hlo Hhi. unfold rangeOf, NumberOr, num_or. rewrite Hlo, Hhi.
  cbn [truthy].
  destruct (Z.eqb_spec lo 0) as [->|]; destruct (Z.eqb_spec hi 0) as [->|]; done.
Qed.

(** With numeric levels the sorted thresholds ascend in level. *)
Lemma sort_byLevel_ascending l :
  (∀ u, u ∈ l → ∃ z, levelOf u = Num z) →
  StronglySorted level_le (sort byLevel l).
Proof.
  intros Hnum.
  set (key := λ v, match levelOf v with Num z => z | NaN => 0 end).
  assert (StronglySorted (λ x y, key x ≤ key y) (sort byLevel l)) as Hs.
  { apply (sort_sorted byLevel key (λ v, ∃ z, levelOf v = Num z)).
    - intros x y [zx Hx] [zy Hy]. unfold byLevel, key.
      fold (levelOf x) (levelOf y). by rewrite Hx, Hy.
    - apply Forall_forall. intros x Hx. by apply Hnum. }
  assert (Forall (λ v, ∃ z, levelOf v = Num z) (sort byLevel l)) as Hdom.
  { apply Forall_forall. intros x Hx%sort_elem_of. by apply Hnum. }
  induction Hs as [|x l' Hs IH Hx]; [constructor|].
  apply Forall_cons in Hdom as [[zx Hzx] Hdom].
  constructor; [by apply IH|].
  apply Forall_forall. intros y Hy.
  rewrite Forall_forall in Hx, Hdom.
  destruct (Hdom y Hy) as [zy Hzy]. specialize (Hx y Hy). unfold key in Hx.
  rewrite Hzx, Hzy in Hx. by exists zx, zy.
Qed.


(** C3.  Six or more thresholds match the category and have numeric
    levels and bounds, and the score field of the test result is the integer
    [s].  Let [t] be a matching threshold whose inclusive band from [lo] to
    [hi] contains [s], such that every other matching threshold whose band
    contains [s] has a greater level, or the same level and a later place
    in the collection.  Then the assessment is the description of [t]: of
    overlapping bands, the one of the smallest level supplies the text. *)
Theorem C3_first_band_in_level_order
    a apiData authData testResults vm ths s pre t post l lo hi d :
  a ∈ adapters →
  processData a apiData authData testResults = Ok vm →
  thresholdsOf authData = JArray ths →
  (6 ≤ length (List.filter (hasCategory (category a)) ths))%nat →
  (∀ u, u ∈ List.filter (hasCategory (category a)) ths →
        ∃ l' lo' hi', levelBand u l' lo' hi') →
  prop testResults (scoreField a) = JNumber (Num s) →
  List.filter (hasCategory (category a)) ths = pre ++ t :: post →
  levelBand t l lo hi → lo ≤ s ≤ hi →
  (∀ u l' lo' hi', u ∈ pre → levelBand u l' lo' hi' → lo' ≤ s ≤ hi' → l < l') →
  (∀ u l' lo' hi', u ∈ post → levelBand u l' lo' hi' → lo' ≤ s ≤ hi' → l ≤ l') →
  prop t "description2" = JString d →
  prop vm "assessment" = JString d.
Proof.
  intros Ha Hvm Hths Hlen Hnum Hscore.
  apply (assessment_first_band a apiData authData testResults vm ths s); try done.
  apply scoreOf_number; [by apply scoreField_not_length|done].
Qed.

(** C4, as amended.  Whenever the view-model carries a min, max and
    ranges other than the defaults, at least six entries of the threshold
    collection match the category, and the ranges hold one entry for each
    of them: the ranges of a rearrangement of the matching entries, which
    ascends in level when the levels are numbers.  The range of an entry
    with numeric bounds runs from its [min] to its [max].  Neither the
    number six nor the levels are checked any further. *)
Theorem C4_resolved_from_six_or_more a apiData authData testResults vm :
  a ∈ adapters →
  processData a apiData authData testResults = Ok vm →
  ¬ (prop vm "min" = JNumber (Num 0) ∧ prop vm "max" = JNumber (Num 13)
     ∧ prop vm "ranges" = JArray []) →
  ∃ ths sorted,
    thresholdsOf authData = JArray ths
    ∧ (6 ≤ length (List.filter (hasCategory (category a)) ths))%nat
    ∧ sorted ≡ₚ List.filter (hasCategory (category a)) ths
    ∧ prop vm "ranges" = JArray (map rangeOf sorted)
    ∧ length (map rangeOf sorted)
      = length (List.filter (hasCategory (category a)) ths)
    ∧ ((∀ u, u ∈ List.filter (hasCategory (category a)) ths →
             ∃ z, levelOf u = Num z) →
       StronglySorted level_le sorted)
    ∧ (∀ u lo hi, u ∈ sorted →
                  ToNumber (prop u "min") = Num lo →
                  ToNumber (prop u "max") = Num hi →
                  rangeOf u = object [("start", JNumber (Num lo));
                                      ("end", JNumber (Num hi))]).
Proof.
  intros Ha Hvm Hnd.
  destruct (processData_scoring _ _ _ _ _ Ha Hvm)
    as (sc & Hsc & Hmin & Hmax & _ & Hranges & _).
  apply scoring_inv in Hsc as [_ [(ths & Hths & Hge & Hsc)|[Hsc _]]].
  - exists ths, (sort byLevel (List.filter (hasCategory (category a)) ths)).
    split_and!; try done.
    + apply sort_perm.
    + by rewrite Hranges, Hsc.
    + by rewrite length_map, sort_length.
    + apply sort_byLevel_ascending.
    + intros u lo hi _. apply rangeOf_numeric.
  - destruct Hnd. by rewrite Hmin, Hmax, Hranges, Hsc.
Qed.

End Thresholds.



(** Discharges a statement about every threshold of a concrete list that
    has a given level and band. *)
Ltac each_threshold Hu Hlb tac :=
  repeat (apply elem_of_cons in Hu as [->|Hu];
          [destruct Hlb as (Hl & Hlo & Hhi);
           vm_compute in Hl, Hlo, Hhi;
           injection Hl as <-; injection Hlo as <-; injection Hhi as <-; tac|]);
  by apply elem_of_nil in Hu.

Lemma C3_first_band_in_level_order_witness :
  (6 ≤ length (List.filter (hasCategory (category mZeichnen))
                 (Examples.overlapping MZeichnenApi.category)))%nat
  ∧ prop Examples.score5 (scoreField mZeichnen) = JNumber (Num 5)
  ∧ List.filter (hasCategory (category mZeichnen))
      (Examples.overlapping MZeichnenApi.category)
    = Examples.overlapBefore MZeichnenApi.category
      ++ Examples.overlapFirst MZeichnenApi.category
      :: Examples.overlapAfter MZeichnenApi.category
  ∧ levelBand (Examples.overlapFirst MZeichnenApi.category) 2 4 5
  ∧ levelBand (Examples.threshold MZeichnenApi.category 4 5 8 "unauffaellig") 4 5 8
  ∧ 4 ≤ 5 ≤ 5 ∧ 5 ≤ 5 ≤ 8
  ∧ prop (Examples.overlapFirst MZeichnenApi.category) "description2"
    = JString "auffaellig"
  ∧ prop Examples.vmOverlapping "assessment" = JString "auffaellig".
Proof.
  assert (6 ≤ length (List.filter (hasCategory (category mZeichnen))
                        (Examples.overlapping MZeichnenApi.category)))%nat as Hlen.
  { vm_compute. lia. }
  assert (prop Examples.score5 (scoreField mZeichnen) = JNumber (Num 5)) as Hscore
    by (vm_compute; reflexivity).
  assert (List.filter (hasCategory (category mZeichnen))
            (Examples.overlapping MZeichnenApi.category)
          = Examples.overlapBefore MZeichnenApi.category
            ++ Examples.overlapFirst MZeichnenApi.category
            :: Examples.overlapAfter MZeichnenApi.category)
    as Hsplit by (vm_compute; reflexivity).
  assert (levelBand (Examples.overlapFirst MZeichnenApi.category) 2 4 5)
    as Ht by (split_and!; vm_compute; reflexivity).
  assert (levelBand (Examples.threshold MZeichnenApi.category 4 5 8 "unauffaellig") 4 5 8)
    as Hother by (split_and!; vm_compute; reflexivity).
  assert (4 ≤ 5 ≤ 5) as Hin by lia.
  assert (prop (Examples.overlapFirst MZeichnenApi.category) "description2"
          = JString "auffaellig") as Hd by (vm_compute; reflexivity).
  split; [exact Hlen|]. split; [exact Hscore|]. split; [exact Hsplit|].
  split; [exact Ht|]. split; [exact Hother|]. split; [exact Hin|]. split; [lia|].
  split; [exact Hd|].
  apply (C3_first_band_in_level_order mZeichnen Examples.child
           Examples.overlappingSession Examples.score5 Examples.vmOverlapping
           (Examples.overlapping MZeichnenApi.category) 5
           (Examples.overlapBefore MZeichnenApi.category)
           (Examples.overlapFirst MZeichnenApi.category)
           (Examples.overlapAfter MZeichnenApi.category) 2 4 5 "auffaellig"
           mZeichnen_adapter); [vm_compute; reflexivity|vm_compute; reflexivity
                               |exact Hlen| |exact Hscore|exact Hsplit|exact Ht
                               |exact Hin| | |exact Hd].
  - intros u Hu. rewrite Hsplit in Hu.
    unfold Examples.overlapBefore, Examples.overlapFirst, Examples.overlapAfter in Hu.
    cbn [app] in Hu.
    repeat (apply elem_of_cons in Hu as [->|Hu];
            [eexists _, _, _; split_and!; vm_compute; reflexivity|]).
    by apply elem_of_nil in Hu.
  - intros u l' lo' hi' Hu Hlb Hband. unfold Examples.overlapBefore in Hu.
    each_threshold Hu Hlb lia.
  - intros u l' lo' hi' Hu Hlb Hband. unfold Examples.overlapAfter in Hu.
    each_threshold Hu Hlb lia.
Defined.

(** The tie-break on a concrete table: the bands of level 2 ([4,5]) and of
    level 4 ([5,8]) both contain the score 5, level 4 comes first in the
    table as delivered, and the assessment is that of level 2. *)
Example C3_overlap_lowest_level :
  inBand (Num 5) (Examples.threshold MZeichnenApi.category 2 4 5 "auffaellig") = true
  ∧ inBand (Num 5) (Examples.threshold MZeichnenApi.category 4 5 8 "unauffaellig") = true
  ∧ prop Examples.vmOverlapping "assessment" = JString "auffaellig".
Proof. split_and!; vm_compute; reflexivity. Qed.

(** End to end on six levels spanning 0..13: the score 7 lies in the band
    of level 4. *)
Example assemble_score_7 :
  prop Examples.vmScore7 "assessment" = JString "unauffaellig"
  ∧ prop Examples.vmScore7 "min" = JNumber (Num 0)
  ∧ prop Examples.vmScore7 "max" = JNumber (Num 13)
  ∧ prop Examples.vmScore7 "score" = JNumber (Num 7)
  ∧ prop Examples.vmScore7 "name" = JString "Mia Muster"
  ∧ prop Examples.vmScore7 "age" = JString "6,2"
  ∧ prop Examples.vmScore7 "company" = JString "Kita Sonnenschein".
Proof. split_and!; vm_compute; reflexivity. Qed.

Lemma C4_resolved_from_six_or_more_witness :
  ¬ (prop Examples.vmSeven "min" = JNumber (Num 0)
     ∧ prop Examples.vmSeven "max" = JNumber (Num 13)
     ∧ prop Examples.vmSeven "ranges" = JArray [])
  ∧ ∃ ths sorted,
      thresholdsOf Examples.sevenSession = JArray ths
      ∧ (6 ≤ length (List.filter (hasCategory (category mZeichnen)) ths))%nat
      ∧ sorted ≡ₚ List.filter (hasCategory (category mZeichnen)) ths
      ∧ prop Examples.vmSeven "ranges" = JArray (map rangeOf sorted)
      ∧ length (map rangeOf sorted)
        = length (List.filter (hasCategory (category mZeichnen)) ths)
      ∧ ((∀ u, u ∈ List.filter (hasCategory (category mZeichnen)) ths →
               ∃ z, levelOf u = Num z) →
         StronglySorted level_le sorted)
      ∧ (∀ u lo hi, u ∈ sorted →
                    ToNumber (prop u "min") = Num lo →
                    ToNumber (prop u "max") = Num hi →
                    rangeOf u = object [("start", JNumber (Num lo));
                                        ("end", JNumber (Num hi))]).
Proof.
  assert (¬ (prop Examples.vmSeven "min" = JNumber (Num 0)
             ∧ prop Examples.vmSeven "max" = JNumber (Num 13)
             ∧ prop Examples.vmSeven "ranges" = JArray [])) as Hnd.
  { intros (_ & _ & Hr). vm_compute in Hr. discriminate Hr. }
  split; [exact Hnd|].
  apply (C4_resolved_from_six_or_more mZeichnen Examples.child
           Examples.sevenSession JNull Examples.vmSeven mZeichnen_adapter).
  - vm_compute. reflexivity.
  - exact Hnd.
Defined.

(** The claim of C4 fails on seven matching entries with two at level 6:
    the result is not the default one, the matching subset has seven
    members whose levels are not distinct, and there are seven ranges. *)
Lemma C4_seven_entries_counterexample :
  processData mZeichnen Examples.child Examples.sevenSession JNull
  = Ok Examples.vmSeven
  ∧ prop Examples.vmSeven "max" = JNumber (Num 13)
  ∧ prop (prop Examples.vmSeven "ranges") "length" = JNumber (Num 7)
  ∧ length (List.filter (hasCategory (category mZeichnen))
              (Examples.sevenEntries MZeichnenApi.category)) = 7%nat
  ∧ map levelOf (List.filter (hasCategory (category mZeichnen))
                   (Examples.sevenEntries MZeichnenApi.category))
    = [Num 1; Num 2; Num 3; Num 4; Num 5; Num 6; Num 6].
Proof. split_and!; vm_compute; reflexivity. Qed.

(** ** The score field *)

Section Score.
Context `{Host}.

(** An absent (or otherwise falsy) score field is read as 0. *)
Lemma scoreOf_absent sf testResults :
  truthy (and_prop testResults sf) = false → scoreOf sf testResults = Num 0.
Proof. unfold scoreOf. by intros ->. Qed.

(** A truthy score field that is not numeric is read as [NaN], which no
    band contains. *)
Lemma scoreOf_non_numeric sf testResults :
  truthy (and_prop testResults sf) = true →
  ToNumber (prop testResults sf) = NaN →
  scoreOf sf testResults = NaN
  ∧ ∀ sorted, find (inBand (scoreOf sf testResults)) sorted = None.
Proof.
  unfold scoreOf. intros -> ->. split; [done|].
  intros sorted. apply find_none, Forall_forall. intros t _. apply inBand_NaN.
Qed.

End Score.

(** C5, at the failing input.  The six levels of aMerkfaehigkeit put the
    score 0 into the band of level 1; with the score field ["abc"] the
    assessment is empty instead of that band's description, while the score
    0 itself gets the description. *)
Theorem C5_non_numeric_score_is_not_zero :
  processData aMerkfaehigkeit Examples.child Examples.merkSession
    Examples.nonNumericScore = Ok Examples.vmNonNumeric
  ∧ prop Examples.vmNonNumeric "assessment" = JString ""
  ∧ processData aMerkfaehigkeit Examples.child Examples.merkSession
      Examples.zeroScore = Ok Examples.vmZero
  ∧ prop Examples.vmZero "assessment" = JString "stark auffaellig".
Proof. split_and!; vm_compute; reflexivity. Qed.

(** ** The colorizer *)

Section Colorizer.
Context `{Host}.

Lemma cellColor_flagColor v : AMerkfaehigkeitApi.cellColor v = flagColor v.
Proof. by destruct v as [| |[]|[]| | |]. Qed.

Lemma itemColor_flagColor v :
  is_flag v → FigurGrundSApi.itemColor v = flagColor v.
Proof. by destruct v as [| |[]| | | |]. Qed.

(** A truthy flag that is not a boolean is coloured as passed by
    figurGrundS. *)
Lemma itemColor_truthy v : truthy v = true → FigurGrundSApi.itemColor v = greenColor.
Proof. unfold FigurGrundSApi.itemColor. by intros ->. Qed.

(** With a first item to read the flags from, every cell of
    aMerkfaehigkeit gets the colour of its own flag: pass colour for
    [true], fail colour for [false], none for anything else (the ninth
    cell is always without colour).  Every key of figurGrundS gets the
    colour of its own flag in the same way when that flag is a boolean,
    [null] or absent. *)
Lemma flags_coloured_independently testResults firstItem :
  hasItems testResults = true →
  firstItem = prop (prop testResults "items") "0" →
  nullish firstItem = false →
  AMerkfaehigkeitApi.cellColorsOf testResults
  = Ok (JArray (map (λ f, flagColor match f with
                                    | Some k => prop firstItem k
                                    | None => JNull
                                    end) AMerkfaehigkeitApi.cellFields))
  ∧ ∃ itemColors,
      FigurGrundSApi.itemColorsOf testResults = Ok itemColors
      ∧ ∀ k f, (k, f) ∈ FigurGrundSApi.itemFields →
               is_flag (prop firstItem f) →
               itemColors !! k = Some (flagColor (prop firstItem f)).
Proof.
  intros Hitems -> Hn. split.
  - unfold AMerkfaehigkeitApi.cellColorsOf. rewrite Hitems.
    unfold AMerkfaehigkeitApi.cellFields. cbn [mapM].
    rewrite !(get_not_nullish _ _ Hn), !Ok_bind.
    cbn [map]. by rewrite !cellColor_flagColor.
  - unfold FigurGrundSApi.itemColorsOf. rewrite Hitems.
    unfold FigurGrundSApi.itemFields. cbn [mapM fst snd].
    rewrite !(get_not_nullish _ _ Hn), !Ok_bind.
    eexists. split; [reflexivity|].
    intros k f Hkf Hflag. rewrite object_map_lookup.
    repeat (apply elem_of_cons in Hkf as [[= -> ->]|Hkf];
            [by rewrite <- (itemColor_flagColor _ Hflag)|]).
    by apply elem_of_nil in Hkf.
Qed.

End Colorizer.

(** C6, at the failing input.  The first item carries the number 1 and the
    string ["yes"] as flags, values that are neither [true] nor [false].
    figurGrundS gives both keys the pass colour, where the claim asks for
    the empty string; aMerkfaehigkeit gives the cells of the same two
    values no colour.  The assembled view-models show the same. *)
Theorem C6_figurGrundS_truthy_flag_gets_pass_colour :
  prop (prop (prop Examples.truthyFlags "items") "0") "richtigKuh" = JNumber (Num 1)
  ∧ prop (prop (prop Examples.truthyFlags "items") "0") "richtigEnte" = JString "yes"
  ∧ flagColor (JNumber (Num 1)) = JString ""
  ∧ flagColor (JString "yes") = JString ""
  ∧ FigurGrundSApi.itemColor (JNumber (Num 1)) = greenColor
  ∧ FigurGrundSApi.itemColor (JString "yes") = greenColor
  ∧ AMerkfaehigkeitApi.cellColor (JNumber (Num 1)) = JString ""
  ∧ AMerkfaehigkeitApi.cellColor (JString "yes") = JString ""
  ∧ processData figurGrundS Examples.child Examples.merkSession Examples.truthyFlags
    = Ok Examples.vmTruthyItems
  ∧ prop Examples.vmTruthyItems "kuh" = greenColor
  ∧ prop Examples.vmTruthyItems "ente" = greenColor
  ∧ prop Examples.vmTruthyItems "kreis" = JString ""
  ∧ processData aMerkfaehigkeit Examples.child Examples.merkSession Examples.truthyFlags
    = Ok Examples.vmTruthyCells
  ∧ prop (prop Examples.vmTruthyCells "cellColors") "0" = JString ""
  ∧ prop (prop Examples.vmTruthyCells "cellColors") "1" = JString ""
  ∧ greenColor ≠ JString "".
Proof. split_and!; [vm_compute; reflexivity..|discriminate]. Qed.

(** The first cells and keys of the grid example: passed, failed,
    unanswered, absent. *)
Example grid_colours :
  AMerkfaehigkeitApi.cellColorsOf Examples.gridResult
  = Ok (JArray [ greenColor; redColor; JString ""; JString ""; JString "";
                 JString ""; JString ""; JString ""; JString ""; JString "";
                 JString ""; JString "" ])
  ∧ FigurGrundSApi.itemColorsOf Examples.gridResult = Ok Examples.gridItemColors
  ∧ Examples.gridItemColors !! "kuh" = Some greenColor
  ∧ Examples.gridItemColors !! "ente" = Some redColor
  ∧ Examples.gridItemColors !! "kreis" = Some (JString "")
  ∧ Examples.gridItemColors !! "lampe" = Some (JString "").
Proof. split_and!; vm_compute; reflexivity. Qed.

(** ** Key sets of the view-models *)

Section Parity.
Context `{Host}.

Lemma hasItems_default_null t : hasItems (default_null t) = hasItems t.
Proof. by destruct t. Qed.

Lemma aMerkfaehigkeit_same_keys apiData authData testResults vm :
  AMerkfaehigkeitApi.processData apiData authData testResults = Ok vm →
  keys vm = keys AMerkfaehigkeitApi.getFallbackData.
Proof.
  unfold AMerkfaehigkeitApi.processData, AMerkfaehigkeitApi.getFallbackData.
  intros Hvm. inv_bind Hvm. injection Hvm as <-.
  rewrite !keys_object. reflexivity.
Qed.

Lemma mZeichnen_same_keys apiData authData testResults vm :
  MZeichnenApi.processData apiData authData testResults = Ok vm →
  keys vm = keys MZeichnenApi.getFallbackData.
Proof.
  unfold MZeichnenApi.processData, MZeichnenApi.getFallbackData.
  intros Hvm. inv_bind Hvm. injection Hvm as <-.
  rewrite !keys_object. reflexivity.
Qed.

Lemma arbeitsBlaetter_same_keys apiData authData vm :
  ArbeitsBlaetterApi.processData apiData authData = Ok vm →
  keys vm = keys ArbeitsBlaetterApi.getFallbackData.
Proof.
  unfold ArbeitsBlaetterApi.processData, ArbeitsBlaetterApi.getFallbackData.
  destruct (if truthy (default_null authData) then _ else _) as [companyName stadt].
  intros Hvm. inv_bind Hvm. injection Hvm as <-.
  rewrite !keys_object. reflexivity.
Qed.

(** The item keys are present exactly when there is a first item. *)
Lemma itemColorsOf_dom testResults itemColors :
  FigurGrundSApi.itemColorsOf testResults = Ok itemColors →
  dom itemColors
  = if hasItems testResults
    then list_to_set (map fst FigurGrundSApi.itemFields) else ∅.
Proof.
  unfold FigurGrundSApi.itemColorsOf. destruct (hasItems testResults).
  - unfold FigurGrundSApi.itemFields. cbn [mapM fst snd].
    destruct (nullish (prop (prop testResults "items") "0")) eqn:Hn.
    + by rewrite !(get_nullish _ _ Hn), !Throw_bind.
    + rewrite !(get_not_nullish _ _ Hn), !Ok_bind.
      intros [= <-]. unfold object_map. rewrite foldl_insert_dom.
      cbn [map fst]. set_solver.
  - intros [= <-]. set_solver.
Qed.

Lemma figurGrundS_keys apiData authData testResults vm :
  FigurGrundSApi.processData apiData authData testResults = Ok vm →
  keys vm ∪ (if hasItems testResults
             then ∅ else list_to_set (map fst FigurGrundSApi.itemFields))
  = keys FigurGrundSApi.getFallbackData
  ∧ (hasItems testResults = false →
     ∀ k, k ∈ map fst FigurGrundSApi.itemFields → k ∉ keys vm).
Proof.
  unfold FigurGrundSApi.processData, FigurGrundSApi.getFallbackData.
  intros Hvm. inv_bind Hvm. injection Hvm as <-.
  apply itemColorsOf_dom in Hx0. rewrite hasItems_default_null in Hx0.
  rewrite keys_object. unfold keys, spread. rewrite dom_union_L, Hx0.
  unfold object_map. rewrite foldl_insert_dom. cbn [map fst].
  split.
  - destruct (hasItems testResults); set_solver.
  - intros -> k Hk. rewrite !elem_of_union, !elem_of_list_to_set.
    intros [Hin|[Hin|Hin]]; [set_solver| |set_solver].
    revert Hk Hin. unfold FigurGrundSApi.itemFields. cbn [map fst].
    rewrite !elem_of_cons, !elem_of_nil.
    intros Hk Hin. repeat destruct Hk as [->|Hk]; try done;
      repeat destruct Hin as [[=]|Hin]; done.
Qed.

(** C1, at the failing input.  Without a test result, [processData] of
    figurGrundS returns a record that lacks the eight item keys which its
    [getFallbackData] carries, so the two key sets differ. *)
Theorem C1_figurGrundS_keys_differ_without_items :
  ∃ vm, FigurGrundSApi.processData (object []) JNull JNull = Ok vm
        ∧ (∀ k, k ∈ map fst FigurGrundSApi.itemFields →
                k ∈ keys FigurGrundSApi.getFallbackData ∧ k ∉ keys vm)
        ∧ keys vm ≠ keys FigurGrundSApi.getFallbackData.
Proof.
  destruct (FigurGrundSApi.processData (object []) JNull JNull) as [vm|e] eqn:Hvm;
    [|by vm_compute in Hvm].
  exists vm. split; [done|].
  destruct (figurGrundS_keys _ _ _ _ Hvm) as [Hkeys Hnot].
  assert (∀ k, k ∈ map fst FigurGrundSApi.itemFields →
               k ∈ keys FigurGrundSApi.getFallbackData ∧ k ∉ keys vm) as Hall.
  { intros k Hk. split; [|by apply Hnot].
    rewrite <- Hkeys. cbn [hasItems and_prop truthy andb].
    apply elem_of_union_r. by apply elem_of_list_to_set. }
  split; [done|].
  intros Heq. destruct (Hall "kuh") as [Hin Hout].
  - apply list_elem_of_here.
  - by rewrite Heq in Hout.
Qed.

End Parity.

(** ** The age *)

Section Age.
Context `{Host}.

(** On a string the [try] block of [calculateAge] never throws, so its
    [catch] and the ["0,0"] it returns are out of reach. *)
Lemma birthOf_string s : ∃ birth, EdulogApiService.birthOf (JString s) = Ok birth.
Proof.
  unfold EdulogApiService.birthOf.
  destruct (contains_char _ s); [destruct (_ =? _)%nat|]; eauto.
Qed.

Lemma calculateAge_invalid birthdate :
  truthy birthdate = true →
  EdulogApiService.birthOf birthdate = Ok InvalidDate →
  EdulogApiService.calculateAge birthdate
  = JString (NumberToString NaN +:+ "," +:+ NumberToString NaN).
Proof. unfold EdulogApiService.calculateAge. by intros -> ->. Qed.

(** A non-empty string without a slash that the host's parser rejects. *)
Lemma calculateAge_unparseable s :
  s ≠ "" → contains_char "/" s = false → DateParse s = InvalidDate →
  EdulogApiService.calculateAge (JString s)
  = JString (NumberToString NaN +:+ "," +:+ NumberToString NaN).
Proof.
  intros Hs Hslash Hparse. apply calculateAge_invalid.
  - simpl. by destruct (String.eqb_spec s "").
  - unfold EdulogApiService.birthOf. by rewrite Hslash, Hparse.
Qed.

End Age.

(** C9, at the failing input.  The birthdates ["abc"] and ["31/xx/2018"]
    cannot be parsed as dates; [calculateAge] returns ["NaN,NaN"] for them,
    not ["0,0"]. *)
Theorem C9_unparseable_birthdate_gives_NaN :
  DateParse "abc" = InvalidDate
  ∧ EdulogApiService.calculateAge (JString "abc") = JString "NaN,NaN"
  ∧ parseInt "xx" = NaN
  ∧ EdulogApiService.calculateAge (JString "31/xx/2018") = JString "NaN,NaN"
  ∧ JString "NaN,NaN" ≠ JString "0,0".
Proof. split_and!; [vm_compute; reflexivity..|discriminate]. Qed.

(** The worked example of the specification: born 15/03/2018, read on
    2024-06-01. *)
Example calculateAge_6_2 :
  EdulogApiService.calculateAge (JString "15/03/2018") = JString "6,2".
Proof. vm_compute. reflexivity. Qed.

(** ** The generic service *)

Section Generic.
Context `{Host}.


End Generic.


(** ** The fetch pipeline *)

Section Fetching.
Context `{Host}.

Lemma M_bind_Ok {A B} (m : M A) (f : A → M B) st a st' :
  m st = (Ok a, st') → (m ≫= f) st = f a st'.
Proof. unfold mbind, M_bind. by intros ->. Qed.

Lemma M_bind_Throw {A B} (m : M A) (f : A → M B) st e st' :
  m st = (Throw e, st') → (m ≫= f) st = (Throw e, st').
Proof. unfold mbind, M_bind. by intros ->. Qed.

Lemma lift_bind_Ok {A B} (r : result A) (f : A → M B) st a :
  r = Ok a → (lift r ≫= f) st = f a st.
Proof. by intros ->. Qed.

Lemma lift_bind_Throw {A B} (r : result A) (f : A → M B) st e :
  r = Throw e → (lift r ≫= f) st = (Throw e, st).
Proof. by intros ->. Qed.

Lemma fetch_Some page req r st :
  network page req = Some r → fetch page req st = (Ok r, logged st [req]).
Proof. unfold fetch. by intros ->. Qed.

Lemma hasApiParams_missing page :
  token page = None ∨ p_id page = None → hasApiParams page = false.
Proof.
  unfold hasApiParams, getUrlParams. rewrite !prop_object. cbn.
  intros [->| ->]; [done|]. by destruct (token page) as [[]|].
Qed.

(** C7.  When the [token] or the [p_id] URL parameter is absent,
    [fetchData] of any adapter returns that adapter's fallback record and
    leaves the service as it was: no request was sent, neither for
    authentication nor for data. *)
Theorem C7_missing_parameter_no_network page a st :
  token page = None ∨ p_id page = None →
  fetchData page a st = (Ok (getFallbackData a), st)
  ∧ calls (fetchData page a st).2 = calls st.
Proof.
  intros Hmissing%hasApiParams_missing. unfold fetchData.
  by rewrite Hmissing.
Qed.

Lemma logged_logged st r1 r2 : logged (logged st r1) r2 = logged st (r1 ++ r2).
Proof. unfold logged. simpl. by rewrite <- app_assoc. Qed.

(** With a [null] test result the score is 0, and the assessment is empty
    when fewer than six thresholds match. *)
Lemma processData_without_result a apiData authData vm :
  a ∈ adapters →
  processData a apiData authData JNull = Ok vm →
  prop vm "testResults" = JNull
  ∧ prop vm "score" = JNumber (Num 0)
  ∧ scoreOf (scoreField a) JNull = Num 0
  ∧ ((∀ ths, thresholdsOf authData = JArray ths →
             (length (List.filter (hasCategory (category a)) ths) < 6)%nat) →
     prop vm "assessment" = JString "").
Proof.
  intros Ha Hvm.
  destruct (processData_scoring _ _ _ _ _ Ha Hvm)
    as (sc & Hsc & _ & _ & _ & _ & Hassess & _ & _ & Hscore & Htr).
  split_and!; [done|done|done|].
  intros Hfew. rewrite Hassess.
  apply scoring_inv in Hsc as [_ [(ths & Hths & Hge & _)|[-> _]]]; [|done].
  specialize (Hfew _ Hths). lia.
Qed.

(** The view-all-data request is answered with a non-success status. *)
Lemma fetchData_basic_failure page a st st1 authData apiUrl response :
  basicDataCall page a st st1 authData apiUrl response →
  ok response = false →
  fetchData page a st
  = (Ok (getFallbackData a),
     logged st1 [Get apiUrl (ToString (prop (getUrlParams page) "token"))]).
Proof.
  intros (Hparams & Hmiss & Hauth & Hurl & Hnet) Hfail.
  unfold fetchData. cbv zeta. rewrite Hparams, Hmiss. cbn [negb].
  unfold try_catch, fetchAndProcess. cbv zeta.
  rewrite (M_bind_Ok _ _ _ _ _ Hauth).
  rewrite (lift_bind_Ok _ _ _ _ Hurl).
  rewrite (M_bind_Ok _ _ _ _ _ (fetch_Some _ _ _ _ Hnet)).
  by rewrite Hfail.
Qed.

(** The view-all-data request succeeds and the view-data request is
    answered with a non-success status. *)
Lemma fetchData_test_failure page a st st1 authData apiUrl response data testResponse :
  basicDataCall page a st st1 authData apiUrl response →
  ok response = true → json response = Ok data → nullish data = false →
  network page (testResultCall page) = Some testResponse →
  ok testResponse = false →
  (fetchData page a st).1
  = Ok match processData a (or_else (prop data "0") data) authData JNull with
       | Ok vm => vm
       | Throw _ => getFallbackData a
       end
  ∧ calls (fetchData page a st).2
    = calls st1 ++ [Get apiUrl (ToString (prop (getUrlParams page) "token"));
                    testResultCall page].
Proof.
  intros (Hparams & Hmiss & Hauth & Hurl & Hnet) Hok Hjson Hdata Htest Hfail.
  unfold fetchData. cbv zeta. rewrite Hparams, Hmiss. cbn [negb].
  unfold try_catch, fetchAndProcess. cbv zeta.
  rewrite (M_bind_Ok _ _ _ _ _ Hauth).
  rewrite (lift_bind_Ok _ _ _ _ Hurl).
  rewrite (M_bind_Ok _ _ _ _ _ (fetch_Some _ _ _ _ Hnet)).
  rewrite Hok. cbn [negb].
  rewrite (lift_bind_Ok _ _ _ _ Hjson).
  rewrite (M_bind_Ok _ _ _ _ _ (fetch_Some _ _ _ _ Htest)).
  rewrite Hfail, logged_logged.
  rewrite (M_bind_Ok (mret JNull) _ _ JNull _) by reflexivity.
  rewrite (lift_bind_Ok _ _ _ _ (get_not_nullish _ "0" Hdata)).
  destruct (processData a _ authData JNull) as [vm|e] eqn:Hvm.
  - by rewrite (lift_bind_Ok (Ok vm) _ _ vm).
  - by rewrite (lift_bind_Throw (Throw e) _ _ e).
Qed.

(** C8, as amended.  Of two runs of [fetchData] that have reached the
    view-all-data request: where that request is answered with a
    non-success status, the result is the fallback record and no view-data
    request is sent.  Where it succeeds and the view-data request is
    answered with a non-success status, the assembler is called with a
    [null] test result and its view-model is the result (the fallback
    record only if the assembler throws).  In that view-model the test
    result is [null] and the score is 0; the assessment is empty when fewer
    than six thresholds match, and with six or more, of numeric levels and
    bounds, it is the description of the threshold of least level whose
    inclusive band contains 0. *)
Theorem C8_basic_failure_falls_back_test_failure_degrades
    a page1 st1 st1' authData1 apiUrl1 response1
    page2 st2 st2' authData2 apiUrl2 response2 data testResponse :
  a ∈ adapters →
  basicDataCall page1 a st1 st1' authData1 apiUrl1 response1 →
  ok response1 = false →
  basicDataCall page2 a st2 st2' authData2 apiUrl2 response2 →
  ok response2 = true → json response2 = Ok data → nullish data = false →
  network page2 (testResultCall page2) = Some testResponse →
  ok testResponse = false →
  fetchData page1 a st1
  = (Ok (getFallbackData a),
     logged st1' [Get apiUrl1 (ToString (prop (getUrlParams page1) "token"))])
  ∧ (fetchData page2 a st2).1
    = Ok match processData a (or_else (prop data "0") data) authData2 JNull with
         | Ok vm => vm
         | Throw _ => getFallbackData a
         end
  ∧ calls (fetchData page2 a st2).2
    = calls st2' ++ [Get apiUrl2 (ToString (prop (getUrlParams page2) "token"));
                     testResultCall page2]
  ∧ ∀ vm, processData a (or_else (prop data "0") data) authData2 JNull = Ok vm →
      prop vm "testResults" = JNull
      ∧ prop vm "score" = JNumber (Num 0)
      ∧ ((∀ ths, thresholdsOf authData2 = JArray ths →
            (length (List.filter (hasCategory (category a)) ths) < 6)%nat) →
         prop vm "assessment" = JString "")
      ∧ (∀ ths pre t post l lo hi d,
           thresholdsOf authData2 = JArray ths →
           (6 ≤ length (List.filter (hasCategory (category a)) ths))%nat →
           (∀ u, u ∈ List.filter (hasCategory (category a)) ths →
                 ∃ l' lo' hi', levelBand u l' lo' hi') →
           List.filter (hasCategory (category a)) ths = pre ++ t :: post →
           levelBand t l lo hi → lo ≤ 0 ≤ hi →
           (∀ u l' lo' hi', u ∈ pre → levelBand u l' lo' hi' →
                            lo' ≤ 0 ≤ hi' → l < l') →
           (∀ u l' lo' hi', u ∈ post → levelBand u l' lo' hi' →
                            lo' ≤ 0 ≤ hi' → l ≤ l') →
           prop t "description2" = JString d →
           prop vm "assessment" = JString d).
Proof.
  intros Ha Hcall1 Hfail1 Hcall2 Hok2 Hjson Hdata Htest Hfail.
  split; [exact (fetchData_basic_failure _ _ _ _ _ _ _ Hcall1 Hfail1)|].
  destruct (fetchData_test_failure _ _ _ _ _ _ _ _ _ Hcall2 Hok2 Hjson Hdata Htest Hfail)
    as [Hres Hcalls].
  split; [done|]. split; [done|].
  intros vm Hvm.
  destruct (processData_without_result a (or_else (prop data "0") data) authData2 vm
              Ha Hvm)
    as (Htr & Hscore & Hzero & Hfew).
  split_and!; [done|done|done|].
  intros ths pre t post l lo hi d Hths Hlen Hnum.
  by apply (assessment_first_band a (or_else (prop data "0") data) authData2 JNull
              vm ths 0).
Qed.

End Fetching.

Lemma C7_missing_parameter_no_network_witness :
  (token Examples.noToken = None ∨ p_id Examples.noToken = None)
  ∧ (fetchData Examples.noToken aMerkfaehigkeit Examples.fresh
     = (Ok (getFallbackData aMerkfaehigkeit), Examples.fresh)
     ∧ calls (fetchData Examples.noToken aMerkfaehigkeit Examples.fresh).2
       = calls Examples.fresh).
Proof.
  exact (conj (or_introl eq_refl)
           (C7_missing_parameter_no_network Examples.noToken aMerkfaehigkeit
              Examples.fresh (or_introl eq_refl))).
Defined.

Lemma C8_basic_failure_falls_back_test_failure_degrades_witness :
  basicDataCall Examples.basicDown mZeichnen Examples.fresh Examples.basicDownAuth.2
    (Examples.returned Examples.basicDownAuth.1) Examples.downUrl Examples.downFailure
  ∧ ok Examples.downFailure = false
  ∧ basicDataCall Examples.downPage mZeichnen Examples.fresh Examples.downAuth.2
      (Examples.returned Examples.downAuth.1) Examples.downUrl Examples.downResponse
  ∧ ok Examples.downResponse = true
  ∧ json Examples.downResponse = Ok (JArray [Examples.child])
  ∧ network Examples.downPage (testResultCall Examples.downPage)
    = Some Examples.downFailure
  ∧ fetchData Examples.basicDown mZeichnen Examples.fresh
    = (Ok (getFallbackData mZeichnen),
       logged Examples.basicDownAuth.2
         [Get Examples.downUrl
            (ToString (prop (getUrlParams Examples.basicDown) "token"))])
  ∧ (fetchData Examples.downPage mZeichnen Examples.fresh).1 = Ok Examples.vmDown
  ∧ calls (fetchData Examples.downPage mZeichnen Examples.fresh).2
    = calls Examples.downAuth.2
      ++ [Get Examples.downUrl
            (ToString (prop (getUrlParams Examples.downPage) "token"));
          testResultCall Examples.downPage]
  ∧ prop Examples.vmDown "testResults" = JNull
  ∧ prop Examples.vmDown "score" = JNumber (Num 0)
  ∧ levelBand (Examples.threshold MZeichnenApi.category 1 0 3 "stark auffaellig") 1 0 3
  ∧ 0 ≤ 0 ≤ 3
  ∧ prop Examples.vmDown "assessment" = JString "stark auffaellig".
Proof.
  assert (levelBand (Examples.threshold MZeichnenApi.category 1 0 3 "stark auffaellig")
            1 0 3) as Ht by (split_and!; vm_compute; reflexivity).
  assert (0 ≤ 0 ≤ 3) as Hin by lia.
  assert (List.filter (hasCategory (category mZeichnen))
            (Examples.sixLevels MZeichnenApi.category)
          = [] ++ Examples.threshold MZeichnenApi.category 1 0 3 "stark auffaellig"
               :: tail (Examples.sixLevels MZeichnenApi.category)) as Hsplit
    by (vm_compute; reflexivity).
  assert (∀ u, u ∈ List.filter (hasCategory (category mZeichnen))
                     (Examples.sixLevels MZeichnenApi.category) →
               ∃ l' lo' hi', levelBand u l' lo' hi') as Hnum.
  { intros u Hu. rewrite Hsplit in Hu. cbn [app tail Examples.sixLevels] in Hu.
    repeat (apply elem_of_cons in Hu as [->|Hu];
            [eexists _, _, _; split_and!; vm_compute; reflexivity|]).
    by apply elem_of_nil in Hu. }
  assert (∀ u l' lo' hi', u ∈ tail (Examples.sixLevels MZeichnenApi.category) →
                          levelBand u l' lo' hi' → lo' ≤ 0 ≤ hi' → 1 ≤ l') as Hpost.
  { intros u l' lo' hi' Hu Hlb Hband. cbn [tail Examples.sixLevels] in Hu.
    each_threshold Hu Hlb lia. }
  assert (∀ u l' lo' hi', u ∈ [] → levelBand u l' lo' hi' → lo' ≤ 0 ≤ hi' → 1 < l')
    as Hpre.
  { intros u l' lo' hi' Hu. by apply elem_of_nil in Hu. }
  assert (6 ≤ length (List.filter (hasCategory (category mZeichnen))
                        (Examples.sixLevels MZeichnenApi.category)))%nat as Hlen.
  { vm_compute. lia. }
  assert (thresholdsOf (Examples.returned Examples.downAuth.1)
          = JArray (Examples.sixLevels MZeichnenApi.category)) as Hths
    by (vm_compute; reflexivity).
  assert (prop (Examples.threshold MZeichnenApi.category 1 0 3 "stark auffaellig")
            "description2" = JString "stark auffaellig") as Hd
    by (vm_compute; reflexivity).
  assert (basicDataCall Examples.basicDown mZeichnen Examples.fresh
            Examples.basicDownAuth.2 (Examples.returned Examples.basicDownAuth.1)
            Examples.downUrl Examples.downFailure) as Hcall1.
  { unfold basicDataCall. split_and!; vm_compute; reflexivity. }
  assert (basicDataCall Examples.downPage mZeichnen Examples.fresh
            Examples.downAuth.2 (Examples.returned Examples.downAuth.1)
            Examples.downUrl Examples.downResponse) as Hcall2.
  { unfold basicDataCall. split_and!; vm_compute; reflexivity. }
  assert (network Examples.downPage (testResultCall Examples.downPage)
          = Some Examples.downFailure) as Htest by (vm_compute; reflexivity).
  assert (processData mZeichnen
            (or_else (prop (JArray [Examples.child]) "0") (JArray [Examples.child]))
            (Examples.returned Examples.downAuth.1) JNull = Ok Examples.vmDown) as Hvm
    by (vm_compute; reflexivity).
  assert (ok Examples.downFailure = false) as Hfail by reflexivity.
  assert (ok Examples.downResponse = true) as Hok by reflexivity.
  assert (json Examples.downResponse = Ok (JArray [Examples.child])) as Hjson
    by reflexivity.
  assert (nullish (JArray [Examples.child]) = false) as Hdata by reflexivity.
  destruct (C8_basic_failure_falls_back_test_failure_degrades mZeichnen
              Examples.basicDown Examples.fresh Examples.basicDownAuth.2
              (Examples.returned Examples.basicDownAuth.1) Examples.downUrl
              Examples.downFailure
              Examples.downPage Examples.fresh Examples.downAuth.2
              (Examples.returned Examples.downAuth.1) Examples.downUrl
              Examples.downResponse (JArray [Examples.child]) Examples.downFailure
              mZeichnen_adapter Hcall1 Hfail Hcall2 Hok Hjson Hdata
              Htest Hfail) as (Hfallback & Hres & Hcalls & Hvms).
  destruct (Hvms Examples.vmDown Hvm) as (Htr & Hscore & _ & Hfirst).
  split; [exact Hcall1|]. split; [exact Hfail|]. split; [exact Hcall2|].
  split; [exact Hok|]. split; [exact Hjson|]. split; [exact Htest|].
  split; [exact Hfallback|].
  split; [rewrite Hres, Hvm; cbv beta iota; reflexivity|]. split; [exact Hcalls|].
  split; [exact Htr|]. split; [exact Hscore|]. split; [exact Ht|].
  split; [exact Hin|].
  exact (Hfirst (Examples.sixLevels MZeichnenApi.category) []
           (Examples.threshold MZeichnenApi.category 1 0 3 "stark auffaellig")
           (tail (Examples.sixLevels MZeichnenApi.category))
           1 0 3 "stark auffaellig" Hths Hlen Hnum Hsplit Ht Hin Hpre Hpost Hd).
Defined.

(** The claim of C8 on the assessment fails: the view-data request is
    answered with status 500, the pipeline goes on with a [null] test
    result and the score 0, and the assessment is the text of the band of
    level 1, which contains 0. *)
Lemma C8_assessment_counterexample :
  network Examples.downPage (testResultCall Examples.downPage)
  = Some Examples.downFailure
  ∧ prop (Examples.returned Examples.downRun.1) "testResults" = JNull
  ∧ prop (Examples.returned Examples.downRun.1) "score" = JNumber (Num 0)
  ∧ prop (Examples.returned Examples.downRun.1) "assessment"
    = JString "stark auffaellig"
  ∧ length (calls Examples.downRun.2) = 3%nat.
Proof. split_and!; vm_compute; reflexivity. Qed.

(** * Further properties of the code *)

(** ** Authentication and the fetch pipeline *)

Section Auth.
Context `{Host}.

(** The outcomes of [authenticate]. *)
Lemma authenticate_outcome page st :
  (truthy (authData st) = true
   ∧ authenticate page st = (Ok (authData st), st))
  ∨ (truthy (authData st) = false
     ∧ ((∃ e, authenticate page st = (Throw e, st) ∧ hasApiParams page = false)
        ∨ (hasApiParams page = true
           ∧ ((∃ e, authenticate page st = (Throw e, logged st [authRequest page]))
              ∨ (∃ a, authenticate page st
                      = (Ok a, {| cache := cache st; authData := a;
                                  calls := calls st ++ [authRequest page] |})
                      ∧ truthy a = true))))).
Proof.
  unfold authenticate. destruct (truthy (authData st)) eqn:Hc; [by left|].
  right. split; [done|]. cbv zeta.
  destruct (hasApiParams page) eqn:Hp; cbn [negb]; [|left; eauto].
  right. split; [done|]. fold (authRequest page).
  unfold mbind, M_bind, fetch. destruct (network page (authRequest page)) as [r|];
    [|left; eauto].
  destruct (ok r); cbn [negb]; [|left; unfold throw; eauto].
  unfold lift. destruct (json r) as [authResponse|]; [|left; eauto].
  destruct (get authResponse "data") as [data|]; [|left; eauto].
  destruct (get data "user"); [|left; eauto].
  destruct (get data "einrichtung"); [|left; eauto].
  destruct (get data "privat_kunde"); [|left; eauto].
  destruct (get data "parameters"); [|left; eauto].
  right. eexists. split; [reflexivity|done].
Qed.

End Auth.

(** Closes the goal on an outcome once the run has been evaluated: with no
    request, or with the data requests the goal shows. *)
Ltac no_request :=
  eexists _, _, []; rewrite app_nil_r;
  split_and!; [reflexivity|reflexivity|simpl; lia|constructor|done].
Ltac data_requests :=
  eexists _, _, _;
  split_and!; [reflexivity|rewrite <- ?app_assoc; reflexivity|simpl; lia
              |by repeat constructor|cbn [cache]; eauto].

Section FetchOutcome.
Context `{Host}.

(** What the [try] body of an adapter's [fetchData] does. *)
Lemma fetchAndProcess_outcome page a st :
  ∃ r st1 reqs,
    fetchAndProcess page a (getUrlParams page) (cacheKeyOf a (getUrlParams page)) st
    = (r, st1)
    ∧ calls st1 = calls st ++ reqs
    ∧ (length reqs ≤ 3)%nat
    ∧ (truthy (authData st) = true → (length reqs ≤ 2)%nat ∧ Forall is_get reqs)
    ∧ match r with
      | Throw _ => cache st1 = cache st
      | Ok v => cache st1 = <[cacheKeyOf a (getUrlParams page) := v]> (cache st)
                ∧ ∃ apiData authData testResults,
                    processData a apiData authData testResults = Ok v
      end.
Proof.
  unfold fetchAndProcess.
  match goal with |- context [mbind ?k (authenticate page)] => set (K := k) end.
  assert (∀ au s, ∃ r s1 reqs,
            K au s = (r, s1) ∧ calls s1 = calls s ++ reqs
            ∧ (length reqs ≤ 2)%nat ∧ Forall is_get reqs
            ∧ match r with
              | Throw _ => cache s1 = cache s
              | Ok v => cache s1 = <[cacheKeyOf a (getUrlParams page) := v]> (cache s)
                        ∧ ∃ apiData authData testResults,
                            processData a apiData authData testResults = Ok v
              end) as HK.
  { intros au s. subst K. cbv beta.
    unfold mbind, M_bind, lift, fetch, throw, cacheSet, mret, M_ret, logged.
    cbv zeta.
    destruct (apiUrlOf page (getUrlParams page) au) as [apiUrl|]; [|no_request].
    destruct (network page (Get apiUrl _)) as [response|]; [|data_requests].
    destruct (ok response); cbn [negb]; [|data_requests].
    destruct (json response) as [data|]; [|data_requests].
    cbn [calls cache authData].
    destruct (network page (Get (testResultsUrlOf page (getUrlParams page)) _))
      as [testResponse|]; [|data_requests].
    destruct (ok testResponse).
    - destruct (json testResponse) as [testData|]; [|data_requests].
      destruct (get testData (resultKey a)) as [rk|]; [|data_requests].
      cbn [calls cache authData].
      destruct (get data "0") as [first|]; [|data_requests].
      destruct (processData a _ au _) as [vm|] eqn:Hvm; data_requests.
    - cbn [calls cache authData].
      destruct (get data "0") as [first|]; [|data_requests].
      destruct (processData a _ au _) as [vm|] eqn:Hvm; data_requests. }
  clearbody K.
  destruct (authenticate_outcome page st)
    as [[Hc Hau]|[Hc [(e & Hau & _)|[_ [[e Hau]|(au & Hau & _)]]]]].
  - rewrite (M_bind_Ok _ _ _ _ _ Hau).
    destruct (HK (authData st) st) as (r & s1 & reqs & -> & Hcalls & Hlen & Hget & Hr).
    exists r, s1, reqs. split_and!; [done|done|lia|done|done].
  - rewrite (M_bind_Throw _ _ _ _ _ Hau).
    exists (Throw e), st, []. rewrite app_nil_r.
    split_and!; [done|done|simpl; lia| |done].
    intros _. split; [simpl; lia|constructor].
  - rewrite (M_bind_Throw _ _ _ _ _ Hau).
    exists (Throw e), (logged st [authRequest page]), [authRequest page].
    split_and!; [done|done|simpl; lia|congruence|done].
  - rewrite (M_bind_Ok _ _ _ _ _ Hau).
    destruct (HK au {| cache := cache st; authData := au;
                       calls := calls st ++ [authRequest page] |})
      as (r & s1 & reqs & -> & Hcalls & Hlen & Hget & Hr).
    exists r, s1, (authRequest page :: reqs). cbn [calls cache] in *.
    split_and!; [done| by rewrite Hcalls, <- app_assoc|simpl; lia|congruence|done].
Qed.
(** The outcomes of [fetchData]. *)
Lemma fetchData_outcome page a st :
  ∃ v st1 reqs,
    fetchData page a st = (Ok v, st1)
    ∧ calls st1 = calls st ++ reqs
    ∧ (length reqs ≤ 3)%nat
    ∧ (truthy (authData st) = true → (length reqs ≤ 2)%nat ∧ Forall is_get reqs)
    ∧ ((v = getFallbackData a ∧ cache st1 = cache st)
       ∨ (hasApiParams page = true
          ∧ cache st !! cacheKeyOf a (getUrlParams page) = Some v ∧ st1 = st)
       ∨ (hasApiParams page = true
          ∧ cache st !! cacheKeyOf a (getUrlParams page) = None
          ∧ cache st1 = <[cacheKeyOf a (getUrlParams page) := v]> (cache st)
          ∧ ∃ apiData authData testResults,
              processData a apiData authData testResults = Ok v)).
Proof.
  unfold fetchData. cbv zeta.
  destruct (hasApiParams page) eqn:Hp; cbn [negb].
  - destruct (cache st !! cacheKeyOf a (getUrlParams page)) as [v|] eqn:Hhit.
    + exists v, st, []. rewrite app_nil_r.
      split_and!; try done; [simpl; lia| |by right; left].
      intros _. split; [simpl; lia|constructor].
    + unfold try_catch.
      destruct (fetchAndProcess_outcome page a st)
        as (r & st1 & reqs & -> & Hcalls & Hlen & Hget & Hr).
      destruct r as [v|e].
      * exists v, st1, reqs. split_and!; try done. right; right. naive_solver.
      * exists (getFallbackData a), st1, reqs. split_and!; try done. by left.
  - exists (getFallbackData a), st, []. rewrite app_nil_r.
    split_and!; try done; [simpl; lia| |by left].
    intros _. split; [simpl; lia|constructor].
Qed.

(** X1.  [fetchData] of an adapter never throws: whatever the network
    answers, it returns a record.  It sends at most three requests, and
    when the service already holds authentication data at most two, none
    of them the authentication request. *)
Theorem fetchData_returns_within_three_requests page a st :
  ∃ v st1 reqs,
    fetchData page a st = (Ok v, st1)
    ∧ calls st1 = calls st ++ reqs
    ∧ (length reqs ≤ 3)%nat
    ∧ (truthy (authData st) = true → (length reqs ≤ 2)%nat ∧ Forall is_get reqs).
Proof.
  destruct (fetchData_outcome page a st) as (v & st1 & reqs & ? & ? & ? & ? & _).
  by exists v, st1, reqs.
Qed.

(** X2.  The record that [fetchData] of an adapter returns is the fallback
    record, with the cache left as it was; or the entry the cache held
    under the adapter's key, with the service left as it was; or a record
    that [processData] assembled, stored under that key.  The fallback
    record is never stored. *)
Theorem fetchData_caches_assembled_records_only page a st v st1 :
  fetchData page a st = (Ok v, st1) →
  (v = getFallbackData a ∧ cache st1 = cache st)
  ∨ (cache st !! cacheKeyOf a (getUrlParams page) = Some v ∧ st1 = st)
  ∨ (cache st !! cacheKeyOf a (getUrlParams page) = None
     ∧ cache st1 = <[cacheKeyOf a (getUrlParams page) := v]> (cache st)
     ∧ ∃ apiData authData testResults,
         processData a apiData authData testResults = Ok v).
Proof.
  intros Hf.
  destruct (fetchData_outcome page a st)
    as (v' & st1' & reqs & Hf' & _ & _ & _ & Hc).
  rewrite Hf in Hf'. injection Hf' as <- <-. naive_solver.
Qed.

(** X3.  Once the cache holds an entry under the adapter's key after a
    call of [fetchData], that entry is the record the call returned, and
    a second call returns it again without changing the service: no
    further request is sent. *)
Theorem fetchData_replays_cached_record page a st v st1 v' :
  hasApiParams page = true →
  fetchData page a st = (Ok v, st1) →
  cache st1 !! cacheKeyOf a (getUrlParams page) = Some v' →
  v' = v ∧ fetchData page a st1 = (Ok v, st1).
Proof.
  intros Hp Hf Hhit.
  assert (∀ s w, cache s !! cacheKeyOf a (getUrlParams page) = Some w →
                 fetchData page a s = (Ok w, s)) as Hreplay.
  { intros s w Hw. unfold fetchData. cbv zeta. by rewrite Hp, Hw. }
  destruct (fetchData_outcome page a st)
    as (v0 & st0 & reqs & Hf' & _ & _ & _ & Hcase).
  rewrite Hf in Hf'. injection Hf' as <- <-.
  destruct Hcase as [[-> Hc]|[(_ & Hc & ->)|(_ & Hmiss & Hc & _)]].
  - rewrite Hc in Hhit. rewrite (Hreplay _ _ Hhit) in Hf.
    injection Hf as Hv Hs. subst. split; [done|]. by apply Hreplay.
  - rewrite Hc in Hhit. injection Hhit as ->. split; [done|]. by apply Hreplay.
  - rewrite Hc, lookup_insert_eq in Hhit. injection Hhit as ->.
    split; [done|]. apply Hreplay. by rewrite Hc, lookup_insert_eq.
Qed.

End FetchOutcome.

Lemma fetchData_caches_assembled_records_only_witness :
  fetchData Examples.downPage mZeichnen Examples.fresh
  = (Ok Examples.downRecord, Examples.downRun.2)
  ∧ ((Examples.downRecord = getFallbackData mZeichnen
      ∧ cache Examples.downRun.2 = cache Examples.fresh)
     ∨ (cache Examples.fresh !! cacheKeyOf mZeichnen (getUrlParams Examples.downPage)
        = Some Examples.downRecord ∧ Examples.downRun.2 = Examples.fresh)
     ∨ (cache Examples.fresh !! cacheKeyOf mZeichnen (getUrlParams Examples.downPage)
        = None
        ∧ cache Examples.downRun.2
          = <[cacheKeyOf mZeichnen (getUrlParams Examples.downPage)
              := Examples.downRecord]> (cache Examples.fresh)
        ∧ ∃ apiData authData testResults,
            processData mZeichnen apiData authData testResults
            = Ok Examples.downRecord)).
Proof.
  assert (fetchData Examples.downPage mZeichnen Examples.fresh
          = (Ok Examples.downRecord, Examples.downRun.2)) as Hf
    by (vm_compute; reflexivity).
  split; [exact Hf|].
  exact (fetchData_caches_assembled_records_only Examples.downPage mZeichnen
           Examples.fresh Examples.downRecord Examples.downRun.2 Hf).
Defined.

Lemma fetchData_replays_cached_record_witness :
  hasApiParams Examples.downPage = true
  ∧ fetchData Examples.downPage mZeichnen Examples.fresh
    = (Ok Examples.downRecord, Examples.downRun.2)
  ∧ cache Examples.downRun.2 !! cacheKeyOf mZeichnen (getUrlParams Examples.downPage)
    = Some Examples.downRecord
  ∧ (Examples.downRecord = Examples.downRecord
     ∧ fetchData Examples.downPage mZeichnen Examples.downRun.2
       = (Ok Examples.downRecord, Examples.downRun.2)).
Proof.
  assert (hasApiParams Examples.downPage = true) as Hp by (vm_compute; reflexivity).
  assert (fetchData Examples.downPage mZeichnen Examples.fresh
          = (Ok Examples.downRecord, Examples.downRun.2)) as Hf
    by (vm_compute; reflexivity).
  assert (cache Examples.downRun.2
            !! cacheKeyOf mZeichnen (getUrlParams Examples.downPage)
          = Some Examples.downRecord) as Hhit by (vm_compute; reflexivity).
  split; [exact Hp|]. split; [exact Hf|]. split; [exact Hhit|].
  exact (fetchData_replays_cached_record Examples.downPage mZeichnen Examples.fresh
           Examples.downRecord Examples.downRun.2 Examples.downRecord Hp Hf Hhit).
Defined.

Section AuthTheorems.
Context `{Host}.

(** X4.  When [authenticate] succeeds, the service holds the data it
    returned, and a second call returns the same data and leaves the
    service, with its log of requests, as it is. *)
Theorem authenticate_success_is_cached page st a st1 :
  authenticate page st = (Ok a, st1) →
  authData st1 = a ∧ authenticate page st1 = (Ok a, st1).
Proof.
  intros Hau.
  assert (authData st1 = a ∧ truthy a = true) as [<- Ht].
  { destruct (authenticate_outcome page st)
      as [[Hc Hau']|[Hc [(e & Hau' & _)|[_ [[e Hau']|(au & Hau' & Ht)]]]]];
      rewrite Hau in Hau'; simplify_eq; done. }
  split; [done|]. unfold authenticate. by rewrite Ht.
Qed.

(** X5.  [authenticate] never touches the cache.  It sends no request,
    or exactly the authentication request, and that only when no
    authentication data is held and both URL parameters are present.
    On success the service holds the truthy data it returned; on failure
    the authentication data stays as it was. *)
Theorem authenticate_sends_at_most_one_request page st :
  cache (authenticate page st).2 = cache st
  ∧ (calls (authenticate page st).2 = calls st
     ∨ (calls (authenticate page st).2 = calls st ++ [authRequest page]
        ∧ truthy (authData st) = false ∧ hasApiParams page = true))
  ∧ match (authenticate page st).1 with
    | Ok a => authData (authenticate page st).2 = a ∧ truthy a = true
    | Throw _ => authData (authenticate page st).2 = authData st
    end.
Proof.
  destruct (authenticate_outcome page st)
    as [[Hc ->]|[Hc [(e & -> & _)|[Hp [[e ->]|(au & -> & Ht)]]]]]; cbn;
    split_and!; auto.
Qed.

(** X6.  [shouldShowContent] never throws.  It answers [true] exactly
    when both URL parameters are present and the service holds
    authentication data afterwards; it leaves the cache alone and sends at
    most the authentication request. *)
Theorem shouldShowContent_iff_authenticated page st :
  ∃ b st1,
    shouldShowContent page st = (Ok b, st1)
    ∧ (b = true ↔ hasApiParams page = true ∧ truthy (authData st1) = true)
    ∧ cache st1 = cache st
    ∧ (calls st1 = calls st ∨ calls st1 = calls st ++ [authRequest page]).
Proof.
  unfold shouldShowContent. destruct (hasApiParams page) eqn:Hp; cbn [negb].
  - unfold try_catch.
    destruct (authenticate_outcome page st)
      as [[Hc Hau]|[Hc [(e & Hau & ?)|[_ [[e Hau]|(au & Hau & Ht)]]]]].
    + rewrite (M_bind_Ok _ _ _ _ _ Hau). exists true, st. naive_solver.
    + congruence.
    + rewrite (M_bind_Throw _ _ _ _ _ Hau). eexists false, _.
      split; [reflexivity|]. cbn. rewrite Hc. naive_solver.
    + rewrite (M_bind_Ok _ _ _ _ _ Hau). eexists true, _.
      split; [reflexivity|]. cbn. naive_solver.
  - exists false, st. naive_solver.
Qed.

End AuthTheorems.

Lemma authenticate_success_is_cached_witness :
  authenticate Examples.downPage Examples.fresh
  = (Ok Examples.downSession, Examples.downAuth.2)
  ∧ (authData Examples.downAuth.2 = Examples.downSession
     ∧ authenticate Examples.downPage Examples.downAuth.2
       = (Ok Examples.downSession, Examples.downAuth.2)).
Proof.
  assert (authenticate Examples.downPage Examples.fresh
          = (Ok Examples.downSession, Examples.downAuth.2)) as Hau
    by (vm_compute; reflexivity).
  split; [exact Hau|].
  exact (authenticate_success_is_cached Examples.downPage Examples.fresh
           Examples.downSession Examples.downAuth.2 Hau).
Defined.

Section BasicFetch.
Context `{Host}.

(** What the [try] body of the two [fetchData] functions without a
    view-data request does. *)
Lemma fetchBasicAndProcess_outcome page process key st :
  ∃ r st1 reqs,
    fetchBasicAndProcess page process (getUrlParams page) key st = (r, st1)
    ∧ calls st1 = calls st ++ reqs
    ∧ (length reqs ≤ 2)%nat
    ∧ (truthy (authData st) = true → (length reqs ≤ 1)%nat ∧ Forall is_get reqs)
    ∧ match r with
      | Throw _ => cache st1 = cache st
      | Ok v => cache st1 = <[key := v]> (cache st)
                ∧ ∃ apiData authData, process apiData authData = Ok v
      end.
Proof.
  unfold fetchBasicAndProcess.
  match goal with |- context [mbind ?k (authenticate page)] => set (K := k) end.
  assert (∀ au s, ∃ r s1 reqs,
            K au s = (r, s1) ∧ calls s1 = calls s ++ reqs
            ∧ (length reqs ≤ 1)%nat ∧ Forall is_get reqs
            ∧ match r with
              | Throw _ => cache s1 = cache s
              | Ok v => cache s1 = <[key := v]> (cache s)
                        ∧ ∃ apiData authData, process apiData authData = Ok v
              end) as HK.
  { intros au s. subst K. cbv beta.
    unfold mbind, M_bind, lift, fetch, throw, cacheSet, mret, M_ret, logged.
    destruct (apiUrlOf page (getUrlParams page) au) as [apiUrl|]; [|no_request].
    destruct (network page (Get apiUrl _)) as [response|]; [|data_requests].
    destruct (ok response); cbn [negb]; [|data_requests].
    destruct (json response) as [data|]; [|data_requests].
    destruct (get data "0") as [first|]; [|data_requests].
    destruct (process _ au) as [vm|] eqn:Hvm; data_requests. }
  clearbody K.
  destruct (authenticate_outcome page st)
    as [[Hc Hau]|[Hc [(e & Hau & _)|[_ [[e Hau]|(au & Hau & _)]]]]].
  - rewrite (M_bind_Ok _ _ _ _ _ Hau).
    destruct (HK (authData st) st) as (r & s1 & reqs & -> & Hcalls & Hlen & Hget & Hr).
    exists r, s1, reqs. split_and!; [done|done|lia|done|done].
  - rewrite (M_bind_Throw _ _ _ _ _ Hau).
    exists (Throw e), st, []. rewrite app_nil_r.
    split_and!; [done|done|simpl; lia| |done].
    intros _. split; [simpl; lia|constructor].
  - rewrite (M_bind_Throw _ _ _ _ _ Hau).
    exists (Throw e), (logged st [authRequest page]), [authRequest page].
    split_and!; [done|done|simpl; lia|congruence|done].
  - rewrite (M_bind_Ok _ _ _ _ _ Hau).
    destruct (HK au {| cache := cache st; authData := au;
                       calls := calls st ++ [authRequest page] |})
      as (r & s1 & reqs & -> & Hcalls & Hlen & Hget & Hr).
    exists r, s1, (authRequest page :: reqs). cbn [calls cache] in *.
    split_and!; [done| by rewrite Hcalls, <- app_assoc|simpl; lia|congruence|done].
Qed.

(** The shape that the service's own [fetchData] and that of
    ArbeitsBlaetter share. *)
Lemma basic_fetchData_outcome page process fallback key st :
  let run : M value := λ st,
    if negb (hasApiParams page) then (Ok fallback, st)
    else match cache st !! key with
         | Some v => (Ok v, st)
         | None => try_catch (fetchBasicAndProcess page process (getUrlParams page) key)
                             (mret fallback) st
         end in
  ∃ v st1 reqs,
    run st = (Ok v, st1)
    ∧ calls st1 = calls st ++ reqs
    ∧ (length reqs ≤ 2)%nat
    ∧ (truthy (authData st) = true → (length reqs ≤ 1)%nat ∧ Forall is_get reqs)
    ∧ ((v = fallback ∧ cache st1 = cache st)
       ∨ (cache st !! key = Some v ∧ st1 = st)
       ∨ (cache st !! key = None
          ∧ cache st1 = <[key := v]> (cache st)
          ∧ ∃ apiData authData, process apiData authData = Ok v)).
Proof.
  cbv zeta. destruct (hasApiParams page) eqn:Hp; cbn [negb].
  - destruct (cache st !! key) as [v|] eqn:Hhit.
    + exists v, st, []. rewrite app_nil_r.
      split_and!; try done; [simpl; lia| |by right; left].
      intros _. split; [simpl; lia|constructor].
    + unfold try_catch.
      destruct (fetchBasicAndProcess_outcome page process key st)
        as (r & st1 & reqs & -> & Hcalls & Hlen & Hget & Hr).
      destruct r as [v|e].
      * exists v, st1, reqs. split_and!; try done. right; right. naive_solver.
      * exists fallback, st1, reqs. split_and!; try done. by left.
  - exists fallback, st, []. rewrite app_nil_r.
    split_and!; try done; [simpl; lia| |by left].
    intros _. split; [simpl; lia|constructor].
Qed.

(** X7.  [fetchData] of the service itself never throws and sends at
    most two requests (one, a data request, when authentication data is
    held).  It returns the fallback record and leaves the cache alone, or
    replays the cache entry under [p_id_token], or stores and returns a
    record of [processApiData]. *)
Theorem serviceFetchData_returns_record page st :
  ∃ v st1 reqs,
    serviceFetchData page st = (Ok v, st1)
    ∧ calls st1 = calls st ++ reqs
    ∧ (length reqs ≤ 2)%nat
    ∧ (truthy (authData st) = true → (length reqs ≤ 1)%nat ∧ Forall is_get reqs)
    ∧ ((v = EdulogApiService.getFallbackData ∧ cache st1 = cache st)
       ∨ (cache st !! serviceCacheKeyOf (getUrlParams page) = Some v ∧ st1 = st)
       ∨ (cache st !! serviceCacheKeyOf (getUrlParams page) = None
          ∧ cache st1 = <[serviceCacheKeyOf (getUrlParams page) := v]> (cache st)
          ∧ ∃ apiData authData,
              EdulogApiService.processApiData apiData authData = Ok v)).
Proof.
  exact (basic_fetchData_outcome page EdulogApiService.processApiData
           EdulogApiService.getFallbackData
           (serviceCacheKeyOf (getUrlParams page)) st).
Qed.

(** X8.  The same for [fetchData] of ArbeitsBlaetter, with its own key,
    fallback record and [processData]. *)
Theorem arbeitsBlaetterFetchData_returns_record page st :
  ∃ v st1 reqs,
    arbeitsBlaetterFetchData page st = (Ok v, st1)
    ∧ calls st1 = calls st ++ reqs
    ∧ (length reqs ≤ 2)%nat
    ∧ (truthy (authData st) = true → (length reqs ≤ 1)%nat ∧ Forall is_get reqs)
    ∧ ((v = ArbeitsBlaetterApi.getFallbackData ∧ cache st1 = cache st)
       ∨ (cache st !! arbeitsBlaetterCacheKeyOf (getUrlParams page) = Some v ∧ st1 = st)
       ∨ (cache st !! arbeitsBlaetterCacheKeyOf (getUrlParams page) = None
          ∧ cache st1 = <[arbeitsBlaetterCacheKeyOf (getUrlParams page) := v]> (cache st)
          ∧ ∃ apiData authData,
              ArbeitsBlaetterApi.processData apiData authData = Ok v)).
Proof.
  exact (basic_fetchData_outcome page ArbeitsBlaetterApi.processData
           ArbeitsBlaetterApi.getFallbackData
           (arbeitsBlaetterCacheKeyOf (getUrlParams page)) st).
Qed.

End BasicFetch.

(** ** URL parameters and cache keys *)

Section Params.
Context `{Host}.

Lemma truthy_param o : truthy (param o) = true ↔ ∃ s, o = Some s ∧ s ≠ "".
Proof.
  destruct o as [s|]; simpl.
  - destruct (String.eqb_spec s "") as [->|Hs]; simpl.
    + split; [done|]. by intros (? & [= <-] & ?).
    + split; [|done]. intros _. by exists s.
  - split; [done|]. by intros (? & [=] & _).
Qed.

(** X9.  [hasApiParams] holds exactly when the URL carries both [token]
    and [p_id] and neither is the empty string. *)
Theorem hasApiParams_iff_both_non_empty page :
  hasApiParams page = true
  ↔ ∃ t p, token page = Some t ∧ p_id page = Some p ∧ t ≠ "" ∧ p ≠ "".
Proof.
  unfold hasApiParams, getUrlParams. rewrite !prop_object. cbn [assoc fst snd String.eqb Ascii.eqb Bool.eqb default].
  unfold and_then, id.
  destruct (truthy (param (token page))) eqn:Ht.
  - apply truthy_param in Ht as (t & Ht & Hne). rewrite truthy_param.
    split.
    + intros (p & Hp & Hpne). by exists t, p.
    + intros (t' & p & _ & Hp & _ & Hpne). by exists p.
  - rewrite Ht. split; [done|]. intros (t & p & Htok & _ & Hne & _).
    assert (truthy (param (token page)) = true) by (apply truthy_param; eauto).
    congruence.
Qed.

Lemma append_length s r : String.length (s +:+ r) = (String.length s + String.length r)%nat.
Proof. induction s as [|c s IH]; simpl; [done|]. by rewrite IH. Qed.

(** X10.  On one page the cache keys of the five [fetchData] functions
    differ from each other, so none of them is served a record that
    another one stored. *)
Theorem cache_keys_pairwise_distinct page a b :
  a ∈ adapters → b ∈ adapters →
  let params := getUrlParams page in
  (cacheKeyOf a params = cacheKeyOf b params → a = b)
  ∧ cacheKeyOf a params ≠ serviceCacheKeyOf params
  ∧ cacheKeyOf a params ≠ arbeitsBlaetterCacheKeyOf params
  ∧ arbeitsBlaetterCacheKeyOf params ≠ serviceCacheKeyOf params.
Proof.
  intros Ha Hb params.
  assert (∀ pre, pre ≠ "" → pre +:+ serviceCacheKeyOf params ≠ serviceCacheKeyOf params) as Hlen.
  { intros pre Hpre Heq. apply (f_equal String.length) in Heq.
    rewrite append_length in Heq. destruct pre; [done|]. simpl in Heq. lia. }
  split_and!.
  - apply elem_of_adapters in Ha as [->|[->| ->]];
      apply elem_of_adapters in Hb as [->|[->| ->]]; try done;
      unfold cacheKeyOf; cbn [cachePrefix aMerkfaehigkeit mZeichnen figurGrundS];
      simpl; intros [=].
  - apply elem_of_adapters in Ha as [->|[->| ->]];
      unfold cacheKeyOf; cbn [cachePrefix aMerkfaehigkeit mZeichnen figurGrundS].
    + apply (Hlen "amerkfaehigkeit_"). done.
    + apply (Hlen "mzeichnen_"). done.
    + apply (Hlen "figurgrunds_"). done.
  - apply elem_of_adapters in Ha as [->|[->| ->]];
      unfold cacheKeyOf, arbeitsBlaetterCacheKeyOf;
      cbn [cachePrefix aMerkfaehigkeit mZeichnen figurGrundS]; simpl; intros [=].
  - apply (Hlen "arbeitsblaetter_"). done.
Qed.

End Params.

Lemma cache_keys_pairwise_distinct_witness :
  aMerkfaehigkeit ∈ adapters ∧ mZeichnen ∈ adapters
  ∧ let params := getUrlParams Examples.downPage in
    (cacheKeyOf aMerkfaehigkeit params = cacheKeyOf mZeichnen params →
     aMerkfaehigkeit = mZeichnen)
    ∧ cacheKeyOf aMerkfaehigkeit params ≠ serviceCacheKeyOf params
    ∧ cacheKeyOf aMerkfaehigkeit params ≠ arbeitsBlaetterCacheKeyOf params
    ∧ arbeitsBlaetterCacheKeyOf params ≠ serviceCacheKeyOf params.
Proof.
  split; [exact aMerkfaehigkeit_adapter|]. split; [exact mZeichnen_adapter|].
  exact (cache_keys_pairwise_distinct Examples.downPage aMerkfaehigkeit mZeichnen
           aMerkfaehigkeit_adapter mZeichnen_adapter).
Defined.

(** ** The calendar *)

(** Every date of an era is found again from its day number. *)
Lemma era_round_trip :
  forallb (λ yoe, forallb (λ m, forallb (found_again yoe m) (seqZ 1 31)) (seqZ 1 12))
    (seqZ 0 400) = true.
Proof. vm_compute. reflexivity. Qed.

Lemma forallb_seqZ (f : Z → bool) a n x :
  forallb f (seqZ a n) = true → a ≤ x < a + n → f x = true.
Proof.
  intros Hall Hx. rewrite forallb_forall in Hall. apply Hall.
  apply list_elem_of_In, elem_of_seqZ. lia.
Qed.

Lemma era_round_trip_spec yoe m d :
  0 ≤ yoe < 400 → 1 ≤ m ≤ 12 →
  1 ≤ d ≤ days_in_month (if m <=? 2 then (yoe + 1) mod 400 else yoe) m →
  0 ≤ doe_of yoe m d < 146097 ∧ civil_of_doe (doe_of yoe m d) = (yoe, m, d).
Proof.
  intros Hy Hm Hd.
  assert (d ≤ 31) as Hd31.
  { destruct Hd as [_ Hd]. revert Hd. generalize (if m <=? 2 then (yoe + 1) mod 400 else yoe).
    intros y. unfold days_in_month.
    destruct (m =? 2); [destruct (is_leap y); lia|].
    destruct ((m =? 4) || (m =? 6) || (m =? 9) || (m =? 11)); lia. }
  assert (found_again yoe m d = true) as Hall.
  { apply (forallb_seqZ _ 1 31); [|lia].
    apply (forallb_seqZ (λ m, forallb (found_again yoe m) (seqZ 1 31)) 1 12); [|lia].
    apply (forallb_seqZ (λ yoe, forallb (λ m, forallb (found_again yoe m) (seqZ 1 31))
                                  (seqZ 1 12)) 0 400); [|lia].
    exact era_round_trip. }
  unfold found_again in Hall.
  destruct Hd as [_ Hd]. apply Z.leb_le in Hd. rewrite Hd in Hall.
  cbn [implb] in Hall. cbv zeta in Hall.
  destruct (civil_of_doe (doe_of yoe m d)) as [[yoe' m'] d'].
  apply andb_prop in Hall as [[H0 H1]%andb_prop [[Ha Hb]%andb_prop Hc]%andb_prop].
  apply Z.leb_le in H0. apply Z.ltb_lt in H1.
  apply Z.eqb_eq in Ha, Hb, Hc. by subst.
Qed.

Lemma is_leap_mod y : is_leap (y mod 400) = is_leap y.
Proof.
  unfold is_leap.
  assert ((y mod 400) mod 4 = y mod 4) as -> by (Z.div_mod_to_equations; lia).
  assert ((y mod 400) mod 100 = y mod 100) as -> by (Z.div_mod_to_equations; lia).
  assert ((y mod 400) mod 400 = y mod 400) as -> by (Z.div_mod_to_equations; lia).
  done.
Qed.

Lemma days_in_month_mod y m : days_in_month (y mod 400) m = days_in_month y m.
Proof. unfold days_in_month. by rewrite is_leap_mod. Qed.

Lemma days_from_civil_doe y m d :
  let yy := if m <=? 2 then y - 1 else y in
  days_from_civil y m d = (yy / 400) * 146097 + doe_of (yy mod 400) m d - 719468.
Proof.
  cbv zeta. unfold days_from_civil, doe_of. cbv zeta.
  assert (∀ yy, yy - yy / 400 * 400 = yy mod 400) as Hmod
    by (intros; Z.div_mod_to_equations; lia).
  by rewrite Hmod.
Qed.

Lemma civil_from_days_doe era doe :
  0 ≤ doe < 146097 →
  civil_from_days (era * 146097 + doe - 719468)
  = match civil_of_doe doe with
    | (yoe, m, d) => ((if m <=? 2 then yoe + era * 400 + 1 else yoe + era * 400), m, d)
    end.
Proof.
  intros Hdoe. unfold civil_from_days, civil_of_doe. cbv zeta.
  assert ((era * 146097 + doe - 719468 + 719468) / 146097 = era) as Hera
    by (Z.div_mod_to_equations; nia).
  replace (era * 146097 + doe - 719468 + 719468 - (era * 146097 + doe - 719468 + 719468) / 146097 * 146097)
    with doe by (rewrite Hera; lia).
  by rewrite Hera.
Qed.

(** A date of the calendar is found again from its day number. *)
Lemma civil_round_trip y m d :
  valid_date y m d → civil_from_days (days_from_civil y m d) = (y, m, d).
Proof.
  intros [Hm Hd]. rewrite days_from_civil_doe. cbv zeta.
  set (yy := if m <=? 2 then y - 1 else y).
  assert (0 ≤ yy mod 400 < 400) as Hyoe by (apply Z.mod_pos_bound; lia).
  assert (days_in_month (if m <=? 2 then (yy mod 400 + 1) mod 400 else yy mod 400) m
          = days_in_month y m) as Hdim.
  { subst yy. destruct (Z.leb_spec m 2).
    - rewrite <- (days_in_month_mod y). f_equal.
      Z.div_mod_to_equations; lia.
    - apply days_in_month_mod. }
  destruct (era_round_trip_spec (yy mod 400) m d Hyoe Hm) as [Hdoe Hrt];
    [by rewrite Hdim|].
  rewrite (civil_from_days_doe _ _ Hdoe), Hrt.
  subst yy. destruct (Z.leb_spec m 2); f_equal; [f_equal|f_equal];
    Z.div_mod_to_equations; lia.
Qed.

Lemma days_from_civil_day y m d :
  days_from_civil y m 1 + d - 1 = days_from_civil y m d.
Proof. unfold days_from_civil. cbv zeta. lia. Qed.

Lemma days_from_civil_bound y m d :
  -200000 ≤ y ≤ 200000 → valid_date y m d →
  -100000000 ≤ days_from_civil y m d ≤ 100000000.
Proof.
  intros Hy [Hm Hd]. rewrite days_from_civil_doe. cbv zeta.
  set (yy := if m <=? 2 then y - 1 else y).
  assert (-200001 ≤ yy ≤ 200000) as Hyy by (subst yy; case_match; lia).
  assert (0 ≤ yy mod 400 < 400) as Hyoe by (apply Z.mod_pos_bound; lia).
  assert (days_in_month (if m <=? 2 then (yy mod 400 + 1) mod 400 else yy mod 400) m
          = days_in_month y m) as Hdim.
  { subst yy. destruct (Z.leb_spec m 2).
    - rewrite <- (days_in_month_mod y). f_equal.
      Z.div_mod_to_equations; lia.
    - apply days_in_month_mod. }
  destruct (era_round_trip_spec (yy mod 400) m d Hyoe Hm) as [Hdoe _];
    [by rewrite Hdim|].
  assert (-501 ≤ yy / 400 ≤ 500) by (Z.div_mod_to_equations; lia).
  lia.
Qed.

(** [new Date(year, month - 1, day)] of a date of the calendar is that
    date, the year read as [fullYear]. *)
Lemma newDate_valid y m d :
  -200000 ≤ fullYear y ≤ 200000 → valid_date (fullYear y) m d →
  newDate (Num y) (Num (m - 1)) (Num d) = LocalDate (fullYear y) (m - 1) d.
Proof.
  intros Hy Hv. pose proof Hv as [Hm Hd]. unfold newDate. fold (fullYear y).
  cbv zeta.
  assert ((m - 1) / 12 = 0) as -> by (Z.div_mod_to_equations; lia).
  assert ((m - 1) mod 12 = m - 1) as -> by (Z.div_mod_to_equations; lia).
  replace (fullYear y + 0) with (fullYear y) by lia.
  replace (m - 1 + 1) with m by lia.
  rewrite days_from_civil_day.
  pose proof (days_from_civil_bound _ _ _ Hy Hv) as [Hlo Hhi].
  apply Z.leb_le in Hlo, Hhi. rewrite Hlo, Hhi. cbn [andb].
  by rewrite (civil_round_trip _ _ _ Hv).
Qed.

(** ** The age, continued *)

Section AgeFacts.
Context `{Host}.

Lemma contains_char_split c s :
  contains_char c s = false → split_on c s = [s].
Proof.
  induction s as [|c' s IH]; simpl; [done|].
  destruct (Ascii.eqb c' c); simpl; [done|].
  intros Hs. by rewrite (IH Hs).
Qed.

(** The age that [calculateAge] computes from the calendar fields of the
    birth date. *)
Lemma calculateAge_of_birth birthdate byear bmonth bday :
  truthy birthdate = true →
  EdulogApiService.birthOf birthdate = Ok (LocalDate byear bmonth bday) →
  0 ≤ bmonth ≤ 11 → 0 ≤ nowMonth ≤ 11 →
  EdulogApiService.calculateAge birthdate
  = JString (NumberToString (Num (fullMonthsSince byear bmonth bday / 12)) +:+ ","
             +:+ NumberToString (Num (fullMonthsSince byear bmonth bday mod 12))).
Proof.
  intros Ht Hb Hbm Hnm. unfold EdulogApiService.calculateAge.
  rewrite Ht, Hb. cbn [negb]. unfold EdulogApiService.today.
  cbn [getFullYear getMonth getDate num_sub num_lt num_eq num_add].
  unfold fullMonthsSince.
  set (n := 12 * (nowYear - byear) + (nowMonth - bmonth)
            - (if nowDate <? bday then 1 else 0)).
  assert (∀ y m, 0 ≤ m ≤ 11 → 12 * y + m = n → n / 12 = y ∧ n mod 12 = m) as Hdiv.
  { intros y m Hm Hn. Z.div_mod_to_equations. lia. }
  destruct (Z.ltb_spec (nowMonth - bmonth) 0) as [Hmd|Hmd];
    destruct (Z.eqb_spec (nowMonth - bmonth) 0) as [Hz|Hz];
    destruct (Z.ltb_spec nowDate bday) as [Hd|Hd];
    cbn [orb andb num_sub num_lt num_add]; try lia.
  - destruct (Z.ltb_spec (nowMonth - bmonth + 12 - 1) 0); [lia|].
    destruct (Hdiv (nowYear - byear - 1) (nowMonth - bmonth + 12 - 1)) as [-> ->];
      [lia|subst n; lia|done].
  - destruct (Hdiv (nowYear - byear - 1) (nowMonth - bmonth + 12)) as [-> ->];
      [lia|subst n; lia|done].
  - destruct (Z.ltb_spec (nowMonth - bmonth - 1) 0) as [_|?]; [|lia].
    destruct (Hdiv (nowYear - byear - 1) 11) as [-> ->];
      [lia|subst n; lia|done].
  - destruct (Hdiv (nowYear - byear) (nowMonth - bmonth)) as [-> ->];
      [lia|subst n; lia|done].
  - destruct (Z.ltb_spec (nowMonth - bmonth - 1) 0) as [?|_]; [lia|].
    destruct (Hdiv (nowYear - byear) (nowMonth - bmonth - 1)) as [-> ->];
      [lia|subst n; lia|done].
  - destruct (Hdiv (nowYear - byear) (nowMonth - bmonth)) as [-> ->];
      [lia|subst n; lia|done].
Qed.

(** The birth date read from [day/month/year]. *)
Lemma birthOf_day_month_year s ds ms ys d m y :
  split_on "/" s = [ds; ms; ys] →
  parseInt ds = Num d → parseInt ms = Num m → parseInt ys = Num y →
  -200000 ≤ fullYear y ≤ 200000 → valid_date (fullYear y) m d →
  EdulogApiService.birthOf (JString s) = Ok (LocalDate (fullYear y) (m - 1) d).
Proof.
  intros Hs Hd Hm Hy Hrange Hvalid. unfold EdulogApiService.birthOf.
  destruct (contains_char "/" s) eqn:Hc.
  - rewrite Hs. cbn [length Nat.eqb lookup list_lookup default].
    unfold id. rewrite Hd, Hm, Hy. cbn [num_sub]. by rewrite newDate_valid.
  - by rewrite (contains_char_split _ _ Hc) in Hs.
Qed.

(** X11.  For a birth date with calendar fields, [calculateAge] returns
    [years,months] where [12 * years + months] is the number of full
    months from the birth date to today and [months] lies in 0..11. *)
Theorem calculateAge_counts_full_months birthdate byear bmonth bday :
  truthy birthdate = true →
  EdulogApiService.birthOf birthdate = Ok (LocalDate byear bmonth bday) →
  0 ≤ bmonth ≤ 11 → 0 ≤ nowMonth ≤ 11 →
  EdulogApiService.calculateAge birthdate
  = JString (NumberToString (Num (fullMonthsSince byear bmonth bday / 12)) +:+ ","
             +:+ NumberToString (Num (fullMonthsSince byear bmonth bday mod 12))).
Proof. apply calculateAge_of_birth. Qed.

(** X12.  On a string [day/month/year] that names a date of the calendar,
    [calculateAge] counts the full months from that date; a year from 0
    to 99 is taken as a year of 1900..1999. *)
Theorem calculateAge_day_month_year s ds ms ys d m y :
  split_on "/" s = [ds; ms; ys] →
  parseInt ds = Num d → parseInt ms = Num m → parseInt ys = Num y →
  -200000 ≤ fullYear y ≤ 200000 → valid_date (fullYear y) m d →
  0 ≤ nowMonth ≤ 11 →
  EdulogApiService.calculateAge (JString s)
  = JString (NumberToString (Num (fullMonthsSince (fullYear y) (m - 1) d / 12)) +:+ ","
             +:+ NumberToString (Num (fullMonthsSince (fullYear y) (m - 1) d mod 12))).
Proof.
  intros Hs Hd Hm Hy Hrange Hvalid Hnow.
  apply calculateAge_of_birth.
  - simpl. destruct s; [done|done].
  - by apply (birthOf_day_month_year s ds ms ys).
  - destruct Hvalid as [? _]. lia.
  - done.
Qed.

(** X13.  On a value that is neither a string nor an array,
    [calculateAge] returns [null] when the value is falsy and ["0,0"]
    otherwise: the [catch] block is reached by non-text values only. *)
Theorem calculateAge_outside_text v :
  is_text v = false →
  EdulogApiService.calculateAge v = if truthy v then JString "0,0" else JNull.
Proof.
  intros Hv. unfold EdulogApiService.calculateAge.
  destruct (truthy v) eqn:Ht; cbn [negb]; [|done].
  by destruct v.
Qed.

End AgeFacts.

Lemma calculateAge_counts_full_months_witness :
  truthy (JString "2018-03-15") = true
  ∧ EdulogApiService.birthOf (JString "2018-03-15") = Ok (LocalDate 2018 2 15)
  ∧ 0 ≤ 2 ≤ 11 ∧ 0 ≤ nowMonth ≤ 11
  ∧ EdulogApiService.calculateAge (JString "2018-03-15")
    = JString (NumberToString (Num (fullMonthsSince 2018 2 15 / 12)) +:+ ","
               +:+ NumberToString (Num (fullMonthsSince 2018 2 15 mod 12))).
Proof.
  assert (0 ≤ 2 ≤ 11) as Hm by lia.
  assert (0 ≤ nowMonth ≤ 11) as Hn by (vm_compute; intuition discriminate).
  split; [reflexivity|]. split; [reflexivity|]. split; [exact Hm|]. split; [exact Hn|].
  exact (calculateAge_counts_full_months (JString "2018-03-15") 2018 2 15
           eq_refl eq_refl Hm Hn).
Defined.

Lemma calculateAge_day_month_year_witness :
  split_on "/" "15/03/2018" = ["15"; "03"; "2018"]
  ∧ parseInt "15" = Num 15 ∧ parseInt "03" = Num 3 ∧ parseInt "2018" = Num 2018
  ∧ (-200000 ≤ fullYear 2018 ≤ 200000) ∧ valid_date (fullYear 2018) 3 15
  ∧ 0 ≤ nowMonth ≤ 11
  ∧ EdulogApiService.calculateAge (JString "15/03/2018")
    = JString (NumberToString (Num (fullMonthsSince (fullYear 2018) (3 - 1) 15 / 12))
               +:+ "," +:+
               NumberToString (Num (fullMonthsSince (fullYear 2018) (3 - 1) 15 mod 12))).
Proof.
  assert (valid_date (fullYear 2018) 3 15) as Hv by (vm_compute; intuition discriminate).
  assert (-200000 ≤ fullYear 2018 ≤ 200000) as Hr by (vm_compute; intuition discriminate).
  assert (0 ≤ nowMonth ≤ 11) as Hn by (vm_compute; intuition discriminate).
  do 4 (split; [reflexivity|]).
  split; [exact Hr|]. split; [exact Hv|]. split; [exact Hn|].
  exact (calculateAge_day_month_year "15/03/2018" "15" "03" "2018" 15 3 2018
           eq_refl eq_refl eq_refl eq_refl Hr Hv Hn).
Defined.

Lemma calculateAge_outside_text_witness :
  is_text (JNumber (Num 20180315)) = false
  ∧ EdulogApiService.calculateAge (JNumber (Num 20180315))
    = if truthy (JNumber (Num 20180315)) then JString "0,0" else JNull.
Proof.
  split; [reflexivity|].
  exact (calculateAge_outside_text (JNumber (Num 20180315)) eq_refl).
Defined.

(** A two-digit year is read as a year of the twentieth century. *)
Example calculateAge_two_digit_year :
  EdulogApiService.calculateAge (JString "15/03/18") = JString "106,2".
Proof. vm_compute. reflexivity. Qed.

(** ** The generic service, continued *)

Section GenericFacts.
Context `{Host}.


(** X15.  On a raw record that is an object, the keys of the record of
    [processApiData] are those of the fallback record of the service, the
    key [stadt], and the keys of the raw record.  The fallback record has
    no [stadt]. *)
Theorem processApiData_keys (raw : gmap string value) authData vm :
  EdulogApiService.processApiData (JObject raw) authData = Ok vm →
  keys vm = keys EdulogApiService.getFallbackData ∪ {["stadt"]} ∪ dom raw
  ∧ "stadt" ∉ keys EdulogApiService.getFallbackData.
Proof.
  unfold EdulogApiService.processApiData. intros Hvm. inv_bind Hvm.
  injection Hvm as <-. cbn [EdulogApiService.own_props]. split.
  - unfold EdulogApiService.getFallbackData. rewrite keys_object.
    unfold keys, spread. rewrite dom_union_L. unfold object_map.
    rewrite foldl_insert_dom. unfold EdulogApiService.normalized.
    destruct (if truthy (default_null authData) then _ else _) as [companyName stadt].
    cbn [map fst].
    match goal with
    | |- context [list_to_set ?l ∪ dom ∅] =>
        match l with
        | context C ["stadt" :: ?post] =>
            let pre := context C [@nil string] in
            change l with (pre ++ "stadt" :: post);
            rewrite <- (list_to_set_perm_L _ _ (Permutation_middle pre post "stadt"))
        end
    end.
    cbn [app]. rewrite list_to_set_cons.
    match goal with |- context [{["stadt"]} ∪ ?X ∪ dom ∅] => generalize X end.
    intros X. set_solver.
  - unfold EdulogApiService.getFallbackData. rewrite keys_object.
    cbn [map fst]. rewrite elem_of_list_to_set, !elem_of_cons, elem_of_nil.
    intros Hin. repeat destruct Hin as [[=]|Hin]. done.
Qed.

End GenericFacts.


Lemma processApiData_keys_witness :
  EdulogApiService.processApiData (JObject Examples.rawRecord) JNull = Ok Examples.vmRaw
  ∧ (keys Examples.vmRaw
     = keys EdulogApiService.getFallbackData ∪ {["stadt"]} ∪ dom Examples.rawRecord
     ∧ "stadt" ∉ keys EdulogApiService.getFallbackData).
Proof.
  assert (EdulogApiService.processApiData (JObject Examples.rawRecord) JNull
          = Ok Examples.vmRaw) as Hvm by (vm_compute; reflexivity).
  split; [exact Hvm|].
  exact (processApiData_keys Examples.rawRecord JNull Examples.vmRaw Hvm).
Defined.

(** ** Strings: [split] *)

Lemma split_on_nonempty sep s : split_on sep s ≠ [].
Proof.
  destruct s as [|c s]; simpl; [done|].
  destruct (Ascii.eqb c sep); [done|]. by destruct (split_on sep s).
Qed.

(** Joining the pieces with the separator gives the string back. *)
Lemma split_on_concat sep s :
  String.concat (String sep "") (split_on sep s) = s.
Proof.
  induction s as [|c s IH]; simpl; [done|].
  pose proof (split_on_nonempty sep s) as Hne.
  destruct (Ascii.eqb_spec c sep) as [->|Hc].
  - destruct (split_on sep s) as [|h t]; [done|]. simpl in *. by rewrite IH.
  - destruct (split_on sep s) as [|h t]; [done|]. rewrite <- IH.
    by destruct t.
Qed.

(** No piece contains the separator. *)
Lemma split_on_pieces sep s :
  Forall (λ p, contains_char sep p = false) (split_on sep s).
Proof.
  induction s as [|c s IH]; simpl; [by repeat constructor|].
  destruct (Ascii.eqb_spec c sep) as [->|Hc].
  - by constructor.
  - pose proof (split_on_nonempty sep s) as Hne.
    destruct (split_on sep s) as [|h t]; [done|].
    apply Forall_cons in IH as [Hh Ht]. constructor; [|done].
    simpl. rewrite Hh. by destruct (Ascii.eqb_spec c sep).
Qed.

(** A string that contains the separator has at least two pieces. *)
Lemma split_on_two sep s :
  contains_char sep s = true → ∃ p0 p1 rest, split_on sep s = p0 :: p1 :: rest.
Proof.
  induction s as [|c s IH]; simpl; [done|].
  pose proof (split_on_nonempty sep s) as Hne.
  destruct (Ascii.eqb_spec c sep) as [->|Hc]; simpl.
  - intros _. destruct (split_on sep s) as [|h t]; [done|]. eauto.
  - intros (p0 & p1 & rest & ->)%IH. eauto.
Qed.

Section ParseFacts.
Context `{Host}.

(** X16.  On a non-empty string [parseColors] returns the trimmed pieces
    between the commas: pieces without comma that give the string back
    when joined by commas.  The adapters derive their colours from a
    string in the same way. *)
Theorem parseColors_pieces s :
  s ≠ "" →
  ∃ pieces,
    String.concat "," pieces = s
    ∧ Forall (λ p, contains_char "," p = false) pieces
    ∧ EdulogApiService.parseColors (JString s)
      = JArray (map (λ p, JString (trim p)) pieces)
    ∧ colorsOf (JString s) = Ok (EdulogApiService.parseColors (JString s)).
Proof.
  intros Hs. exists (split_on "," s).
  split; [apply split_on_concat|]. split; [apply split_on_pieces|].
  unfold EdulogApiService.parseColors. simpl.
  by destruct (String.eqb_spec s "").
Qed.

(** X17.  [parseColors] answers [null] on an array, where the adapters
    keep an array of colour strings as it is. *)
Theorem parseColors_null_on_arrays l :
  EdulogApiService.parseColors (JArray l) = JNull
  ∧ (Forall (λ c, ∃ s, c = JString s) l → colorsOf (JArray l) = Ok (JArray l)).
Proof.
  split; [done|]. intros Hl. unfold colorsOf.
  assert (mapM (λ colorObj,
            if typeof_object colorObj then
              c ← get colorObj "color"; Ok (if truthy c then c else colorObj)
            else Ok colorObj) l = Ok l) as ->; [|done].
  induction Hl as [|c l [s ->] _ IH]; [done|].
  cbn [mapM typeof_object]. by rewrite Ok_bind, IH.
Qed.

(** X18.  On a non-empty string [parseRanges] returns one entry for each
    of the pieces between the commas, in their order.  The entry of a piece
    without hyphen has the number of the piece as [start] and as [end];
    the entry of a piece with a hyphen has the numbers of its first and of
    its second hyphen-separated part. *)
Theorem parseRanges_entries s :
  s ≠ "" →
  ∃ pieces l,
    String.concat "," pieces = s
    ∧ Forall (λ p, contains_char "," p = false) pieces
    ∧ EdulogApiService.parseRanges (JString s) = JArray l
    ∧ Forall2 (λ piece r,
         (contains_char "-" piece = false
          ∧ r = object [("start", JNumber (StringToNumber piece));
                        ("end", JNumber (StringToNumber piece))])
         ∨ (∃ p0 p1 rest,
              String.concat "-" (p0 :: p1 :: rest) = piece
              ∧ Forall (λ p, contains_char "-" p = false) (p0 :: p1 :: rest)
              ∧ r = object [("start", JNumber (StringToNumber p0));
                            ("end", JNumber (StringToNumber p1))]))
       pieces l.
Proof.
  intros Hs. unfold EdulogApiService.parseRanges. simpl.
  destruct (String.eqb_spec s "") as [|_]; [done|]. simpl.
  exists (split_on "," s). eexists.
  split; [apply split_on_concat|]. split; [apply split_on_pieces|].
  split; [reflexivity|].
  apply Forall2_fmap_r, Forall_Forall2_diag, Forall_forall. intros piece _.
  unfold compose. cbv beta.
  destruct (contains_char "-" piece) eqn:Hc; [|by left].
  right. pose proof (split_on_concat "-" piece) as Hcat.
  pose proof (split_on_pieces "-" piece) as Hparts.
  apply split_on_two in Hc as (p0 & p1 & rest & Hsplit).
  rewrite Hsplit in Hcat, Hparts |- *.
  exists p0, p1, rest. split; [exact Hcat|]. split; [exact Hparts|]. reflexivity.
Qed.

(** X19.  A piece that begins with a hyphen is not read as a negative
    number: it becomes the range from [Number('')] to the number after
    the hyphen. *)
Theorem parseRanges_negative_bound digits :
  contains_char "," digits = false → contains_char "-" digits = false →
  EdulogApiService.parseRanges (JString ("-" +:+ digits))
  = JArray [object [("start", JNumber (StringToNumber ""));
                    ("end", JNumber (StringToNumber digits))]].
Proof.
  intros Hcomma Hminus. unfold EdulogApiService.parseRanges.
  change ("-" +:+ digits) with (String "-" digits).
  cbn [truthy String.eqb negb].
  change (split_on "," (String "-" digits))
    with (match split_on "," digits with
          | h :: t => String "-" h :: t
          | [] => [String "-" ""]
          end).
  rewrite (contains_char_split _ _ Hcomma). cbn [map contains_char Ascii.eqb Bool.eqb orb].
  change (split_on "-" (String "-" digits)) with ("" :: split_on "-" digits).
  by rewrite (contains_char_split _ _ Hminus).
Qed.

End ParseFacts.

Lemma parseColors_pieces_witness :
  "#ed1b06, #79e607" ≠ ""
  ∧ ∃ pieces,
      String.concat "," pieces = "#ed1b06, #79e607"
      ∧ Forall (λ p, contains_char "," p = false) pieces
      ∧ EdulogApiService.parseColors (JString "#ed1b06, #79e607")
        = JArray (map (λ p, JString (trim p)) pieces)
      ∧ colorsOf (JString "#ed1b06, #79e607")
        = Ok (EdulogApiService.parseColors (JString "#ed1b06, #79e607")).
Proof.
  assert ("#ed1b06, #79e607" ≠ "") as Hs by discriminate.
  split; [exact Hs|].
  exact (parseColors_pieces "#ed1b06, #79e607" Hs).
Defined.

Lemma parseRanges_entries_witness :
  "0-3,4-5,6" ≠ ""
  ∧ ∃ pieces l,
      String.concat "," pieces = "0-3,4-5,6"
      ∧ Forall (λ p, contains_char "," p = false) pieces
      ∧ EdulogApiService.parseRanges (JString "0-3,4-5,6") = JArray l
      ∧ Forall2 (λ piece r,
           (contains_char "-" piece = false
            ∧ r = object [("start", JNumber (StringToNumber piece));
                          ("end", JNumber (StringToNumber piece))])
           ∨ (∃ p0 p1 rest,
                String.concat "-" (p0 :: p1 :: rest) = piece
                ∧ Forall (λ p, contains_char "-" p = false) (p0 :: p1 :: rest)
                ∧ r = object [("start", JNumber (StringToNumber p0));
                              ("end", JNumber (StringToNumber p1))]))
         pieces l.
Proof.
  assert ("0-3,4-5,6" ≠ "") as Hs by discriminate.
  split; [exact Hs|].
  exact (parseRanges_entries "0-3,4-5,6" Hs).
Defined.

Lemma parseRanges_negative_bound_witness :
  contains_char "," "5" = false ∧ contains_char "-" "5" = false
  ∧ EdulogApiService.parseRanges (JString ("-" +:+ "5"))
    = JArray [object [("start", JNumber (StringToNumber ""));
                      ("end", JNumber (StringToNumber "5"))]].
Proof.
  split; [reflexivity|]. split; [reflexivity|].
  exact (parseRanges_negative_bound "5" eq_refl eq_refl).
Defined.

(** [parseRanges] on the default ranges and on a range with a negative
    bound. *)
Example parseRanges_examples :
  EdulogApiService.parseRanges (JString "0-3,4-5,6")
  = JArray [ EdulogApiService.range 0 3; EdulogApiService.range 4 5;
             EdulogApiService.range 6 6 ]
  ∧ EdulogApiService.parseRanges (JString "-5")
    = JArray [ EdulogApiService.range 0 5 ].
Proof. split; vm_compute; reflexivity. Qed.

(** ** The assemblers, continued *)

Section AdapterFacts.
Context `{Host}.

Lemma strict_eq_number v z : strict_eq v (JNumber (Num z)) = true → v = JNumber (Num z).
Proof.
  destruct v as [| | |[|x]| | |]; try done. simpl. by intros ->%Z.eqb_eq.
Qed.

(** The callback of [colors.map] throws on [null] only. *)
Lemma colorsOf_array l :
  (JNull ∈ l → ∃ e, colorsOf (JArray l) = Throw e)
  ∧ (JNull ∉ l → ∃ l', colorsOf (JArray l) = Ok (JArray l') ∧ length l' = length l).
Proof.
  unfold colorsOf.
  set (f := λ colorObj : value,
         if typeof_object colorObj then
           c ← get colorObj "color"; Ok (if truthy c then c else colorObj)
         else Ok colorObj).
  assert (∀ c, c ≠ JNull → ∃ c', f c = Ok c') as Hf.
  { intros c Hc. subst f. destruct c; try done; cbn; eauto. }
  split.
  - induction l as [|c l IH]; [by intros ?%elem_of_nil|].
    intros [<-|Hin]%elem_of_cons; cbn [mapM].
    + cbn. eauto.
    + destruct (f c) as [c'|]; [|cbn; eauto]. rewrite Ok_bind.
      destruct (IH Hin) as [e He].
      destruct (mapM f l) as [l'|]; [done|]. cbn. eauto.
  - induction l as [|c l IH]; [by exists []|].
    intros [Hc Hl]%not_elem_of_cons. cbn [mapM].
    destruct (Hf c) as [c' ->]; [done|]. rewrite Ok_bind.
    destruct (IH Hl) as (l' & Hl' & Hlen).
    destruct (mapM f l) as [l''|]; [|done]. injection Hl' as ->.
    rewrite !Ok_bind. exists (c' :: l'). split; [done|]. simpl. by rewrite Hlen.
Qed.

Lemma colorSpecOf_array authData l :
  colorSpecOf authData = JArray l →
  truthy (and_prop authData "parameters") = true.
Proof.
  unfold colorSpecOf, and_prop. intros Hspec.
  destruct (truthy authData) eqn:Ha.
  - destruct (truthy (prop authData "parameters")) eqn:Hp; [done|].
    by rewrite (prop_falsy _ "colors" Hp) in Hspec.
  - rewrite (prop_falsy _ "parameters" Ha) in Hspec; done.
Qed.

Lemma scoring_throws_on_null_colour cat sf authData testResults l :
  colorSpecOf authData = JArray l → JNull ∈ l →
  ∃ e, scoring cat sf authData testResults = Throw e.
Proof.
  intros Hspec Hnull. unfold scoring. rewrite (colorSpecOf_array _ _ Hspec).
  fold (colorSpecOf authData). rewrite Hspec. cbn [truthy].
  destruct (proj1 (colorsOf_array l) Hnull) as [e ->]. by exists e.
Qed.

(** X20.  A [null] entry in the colour array of the session makes
    [processData] of every assessment adapter throw. *)
Theorem processData_throws_on_null_colour a apiData authData testResults l :
  a ∈ adapters →
  colorSpecOf authData = JArray l → JNull ∈ l →
  ∃ e, processData a apiData authData testResults = Throw e.
Proof.
  intros Ha Hspec Hnull.
  destruct (scoring_throws_on_null_colour (category a) (scoreField a) authData
              testResults l Hspec Hnull) as [e He].
  exists e.
  apply elem_of_adapters in Ha as [->|[->| ->]];
    cbn [processData category scoreField aMerkfaehigkeit mZeichnen figurGrundS] in *;
    unfold AMerkfaehigkeitApi.processData, MZeichnenApi.processData,
      FigurGrundSApi.processData;
    by rewrite scoring_default_null, He.
Qed.

(** X21.  [min] and [submin] leave 0 only through a matching threshold
    whose level is the number 1, and [max] and [submax] leave 13 only
    through one whose level is the number 6. *)
Theorem min_max_need_numeric_levels a apiData authData testResults vm :
  a ∈ adapters →
  processData a apiData authData testResults = Ok vm →
  ((∀ ths t, thresholdsOf authData = JArray ths → t ∈ ths →
             hasCategory (category a) t = true →
             prop t "level" ≠ JNumber (Num 1)) →
   prop vm "min" = JNumber (Num 0) ∧ prop vm "submin" = JNumber (Num 0))
  ∧ ((∀ ths t, thresholdsOf authData = JArray ths → t ∈ ths →
               hasCategory (category a) t = true →
               prop t "level" ≠ JNumber (Num 6)) →
     prop vm "max" = JNumber (Num 13) ∧ prop vm "submax" = JNumber (Num 13)).
Proof.
  intros Ha Hvm.
  destruct (processData_scoring _ _ _ _ _ Ha Hvm)
    as (sc & Hsc & -> & -> & _ & _ & _ & -> & -> & _).
  assert (∀ z ths,
            (∀ t, t ∈ ths → hasCategory (category a) t = true →
                  prop t "level" ≠ JNumber (Num z)) →
            find (λ t, strict_eq (prop t "level") (JNumber (Num z)))
              (sort byLevel (List.filter (hasCategory (category a)) ths)) = None)
    as Hnone.
  { intros z ths Hno. apply find_none, Forall_forall. intros t Ht.
    apply sort_elem_of, list_elem_of_In, filter_In in Ht as [Ht Hcat].
    apply list_elem_of_In in Ht.
    destruct (strict_eq (prop t "level") (JNumber (Num z))) eqn:Heq; [|done].
    apply strict_eq_number in Heq. by destruct (Hno t Ht Hcat). }
  apply scoring_inv in Hsc as [_ [(ths & Hths & _ & ->)|[-> _]]]; [|done].
  split.
  - intros Hno. unfold resolved. cbn [s_min].
    rewrite (Hnone 1 ths); [done|]. intros t. by apply Hno.
  - intros Hno. unfold resolved. cbn [s_max].
    rewrite (Hnone 6 ths); [done|]. intros t. by apply Hno.
Qed.

Lemma cellColor_values v :
  AMerkfaehigkeitApi.cellColor v = greenColor
  ∨ AMerkfaehigkeitApi.cellColor v = redColor
  ∨ AMerkfaehigkeitApi.cellColor v = JString "".
Proof.
  unfold AMerkfaehigkeitApi.cellColor.
  destruct (strict_eq v (JBool true)); [by left|].
  destruct (strict_eq v (JBool false)); [by right; left|by right; right].
Qed.

Lemma cellColorsOf_shape testResults cellColors :
  AMerkfaehigkeitApi.cellColorsOf testResults = Ok cellColors →
  ∃ l, cellColors = JArray l
       ∧ ((hasItems testResults = false ∧ l = [])
          ∨ (hasItems testResults = true ∧ length l = 12%nat
             ∧ l !! 8%nat = Some (JString "")
             ∧ Forall (λ c, c = greenColor ∨ c = redColor ∨ c = JString "") l)).
Proof.
  unfold AMerkfaehigkeitApi.cellColorsOf. destruct (hasItems testResults).
  - unfold AMerkfaehigkeitApi.cellFields. cbn [mapM].
    destruct (nullish (prop (prop testResults "items") "0")) eqn:Hn.
    + by rewrite !(get_nullish _ _ Hn), !Throw_bind.
    + rewrite !(get_not_nullish _ _ Hn), !Ok_bind. intros [= <-].
      eexists. split; [reflexivity|]. right. split_and!; [done|done|done|].
      cbn [map]. repeat (constructor; [apply cellColor_values|]). constructor.
  - intros [= <-]. exists []. split; [done|]. by left.
Qed.

(** X22.  The [cellColors] of aMerkfaehigkeit are empty when the test
    result has no items, and otherwise twelve entries, each the pass
    colour, the fail colour or the empty string, the ninth always
    empty. *)
Theorem cellColors_shape apiData authData testResults vm :
  AMerkfaehigkeitApi.processData apiData authData testResults = Ok vm →
  ∃ l, prop vm "cellColors" = JArray l
       ∧ ((hasItems testResults = false ∧ l = [])
          ∨ (hasItems testResults = true ∧ length l = 12%nat
             ∧ l !! 8%nat = Some (JString "")
             ∧ Forall (λ c, c = greenColor ∨ c = redColor ∨ c = JString "") l)).
Proof.
  unfold AMerkfaehigkeitApi.processData. intros Hvm. inv_bind Hvm.
  injection Hvm as <-. rewrite prop_object.
  cbn [assoc fst snd String.eqb Ascii.eqb Bool.eqb default]. unfold id.
  apply cellColorsOf_shape in Hx0. by rewrite hasItems_default_null in Hx0.
Qed.

Lemma scoring_bar_independent cat sf authData t1 t2 s1 s2 :
  scoring cat sf authData t1 = Ok s1 →
  scoring cat sf authData t2 = Ok s2 →
  s_min s1 = s_min s2 ∧ s_max s1 = s_max s2
  ∧ s_colors s1 = s_colors s2 ∧ s_ranges s1 = s_ranges s2.
Proof.
  unfold scoring. destruct (truthy (and_prop authData "parameters")).
  - destruct (if truthy (prop (prop authData "parameters") "colors") then _ else _)
      as [colors|]; [|done]. rewrite !Ok_bind.
    destruct (truthy (prop (prop authData "parameters") "edulog_thresholds")).
    + destruct (matchingThresholds cat _) as [filtered|]; [|done]. rewrite !Ok_bind.
      destruct (6 <=? length filtered)%nat; by intros [= <-] [= <-].
    + by intros [= <-] [= <-].
  - by intros [= <-] [= <-].
Qed.

(** X23.  [min], [max], [colors], [ranges], [submin] and [submax] of an
    assembled view-model depend on the session alone, not on the test
    result. *)
Theorem bar_independent_of_test_result a apiData authData t1 t2 vm1 vm2 k :
  a ∈ adapters →
  processData a apiData authData t1 = Ok vm1 →
  processData a apiData authData t2 = Ok vm2 →
  k ∈ ["min"; "max"; "colors"; "ranges"; "submin"; "submax"] →
  prop vm1 k = prop vm2 k.
Proof.
  intros Ha H1 H2 Hk.
  destruct (processData_scoring _ _ _ _ _ Ha H1)
    as (s1 & Hs1 & Hmin1 & Hmax1 & Hc1 & Hr1 & _ & Hsmin1 & Hsmax1 & _).
  destruct (processData_scoring _ _ _ _ _ Ha H2)
    as (s2 & Hs2 & Hmin2 & Hmax2 & Hc2 & Hr2 & _ & Hsmin2 & Hsmax2 & _).
  destruct (scoring_bar_independent _ _ _ _ _ _ _ Hs1 Hs2) as (Hmin & Hmax & Hc & Hr).
  repeat (apply elem_of_cons in Hk as [->|Hk]; [congruence|]).
  by apply elem_of_nil in Hk.
Qed.

End AdapterFacts.

Lemma processData_throws_on_null_colour_witness :
  mZeichnen ∈ adapters
  ∧ colorSpecOf Examples.nullColour = JArray [JString "#ed1b06"; JNull]
  ∧ JNull ∈ [JString "#ed1b06"; JNull]
  ∧ ∃ e, processData mZeichnen Examples.child Examples.nullColour JNull = Throw e.
Proof.
  assert (colorSpecOf Examples.nullColour = JArray [JString "#ed1b06"; JNull]) as Hc
    by (vm_compute; reflexivity).
  assert (JNull ∈ [JString "#ed1b06"; JNull]) as Hn
    by (apply list_elem_of_further, list_elem_of_here).
  split; [exact mZeichnen_adapter|]. split; [exact Hc|]. split; [exact Hn|].
  exact (processData_throws_on_null_colour mZeichnen Examples.child
           Examples.nullColour JNull [JString "#ed1b06"; JNull]
           mZeichnen_adapter Hc Hn).
Defined.

Lemma min_max_need_numeric_levels_witness :
  mZeichnen ∈ adapters
  ∧ processData mZeichnen Examples.child Examples.stringSession JNull
    = Ok Examples.vmStringLevels
  ∧ ((∀ ths t, thresholdsOf Examples.stringSession = JArray ths → t ∈ ths →
               hasCategory (category mZeichnen) t = true →
               prop t "level" ≠ JNumber (Num 1)) →
     prop Examples.vmStringLevels "min" = JNumber (Num 0)
     ∧ prop Examples.vmStringLevels "submin" = JNumber (Num 0))
  ∧ ((∀ ths t, thresholdsOf Examples.stringSession = JArray ths → t ∈ ths →
               hasCategory (category mZeichnen) t = true →
               prop t "level" ≠ JNumber (Num 6)) →
     prop Examples.vmStringLevels "max" = JNumber (Num 13)
     ∧ prop Examples.vmStringLevels "submax" = JNumber (Num 13)).
Proof.
  assert (processData mZeichnen Examples.child Examples.stringSession JNull
          = Ok Examples.vmStringLevels) as Hvm by (vm_compute; reflexivity).
  split; [exact mZeichnen_adapter|]. split; [exact Hvm|].
  exact (min_max_need_numeric_levels mZeichnen Examples.child Examples.stringSession
           JNull Examples.vmStringLevels mZeichnen_adapter Hvm).
Defined.

(** Six levels given as the strings ["1"] to ["6"], with bands from 1 to 12:
    the ranges are resolved, in the order of the levels, while [min] and
    [max] stay at 0 and 13. *)
Example string_levels_keep_default_bounds :
  prop Examples.vmStringLevels "min" = JNumber (Num 0)
  ∧ prop Examples.vmStringLevels "max" = JNumber (Num 13)
  ∧ prop (prop (prop Examples.vmStringLevels "ranges") "0") "start" = JNumber (Num 1)
  ∧ prop (prop (prop Examples.vmStringLevels "ranges") "5") "end" = JNumber (Num 12)
  ∧ prop (prop Examples.vmStringLevels "ranges") "length" = JNumber (Num 6).
Proof. split_and!; vm_compute; reflexivity. Qed.

Lemma cellColors_shape_witness :
  AMerkfaehigkeitApi.processData Examples.child Examples.merkSession Examples.gridResult
  = Ok Examples.vmGrid
  ∧ ∃ l, prop Examples.vmGrid "cellColors" = JArray l
         ∧ ((hasItems Examples.gridResult = false ∧ l = [])
            ∨ (hasItems Examples.gridResult = true ∧ length l = 12%nat
               ∧ l !! 8%nat = Some (JString "")
               ∧ Forall (λ c, c = greenColor ∨ c = redColor ∨ c = JString "") l)).
Proof.
  assert (AMerkfaehigkeitApi.processData Examples.child Examples.merkSession
            Examples.gridResult = Ok Examples.vmGrid) as Hvm
    by (vm_compute; reflexivity).
  split; [exact Hvm|].
  exact (cellColors_shape Examples.child Examples.merkSession Examples.gridResult
           Examples.vmGrid Hvm).
Defined.

Lemma bar_independent_of_test_result_witness :
  mZeichnen ∈ adapters
  ∧ processData mZeichnen Examples.child Examples.overlappingSession Examples.score5
    = Ok Examples.vmOverlapping
  ∧ processData mZeichnen Examples.child Examples.overlappingSession JNull
    = Ok Examples.vmNoResult
  ∧ "ranges" ∈ ["min"; "max"; "colors"; "ranges"; "submin"; "submax"]
  ∧ prop Examples.vmOverlapping "ranges" = prop Examples.vmNoResult "ranges".
Proof.
  assert (processData mZeichnen Examples.child Examples.overlappingSession
            Examples.score5 = Ok Examples.vmOverlapping) as H1
    by (vm_compute; reflexivity).
  assert (processData mZeichnen Examples.child Examples.overlappingSession JNull
          = Ok Examples.vmNoResult) as H2 by (vm_compute; reflexivity).
  assert ("ranges" ∈ ["min"; "max"; "colors"; "ranges"; "submin"; "submax"]) as Hk
    by (do 3 apply list_elem_of_further; apply list_elem_of_here).
  split; [exact mZeichnen_adapter|]. split; [exact H1|]. split; [exact H2|].
  split; [exact Hk|].
  exact (bar_independent_of_test_result mZeichnen Examples.child
           Examples.overlappingSession Examples.score5 JNull
           Examples.vmOverlapping Examples.vmNoResult "ranges"
           mZeichnen_adapter H1 H2 Hk).
Defined.

Section Returns.
Context `{Host}.






(** X25.  The keys of an assembled view-model are those of the adapter's
    fallback record; for figurGrundS, when the test result has items. *)
Theorem key_parity_given_items a apiData authData testResults vm :
  a ∈ adapters →
  processData a apiData authData testResults = Ok vm →
  (a = figurGrundS → hasItems testResults = true) →
  keys vm = keys (getFallbackData a).
Proof.
  intros [->|[->| ->]]%elem_of_adapters Hvm Hitems;
    cbn [processData getFallbackData aMerkfaehigkeit mZeichnen figurGrundS] in *.
  - by apply aMerkfaehigkeit_same_keys in Hvm.
  - by apply mZeichnen_same_keys in Hvm.
  - apply figurGrundS_keys in Hvm as [Hkeys _].
    rewrite (Hitems eq_refl) in Hkeys. by rewrite union_empty_r_L in Hkeys.
Qed.

(** X26.  [processData] of ArbeitsBlaetter has the keys of its fallback
    record, and under each of them the value that [processApiData]
    computes for that name. *)
Theorem arbeitsBlaetter_agrees_with_generic apiData authData vm :
  ArbeitsBlaetterApi.processData apiData authData = Ok vm →
  keys vm = keys ArbeitsBlaetterApi.getFallbackData
  ∧ ∀ k, k ∈ keys vm →
         object_map (EdulogApiService.normalized apiData (default_null authData)) !! k
         = Some (prop vm k).
Proof.
  intros Hvm. split; [by apply arbeitsBlaetter_same_keys in Hvm|].
  revert Hvm.
  unfold ArbeitsBlaetterApi.processData, EdulogApiService.normalized.
  destruct (if truthy (default_null authData) then _ else _) as [companyName stadt].
  intros Hvm. inv_bind Hvm. injection Hvm as <-.
  apply get_Ok in Hx as [_ ->]. apply get_Ok in Hx0 as [_ ->].
  apply get_Ok in Hx1 as [_ ->]. apply get_Ok in Hx2 as [_ ->].
  intros k. rewrite keys_object. cbn [map fst].
  rewrite elem_of_list_to_set, !elem_of_cons, elem_of_nil.
  intros Hk. rewrite object_map_lookup, prop_object.
  repeat destruct Hk as [->|Hk]; [reflexivity..|done].
Qed.

End Returns.


Lemma key_parity_given_items_witness :
  figurGrundS ∈ adapters
  ∧ processData figurGrundS Examples.child Examples.merkSession Examples.gridResult
    = Ok Examples.vmItems
  ∧ (figurGrundS = figurGrundS → hasItems Examples.gridResult = true)
  ∧ keys Examples.vmItems = keys (getFallbackData figurGrundS).
Proof.
  assert (processData figurGrundS Examples.child Examples.merkSession
            Examples.gridResult = Ok Examples.vmItems) as Hvm
    by (vm_compute; reflexivity).
  assert (figurGrundS = figurGrundS → hasItems Examples.gridResult = true) as Hitems
    by (intros _; vm_compute; reflexivity).
  split; [exact figurGrundS_adapter|]. split; [exact Hvm|]. split; [exact Hitems|].
  exact (key_parity_given_items figurGrundS Examples.child Examples.merkSession
           Examples.gridResult Examples.vmItems figurGrundS_adapter Hvm Hitems).
Defined.

Lemma arbeitsBlaetter_agrees_with_generic_witness :
  ArbeitsBlaetterApi.processData Examples.child Examples.merkSession
  = Ok Examples.vmSheet
  ∧ (keys Examples.vmSheet = keys ArbeitsBlaetterApi.getFallbackData
     ∧ ∀ k, k ∈ keys Examples.vmSheet →
            object_map (EdulogApiService.normalized Examples.child
                          (default_null Examples.merkSession)) !! k
            = Some (prop Examples.vmSheet k)).
Proof.
  assert (ArbeitsBlaetterApi.processData Examples.child Examples.merkSession
          = Ok Examples.vmSheet) as Hvm by (vm_compute; reflexivity).
  split; [exact Hvm|].
  exact (arbeitsBlaetter_agrees_with_generic Examples.child Examples.merkSession
           Examples.vmSheet Hvm).
Defined.

(** ** The constructor *)

(** X27.  On a host name that contains [.test] but not [dev-], the
    constructor selects the development endpoints while
    [getEnvironmentInfo] reports [isDev: false]. *)
Theorem getEnvironmentInfo_isDev_misses_test_hosts hostname :
  includes ".test" hostname = true → includes "dev-" hostname = false →
  isDev hostname = true
  ∧ prop (getEnvironmentInfo hostname) "isDev" = JBool false
  ∧ prop (getEnvironmentInfo hostname) "authUrl"
    = JString "https://dev.bildung.software/api/v1/authenticate"
  ∧ prop (getEnvironmentInfo hostname) "baseUrl"
    = JString "https://dev-edulog-api.bildung.software/api".
Proof.
  unfold getEnvironmentInfo. rewrite !prop_object.
  cbn [assoc fst snd String.eqb Ascii.eqb Bool.eqb default]. unfold id.
  unfold authUrlOf, baseUrlOf, isDev. by intros -> ->.
Qed.

Lemma getEnvironmentInfo_isDev_misses_test_hosts_witness :
  includes ".test" "logmedia-edulog-api.test" = true
  ∧ includes "dev-" "logmedia-edulog-api.test" = false
  ∧ isDev "logmedia-edulog-api.test" = true
  ∧ prop (getEnvironmentInfo "logmedia-edulog-api.test") "isDev" = JBool false
  ∧ prop (getEnvironmentInfo "logmedia-edulog-api.test") "authUrl"
    = JString "https://dev.bildung.software/api/v1/authenticate"
  ∧ prop (getEnvironmentInfo "logmedia-edulog-api.test") "baseUrl"
    = JString "https://dev-edulog-api.bildung.software/api".
Proof.
  split; [vm_compute; reflexivity|]. split; [vm_compute; reflexivity|].
  exact (getEnvironmentInfo_isDev_misses_test_hosts "logmedia-edulog-api.test"
           eq_refl eq_refl).
Defined.
